(** * Sentinel-2 STAC item assembly: [stactools/sentinel2/stac.py]

    A shallow embedding of [create_item] and [image_asset_from_href]
    together with the Python primitives they rely on ([os.path.splitext],
    [os.path.join], [str.lower], slicing, the [in] operator on strings,
    the regular expression [_(B\w{2})_], [dict(...)] and item access).

    Conventions.
    - A Python [str] is a [string]: the sequence of its code points,
      for code points below 256 (ASCII and Latin-1).
    - A Python [float] that carries a ground-sample distance or a
      coordinate is a rational [Q]; the code only stores such numbers,
      hands them to collaborators, or truncates them with [int(...)].
    - A raised exception is the [Raise] outcome of the [Result] monad;
      there is no handler anywhere in the module, so every exception
      ends the call.
    - [logger.debug] has no effect on the outcome and is left out. *)

From Stdlib Require Import ZArith QArith Ascii String List Bool Lia.
From stdpp Require Import base option list gmap strings fin_maps.

Local Open Scope string_scope.
Local Open Scope Z_scope.
Set Warnings "-register-all".

(** ** Exceptions and the outcome monad *)

(** A value of Python's dynamic universe, as far as the module stores
    such values ([metadata_dict], GeoJSON geometry, exception payloads). *)
Inductive Value : Type :=
| VNone
| VBool (b : bool)
| VInt (z : Z)
| VFloat (q : Q)
| VStr (s : string)
| VList (l : list Value)
| VDict (kvs : list (string * Value)).

(** The exception classes the module can raise or let through.
    [OtherError] stands for whatever a metadata reader or a helper that
    lives outside this file raises. *)
Inductive PyError : Type :=
| Exception (msg : string)
| ValueError (msg : string)
| KeyError (key : Value)
| AssertionError
| OtherError (cls msg : string).

Inductive Result (A : Type) : Type :=
| Ok (a : A)
| Raise (e : PyError).
Arguments Ok {A} a.
Arguments Raise {A} e.

(** Sequencing: [x ← m; k] runs [k] on the value of [m] unless [m]
    raised, in which case the exception goes through. *)
#[global] Instance Result_ret : MRet Result := fun _ a => Ok a.
#[global] Instance Result_bind : MBind Result := fun _ _ k m =>
  match m with
  | Ok a => k a
  | Raise e => Raise e
  end.

(** [[f(x) for x in xs]]: left to right, the first exception wins. *)
Fixpoint list_comprehension {A B} (f : A -> Result B) (xs : list A)
  : Result (list B) :=
  match xs with
  | [] => Ok []
  | x :: xs' =>
      y ← f x;
      ys ← list_comprehension f xs';
      Ok (y :: ys)
  end.

(** A [for] loop that threads the mutated object [s] through its body. *)
Fixpoint for_each {A S} (body : S -> A -> Result S) (xs : list A) (s : S)
  : Result S :=
  match xs with
  | [] => Ok s
  | x :: xs' => s' ← body s x; for_each body xs' s'
  end.

(** ** Python strings *)

Module PyStr.

Definition ord (c : ascii) : Z := Z.of_N (N_of_ascii c).
Definition chr (z : Z) : ascii := ascii_of_N (Z.to_N z).

Definition len (s : string) : Z := Z.of_nat (String.length s).

(** [str.lower] on one code point below 256: the ASCII capitals and
    the Latin-1 capitals U+00C0..U+00DE (U+00D7 is the multiplication
    sign) move 32 places up; everything else is its own lowercase. *)
Definition lower_char (c : ascii) : ascii :=
  let n := ord c in
  if ((65 <=? n) && (n <=? 90))
     || ((192 <=? n) && (n <=? 222) && negb (n =? 215))
  then chr (n + 32) else c.

Fixpoint lower (s : string) : string :=
  match s with
  | EmptyString => EmptyString
  | String c s' => String (lower_char c) (lower s')
  end.

(** [\w] of the [re] module on a [str] pattern: alphanumeric code
    points and the underscore. Below 256 these are the ASCII letters
    and digits, [_], and the Latin-1 letters and numerics. *)
Definition is_word (c : ascii) : bool :=
  let n := ord c in
  ((48 <=? n) && (n <=? 57))
  || ((65 <=? n) && (n <=? 90))
  || (n =? 95)
  || ((97 <=? n) && (n <=? 122))
  || (n =? 170) || (n =? 178) || (n =? 179) || (n =? 181)
  || (n =? 185) || (n =? 186)
  || ((188 <=? n) && (n <=? 190))
  || ((192 <=? n) && (n <=? 214))
  || ((216 <=? n) && (n <=? 246))
  || ((248 <=? n) && (n <=? 255)).

(** [s.startswith(p)] *)
Fixpoint startswith (p s : string) : bool :=
  match p, s with
  | EmptyString, _ => true
  | String a p', String b s' => Ascii.eqb a b && startswith p' s'
  | String _ _, EmptyString => false
  end.

(** [sub in s] *)
Fixpoint contains (sub s : string) : bool :=
  startswith sub s ||
  match s with
  | EmptyString => false
  | String _ s' => contains sub s'
  end.

(** [s.endswith(c)] for a one-character [c] *)
Fixpoint endswith_char (c : ascii) (s : string) : bool :=
  match s with
  | EmptyString => false
  | String a EmptyString => Ascii.eqb a c
  | String _ s' => endswith_char c s'
  end.

(** [s.rfind(c)] for a one-character [c]: the highest index holding
    [c], or [-1]. *)
Fixpoint rfind (c : ascii) (s : string) : Z :=
  match s with
  | EmptyString => -1
  | String a s' =>
      let r := rfind c s' in
      if 0 <=? r then r + 1
      else if Ascii.eqb a c then 0 else -1
  end.

(** Index normalisation of a slice bound: a negative bound counts from
    the end, and bounds are clamped to [0 .. len]. *)
Definition clamp (n i : Z) : Z :=
  if i <? 0 then Z.max (i + n) 0 else Z.min i n.

(** [s[i:j]] (step 1); [None] is an omitted bound. *)
Definition slice (s : string) (i j : option Z) : string :=
  let n := len s in
  let lo := match i with Some i => clamp n i | None => 0 end in
  let hi := match j with Some j => clamp n j | None => n end in
  if lo <? hi then substring (Z.to_nat lo) (Z.to_nat (hi - lo)) s
  else EmptyString.

(** Lowercase hexadecimal digit. *)
Definition hex_digit (n : Z) : ascii :=
  if n <? 10 then chr (48 + n) else chr (87 + n).

(** [str.isprintable] on one code point below 256: the control
    characters, the no-break space and the soft hyphen are not
    printable. *)
Definition is_printable (c : ascii) : bool :=
  let n := ord c in
  negb ((n <? 32) || ((127 <=? n) && (n <=? 160)) || (n =? 173)).

(** What [repr] writes for one character inside the quotes [quote]. *)
Definition repr_char (quote c : ascii) : string :=
  let n := ord c in
  if Ascii.eqb c quote || Ascii.eqb c "\" then String "\" (String c EmptyString)
  else if n =? 9 then "\t"
  else if n =? 10 then "\n"
  else if n =? 13 then "\r"
  else if is_printable c then String c EmptyString
  else String "\" (String "x"
         (String (hex_digit (n / 16))
            (String (hex_digit (n mod 16)) EmptyString))).

Fixpoint repr_chars (quote : ascii) (s : string) : string :=
  match s with
  | EmptyString => String quote EmptyString
  | String c s' => repr_char quote c ++ repr_chars quote s'
  end.

(** [repr(s)]: in single quotes, or in double quotes when [s] has a
    single quote and no double quote; the quote character, the
    backslash and what is not printable are escaped. *)
Definition repr (s : string) : string :=
  let single := "'"%char in
  let double := chr 34 in
  let quote :=
    if contains (String single EmptyString) s
       && negb (contains (String double EmptyString) s)
    then double else single in
  String quote (repr_chars quote s).

End PyStr.

(** ** [os.path] (POSIX flavour) *)

Module os_path.
Import PyStr.

(** The scan of [genericpath._splitext] over
    [filenameIndex = sepIndex + 1 .. dotIndex - 1]: is there a
    character other than the dot before the last dot? [fuel] is the
    number of indices still to visit. *)
Fixpoint has_non_dot (p : string) (filenameIndex : Z) (fuel : nat) : bool :=
  match fuel with
  | O => false
  | S fuel' =>
      if negb (String.eqb
                 (slice p (Some filenameIndex) (Some (filenameIndex + 1)))
                 ".")
      then true
      else has_non_dot p (filenameIndex + 1) fuel'
  end.

(** [os.path.splitext(p)]: the extension starts at the last dot when
    that dot comes after the last [/] and is not one of the leading
    dots of the file name. *)
Definition splitext (p : string) : string * string :=
  let sepIndex := rfind "/" p in
  let dotIndex := rfind "." p in
  if (sepIndex <? dotIndex)
     && has_non_dot p (sepIndex + 1) (Z.to_nat (dotIndex - (sepIndex + 1)))
  then (slice p None (Some dotIndex), slice p (Some dotIndex) None)
  else (p, slice p None (Some 0)).

(** [os.path.join(a, b)] *)
Definition join (a b : string) : string :=
  if startswith "/" b then b
  else if String.eqb a "" || endswith_char "/" a then a ++ b
  else a ++ "/" ++ b.

End os_path.

(** ** The regular expression [_(B\w{2})_] *)

(** Does the pattern match at the very start of [s]? If so, group 1. *)
Definition band_id_match_here (s : string) : option string :=
  match s with
  | String "_" (String "B" (String c1 (String c2 (String "_" _)))) =>
      if PyStr.is_word c1 && PyStr.is_word c2
      then Some (String "B" (String c1 (String c2 EmptyString)))
      else None
  | _ => None
  end.

(** [re.search(r'_(B\w{2})_', s)] followed by [.group(1)]: the pattern
    has a fixed width, so the match found is the leftmost position where
    it fits. [None] is the [None] of [re.search]. *)
Fixpoint band_id_search (s : string) : option string :=
  match band_id_match_here s with
  | Some b => Some b
  | None =>
      match s with
      | EmptyString => None
      | String _ s' => band_id_search s'
      end
  end.

(** [int(x)] on a float: truncation toward zero. *)
Definition py_int (q : Q) : Z := Z.quot (Qnum q) (Z.pos (Qden q)).


(** ** Python dictionaries *)

(** [d[k]] on a read-only table: [KeyError(k)] when [k] is absent.
    [repr_key] gives the exception its payload. *)
Definition getitem {K V} `{Countable K} (repr_key : K -> Value)
    (d : gmap K V) (k : K) : Result V :=
  match d !! k with
  | Some v => Ok v
  | None => Raise (KeyError (repr_key k))
  end.

(** [d[k] = v] on an insertion-ordered dictionary: an existing key keeps
    its place and takes the new value, a new key goes last. *)
Fixpoint dict_setitem {V} (k : string) (v : V) (d : list (string * V))
  : list (string * V) :=
  match d with
  | [] => [(k, v)]
  | (k', v') :: d' =>
      if String.eqb k' k then (k, v) :: d'
      else (k', v') :: dict_setitem k v d'
  end.

(** [dict(pairs)]: the pairs are stored one after the other, so of two
    pairs with the same key the later one is kept. The result is the
    sequence [.items()] iterates over. *)
Definition py_dict {V} (pairs : list (string * V)) : list (string * V) :=
  foldl (fun d kv => dict_setitem kv.1 kv.2 d) [] pairs.

(** The map that the assignments [m[k] = v], for the pairs [(k, v)] in
    their order, leave behind. *)
Definition store_all {V} (pairs : list (string * V)) (m : gmap string V)
  : gmap string V :=
  foldl (fun m kv => <[kv.1 := kv.2]> m) m pairs.

(** [d.update(other)] on a dictionary read by key only: the entries of
    [other] replace the entries of the same key. *)
Definition dict_update {V} (d other : gmap string V) : gmap string V :=
  other ∪ d.

(** The display [{**d1, **d2}]: a new dictionary that receives the
    entries of [d1] and then those of [d2]. *)
Definition dict_unpack2 {V} (d1 d2 : gmap string V) : gmap string V :=
  dict_update (dict_update ∅ d1) d2.

(** ** The pystac objects the module builds *)

Module MediaType.
(** [pystac.MediaType] is a [str] enumeration; a media type is its
    string value. *)
Definition COG : string :=
  "image/tiff; application=geotiff; profile=cloud-optimized".
Definition GEOTIFF : string := "image/tiff; application=geotiff".
Definition JPEG2000 : string := "image/jp2".
Definition XML : string := "application/xml".
End MediaType.

(** [pystac.extensions.eo.Band] *)
Record Band : Type := {
  band_name : string;
  band_common_name : option string;
  band_description : option string;
  band_center_wavelength : option Q;
  band_full_width_half_max : option Q;
}.

(** [pystac.Asset], with the per-asset fields the module writes through
    the electro-optical and projection extensions and through
    [common_metadata.set_gsd]. A field that was never written is [None]. *)
Module Asset.
Record t : Type := {
  href : string;
  media_type : option string;
  title : option string;
  roles : option (list string);
  eo_bands : option (list Band);
  gsd : option Q;
  proj_shape : option (list Z);
  proj_bbox : option (list Q);
  proj_transform : option (list Q);
}.

(** [pystac.Asset(href=..., media_type=..., title=..., roles=...)] *)
Definition make (href : string) (media_type title : option string)
    (roles : option (list string)) : t :=
  {| href := href; media_type := media_type; title := title;
     roles := roles; eo_bands := None; gsd := None;
     proj_shape := None; proj_bbox := None; proj_transform := None |}.

(** [EOExtension.ext(asset).bands = bands] *)
Definition set_eo_bands (bands : list Band) (a : t) : t :=
  {| href := href a; media_type := media_type a; title := title a;
     roles := roles a; eo_bands := Some bands; gsd := gsd a;
     proj_shape := proj_shape a; proj_bbox := proj_bbox a;
     proj_transform := proj_transform a |}.

(** [item.common_metadata.set_gsd(gsd, asset)]: the value goes to the
    asset, the item is not touched. *)
Definition set_gsd (g : Q) (a : t) : t :=
  {| href := href a; media_type := media_type a; title := title a;
     roles := roles a; eo_bands := eo_bands a; gsd := Some g;
     proj_shape := proj_shape a; proj_bbox := proj_bbox a;
     proj_transform := proj_transform a |}.

(** The three assignments through [ProjectionExtension.ext(asset)]. *)
Definition set_projection (shape : list Z) (bbox transform : list Q)
    (a : t) : t :=
  {| href := href a; media_type := media_type a; title := title a;
     roles := roles a; eo_bands := eo_bands a; gsd := gsd a;
     proj_shape := Some shape; proj_bbox := Some bbox;
     proj_transform := Some transform |}.
End Asset.

(** [pystac.Provider] and [pystac.Link], as far as the module handles
    them: it only stores the ones it is given. *)
Record Provider : Type := {
  provider_name : string;
  provider_roles : list string;
  provider_url : option string;
}.

Record Link : Type := {
  link_rel : string;
  link_target : string;
}.

(** [pystac.extensions.sat.OrbitState] *)
Inductive OrbitState : Type := ASCENDING | DESCENDING | GEOSTATIONARY.

(** [OrbitState(value)]: lookup of an enumeration member by value,
    [ValueError] when there is none. *)
Definition OrbitState_of_value (value : string) : Result OrbitState :=
  if String.eqb value "ascending" then Ok ASCENDING
  else if String.eqb value "descending" then Ok DESCENDING
  else if String.eqb value "geostationary" then Ok GEOSTATIONARY
  else Raise (ValueError (PyStr.repr value ++ " is not a valid OrbitState")).

(** [pystac.Item]. pystac keeps common metadata and extension fields in
    the item under namespaced names; the record has one typed field for
    each attribute [create_item] assigns, and [properties] holds what is
    written through [item.properties] itself. *)
Module Item.
Record t : Type := {
  id : string;
  geometry : Value;
  bbox : list Q;
  datetime : string;
  properties : gmap string Value;
  providers : option (list Provider);
  platform : option string;
  constellation : option string;
  instruments : option (list string);
  eo_cloud_cover : option Q;
  sat_orbit_state : option OrbitState;
  sat_relative_orbit : option Z;
  proj_epsg : option Z;
  assets : gmap string Asset.t;
  links : list Link;
}.

(** [pystac.Item(id=..., geometry=..., bbox=..., datetime=...,
    properties=...)] *)
Definition make (id : string) (geometry : Value) (bbox : list Q)
    (datetime : string) (properties : gmap string Value) : t :=
  {| id := id; geometry := geometry; bbox := bbox; datetime := datetime;
     properties := properties; providers := None; platform := None;
     constellation := None; instruments := None; eo_cloud_cover := None;
     sat_orbit_state := None; sat_relative_orbit := None;
     proj_epsg := None; assets := ∅; links := [] |}.

Definition set_common_metadata (providers' : option (list Provider))
    (platform' constellation' : option string)
    (instruments' : option (list string)) (i : t) : t :=
  {| id := id i; geometry := geometry i; bbox := bbox i;
     datetime := datetime i; properties := properties i;
     providers := providers'; platform := platform';
     constellation := constellation'; instruments := instruments';
     eo_cloud_cover := eo_cloud_cover i;
     sat_orbit_state := sat_orbit_state i;
     sat_relative_orbit := sat_relative_orbit i;
     proj_epsg := proj_epsg i; assets := assets i; links := links i |}.

Definition set_eo_cloud_cover (v : option Q) (i : t) : t :=
  {| id := id i; geometry := geometry i; bbox := bbox i;
     datetime := datetime i; properties := properties i;
     providers := providers i; platform := platform i;
     constellation := constellation i; instruments := instruments i;
     eo_cloud_cover := v;
     sat_orbit_state := sat_orbit_state i;
     sat_relative_orbit := sat_relative_orbit i;
     proj_epsg := proj_epsg i; assets := assets i; links := links i |}.

Definition set_sat (state : OrbitState) (relative_orbit : option Z)
    (i : t) : t :=
  {| id := id i; geometry := geometry i; bbox := bbox i;
     datetime := datetime i; properties := properties i;
     providers := providers i; platform := platform i;
     constellation := constellation i; instruments := instruments i;
     eo_cloud_cover := eo_cloud_cover i;
     sat_orbit_state := Some state;
     sat_relative_orbit := relative_orbit;
     proj_epsg := proj_epsg i; assets := assets i; links := links i |}.

Definition set_proj_epsg (v : option Z) (i : t) : t :=
  {| id := id i; geometry := geometry i; bbox := bbox i;
     datetime := datetime i; properties := properties i;
     providers := providers i; platform := platform i;
     constellation := constellation i; instruments := instruments i;
     eo_cloud_cover := eo_cloud_cover i;
     sat_orbit_state := sat_orbit_state i;
     sat_relative_orbit := sat_relative_orbit i;
     proj_epsg := v; assets := assets i; links := links i |}.

(** [item.properties.update(d)] *)
Definition properties_update (d : gmap string Value) (i : t) : t :=
  {| id := id i; geometry := geometry i; bbox := bbox i;
     datetime := datetime i; properties := dict_update (properties i) d;
     providers := providers i; platform := platform i;
     constellation := constellation i; instruments := instruments i;
     eo_cloud_cover := eo_cloud_cover i;
     sat_orbit_state := sat_orbit_state i;
     sat_relative_orbit := sat_relative_orbit i;
     proj_epsg := proj_epsg i; assets := assets i; links := links i |}.

(** [item.add_asset(key, asset)] is [item.assets[key] = asset]: pystac
    does not look whether the key is taken. *)
Definition add_asset (key : string) (asset : Asset.t) (i : t) : t :=
  {| id := id i; geometry := geometry i; bbox := bbox i;
     datetime := datetime i; properties := properties i;
     providers := providers i; platform := platform i;
     constellation := constellation i; instruments := instruments i;
     eo_cloud_cover := eo_cloud_cover i;
     sat_orbit_state := sat_orbit_state i;
     sat_relative_orbit := sat_relative_orbit i;
     proj_epsg := proj_epsg i; assets := <[key := asset]> (assets i);
     links := links i |}.

(** [item.links.append(link)] *)
Definition links_append (l : Link) (i : t) : t :=
  {| id := id i; geometry := geometry i; bbox := bbox i;
     datetime := datetime i; properties := properties i;
     providers := providers i; platform := platform i;
     constellation := constellation i; instruments := instruments i;
     eo_cloud_cover := eo_cloud_cover i;
     sat_orbit_state := sat_orbit_state i;
     sat_relative_orbit := sat_relative_orbit i;
     proj_epsg := proj_epsg i; assets := assets i;
     links := (links i ++ [l])%list |}.
End Item.

(** ** The collaborators of the module

    [stac.py] imports its metadata readers, two helpers and its constant
    tables from files that are not part of the sources at hand. What a
    reader object offers is a record of the attributes [create_item]
    reads; the readers themselves, the helpers and the constants are the
    fields of [Collaborators], so every statement below holds for
    whatever they are. *)

Definition ReadHrefModifier : Type := string -> string.

(** What [create_item] reads from a [SafeManifest]. *)
Module SafeManifest.
Record t : Type := {
  product_metadata_href : string;
  granule_metadata_href : string;
  inspire_metadata_href : string;
  datastrip_metadata_href : string;
  thumbnail_href : option string;
  create_asset : string * Asset.t;
}.
End SafeManifest.

(** What [create_item] reads from a [ProductMetadata]. *)
Module ProductMetadata.
Record t : Type := {
  product_id : string;
  geometry : Value;
  bbox : list Q;
  datetime : string;
  platform : string;
  orbit_state : string;
  relative_orbit : Z;
  image_media_type : option string;
  image_paths : list string;
  metadata_dict : gmap string Value;
  create_asset : string * Asset.t;
}.
End ProductMetadata.

(** What [create_item] reads from a [GranuleMetadata]. *)
Module GranuleMetadata.
Record t : Type := {
  cloudiness_percentage : Q;
  epsg : option Z;
  resolution_to_shape : gmap Z (Z * Z);
  proj_bbox : list Q;
  metadata_dict : gmap string Value;
  create_asset : string * Asset.t;
}.
End GranuleMetadata.

Class Collaborators : Type := {
  (** [stactools.sentinel2.constants] *)
  SENTINEL_BANDS : gmap string Band;
  SENTINEL_PROVIDER : Provider;
  SENTINEL_LICENSE : Link;
  SENTINEL_INSTRUMENTS : list string;
  SENTINEL_CONSTELLATION : string;
  INSPIRE_METADATA_ASSET_KEY : string;
  DATASTRIP_METADATA_ASSET_KEY : string;
  (** [stactools.sentinel2.utils.extract_gsd] *)
  extract_gsd : string -> Result Q;
  (** [stactools.core.projection.transform_from_bbox] *)
  transform_from_bbox : list Q -> list Z -> Result (list Q);
  (** The constructors [SafeManifest(href, read_href_modifier)],
      [ProductMetadata(...)] and [GranuleMetadata(...)]. *)
  new_SafeManifest :
    string -> option ReadHrefModifier -> Result SafeManifest.t;
  new_ProductMetadata :
    string -> option ReadHrefModifier -> Result ProductMetadata.t;
  new_GranuleMetadata :
    string -> option ReadHrefModifier -> Result GranuleMetadata.t;
}.

(** ** [image_asset_from_href] *)

Section Classifier.
Context `{Collaborators}.

(** Lines 151-161: the media type of the asset. *)
Definition asset_media_type_of (asset_href : string)
    (media_type : option string) : Result string :=
  let ext := (os_path.splitext asset_href).2 in
  match media_type with
  | Some m => Ok m
  | None =>
      if String.eqb (PyStr.lower ext) ".jp2" then Ok MediaType.JPEG2000
      else if existsb (String.eqb (PyStr.lower ext)) [".tiff"; ".tif"]
      then Ok MediaType.GEOTIFF
      else Raise (Exception
                    ("Must supply a media type for asset : " ++ asset_href))
  end.

(** The inner function [set_asset_properties], closed over [gsd],
    [shape], [proj_bbox] and [transform]. *)
Definition set_asset_properties (gsd : Q) (shape : list Z)
    (proj_bbox transform : list Q) (asset : Asset.t) : Asset.t :=
  Asset.set_projection shape proj_bbox transform (Asset.set_gsd gsd asset).

(** The key of an auxiliary image: [f'{prefix}-{asset_href[-7:-4]}'] *)
Definition suffixed_key (prefix asset_href : string) : string :=
  prefix ++ "-" ++ PyStr.slice asset_href (Some (-7)) (Some (-4)).

Definition image_asset_from_href (asset_href : string) (item : Item.t)
    (resolution_to_shape : gmap Z (Z * Z)) (proj_bbox : list Q)
    (media_type : option string) : Result (string * Asset.t) :=
  asset_media_type ← asset_media_type_of asset_href media_type;
  (* Handle preview image *)
  if PyStr.contains "_PVI" asset_href then
    let asset := Asset.make asset_href (Some asset_media_type)
                   (Some "True color preview") (Some ["data"]) in
    b04 ← getitem VStr SENTINEL_BANDS "B04";
    b03 ← getitem VStr SENTINEL_BANDS "B03";
    b02 ← getitem VStr SENTINEL_BANDS "B02";
    Ok ("preview", Asset.set_eo_bands [b04; b03; b02] asset)
  else
  (* Extract gsd and proj info *)
  gsd ← extract_gsd asset_href;
  shape_tuple ← getitem VInt resolution_to_shape (py_int gsd);
  let shape := [shape_tuple.1; shape_tuple.2] in
  transform ← transform_from_bbox proj_bbox shape;
  let set_asset_properties :=
    set_asset_properties gsd shape proj_bbox transform in
  (* Handle band image *)
  match band_id_search asset_href with
  | Some band_id =>
      band ← getitem VStr SENTINEL_BANDS band_id;
      let asset := Asset.make asset_href (Some asset_media_type)
                     (band_description band) (Some ["data"]) in
      band' ← getitem VStr SENTINEL_BANDS band_id;
      Ok (band_id, set_asset_properties (Asset.set_eo_bands [band'] asset))
  | None =>
  (* Handle auxiliary images *)
  if PyStr.contains "_TCI_" asset_href then
    let asset := Asset.make asset_href (Some asset_media_type)
                   (Some "True color image") (Some ["data"]) in
    b04 ← getitem VStr SENTINEL_BANDS "B04";
    b03 ← getitem VStr SENTINEL_BANDS "B03";
    b02 ← getitem VStr SENTINEL_BANDS "B02";
    Ok (suffixed_key "visual" asset_href,
        set_asset_properties (Asset.set_eo_bands [b04; b03; b02] asset))
  else if PyStr.contains "_AOT_" asset_href then
    let asset := Asset.make asset_href (Some asset_media_type)
                   (Some "Aerosol optical thickness (AOT)")
                   (Some ["data"]) in
    Ok (suffixed_key "AOT" asset_href, set_asset_properties asset)
  else if PyStr.contains "_WVP_" asset_href then
    let asset := Asset.make asset_href (Some asset_media_type)
                   (Some "Water vapour (WVP)") (Some ["data"]) in
    Ok (suffixed_key "WVP" asset_href, set_asset_properties asset)
  else if PyStr.contains "_SCL_" asset_href then
    let asset := Asset.make asset_href (Some asset_media_type)
                   (Some "Scene classfication map (SCL)")
                   (Some ["data"]) in
    Ok (suffixed_key "SCL" asset_href, set_asset_properties asset)
  else Raise (ValueError ("Unexpected asset: " ++ asset_href))
  end.

End Classifier.

(** ** [create_item] *)

Section Assembler.
Context `{Collaborators}.

(** The body of the loop over [image_assets.items()]:
    [assert key not in item.assets], then [item.add_asset(key, asset)].
    The assertion is executed, as it is unless Python runs with [-O]. *)
Definition add_image_asset (item : Item.t) (kv : string * Asset.t)
  : Result Item.t :=
  match Item.assets item !! kv.1 with
  | Some _ => Raise AssertionError
  | None => Ok (Item.add_asset kv.1 kv.2 item)
  end.

Definition create_item (granule_href : string)
    (additional_providers : option (list Provider))
    (read_href_modifier : option ReadHrefModifier) : Result Item.t :=
  safe_manifest ← new_SafeManifest granule_href read_href_modifier;
  product_metadata ←
    new_ProductMetadata (SafeManifest.product_metadata_href safe_manifest)
      read_href_modifier;
  granule_metadata ←
    new_GranuleMetadata (SafeManifest.granule_metadata_href safe_manifest)
      read_href_modifier;
  let item :=
    Item.make (ProductMetadata.product_id product_metadata)
      (ProductMetadata.geometry product_metadata)
      (ProductMetadata.bbox product_metadata)
      (ProductMetadata.datetime product_metadata) ∅ in
  (* Common metadata. The providers are set to [SENTINEL_PROVIDER]; the
     [extend] with the additional providers is made to the list that
     the [providers] getter of pystac builds afresh from the item, so
     it does not reach the item. *)
  let providers := [SENTINEL_PROVIDER] in
  let item :=
    Item.set_common_metadata (Some providers)
      (Some (ProductMetadata.platform product_metadata))
      (Some SENTINEL_CONSTELLATION) (Some SENTINEL_INSTRUMENTS) item in
  (* Extensions: eo, sat, proj *)
  let item :=
    Item.set_eo_cloud_cover
      (Some (GranuleMetadata.cloudiness_percentage granule_metadata))
      item in
  orbit_state ←
    OrbitState_of_value
      (PyStr.lower (ProductMetadata.orbit_state product_metadata));
  let item :=
    Item.set_sat orbit_state
      (Some (ProductMetadata.relative_orbit product_metadata)) item in
  let item :=
    Item.set_proj_epsg (GranuleMetadata.epsg granule_metadata) item in
  match Item.proj_epsg item with
  | None =>
      Raise (ValueError ("Could not determine EPSG code for "
                         ++ granule_href ++ "; which is required."))
  | Some _ =>
  (* s2 properties: {**product..., **granule...} *)
  let item :=
    Item.properties_update
      (dict_unpack2 (ProductMetadata.metadata_dict product_metadata)
         (GranuleMetadata.metadata_dict granule_metadata)) item in
  (* Metadata assets *)
  let item :=
    Item.add_asset (SafeManifest.create_asset safe_manifest).1
      (SafeManifest.create_asset safe_manifest).2 item in
  let item :=
    Item.add_asset (ProductMetadata.create_asset product_metadata).1
      (ProductMetadata.create_asset product_metadata).2 item in
  let item :=
    Item.add_asset (GranuleMetadata.create_asset granule_metadata).1
      (GranuleMetadata.create_asset granule_metadata).2 item in
  let item :=
    Item.add_asset INSPIRE_METADATA_ASSET_KEY
      (Asset.make (SafeManifest.inspire_metadata_href safe_manifest)
         (Some MediaType.XML) None (Some ["metadata"])) item in
  let item :=
    Item.add_asset DATASTRIP_METADATA_ASSET_KEY
      (Asset.make (SafeManifest.datastrip_metadata_href safe_manifest)
         (Some MediaType.XML) None (Some ["metadata"])) item in
  (* Image assets *)
  let proj_bbox := GranuleMetadata.proj_bbox granule_metadata in
  pairs ←
    list_comprehension
      (fun image_path =>
         image_asset_from_href (os_path.join granule_href image_path) item
           (GranuleMetadata.resolution_to_shape granule_metadata)
           proj_bbox (ProductMetadata.image_media_type product_metadata))
      (ProductMetadata.image_paths product_metadata);
  let image_assets := py_dict pairs in
  item ← for_each add_image_asset image_assets item;
  (* Thumbnail *)
  let item :=
    match SafeManifest.thumbnail_href safe_manifest with
    | Some thumbnail_href =>
        Item.add_asset "preview"
          (Asset.make thumbnail_href (Some MediaType.COG) None
             (Some ["thumbnail"])) item
    | None => item
    end in
  (* Links *)
  Ok (Item.links_append SENTINEL_LICENSE item)
  end.

End Assembler.

(** ** A concrete set of collaborators

    Used to run the two functions on explicit inputs. *)

Module Fixture.

(** Whitespace as [float] strips it from both ends of its argument. *)
Definition is_float_space (c : ascii) : bool :=
  let n := PyStr.ord c in
  ((9 <=? n) && (n <=? 13)) || (n =? 32) || (n =? 133) || (n =? 160).

Fixpoint lstrip (s : string) : string :=
  match s with
  | String c s' => if is_float_space c then lstrip s' else s
  | EmptyString => EmptyString
  end.

Fixpoint rstrip (s : string) : string :=
  match s with
  | String c s' =>
      match rstrip s' with
      | EmptyString =>
          if is_float_space c then EmptyString else String c EmptyString
      | rest => String c rest
      end
  | EmptyString => EmptyString
  end.

Definition digit_value (c : ascii) : option Z :=
  let n := PyStr.ord c in
  if (48 <=? n) && (n <=? 57) then Some (n - 48) else None.

(** [float(s)] for a string of two characters at most: a digit or two,
    a signed digit, or a digit with the decimal point before or after
    it, with whitespace around; [None] stands for the [ValueError] of
    everything else. *)
Definition float_of_short (s : string) : option Q :=
  match rstrip (lstrip s) with
  | String a EmptyString => inject_Z <$> digit_value a
  | String a (String b EmptyString) =>
      match digit_value a, digit_value b with
      | Some x, Some y => Some (inject_Z (10 * x + y))
      | None, Some y =>
          if Ascii.eqb a "+" then Some (inject_Z y)
          else if Ascii.eqb a "-" then Some (inject_Z (- y))
          else if Ascii.eqb a "." then Some (y # 10)
          else None
      | Some x, None => if Ascii.eqb b "." then Some (inject_Z x) else None
      | None, None => None
      end
  | _ => None
  end.

(** Modelled from the spec: [extract_gsd] of
    [stactools/sentinel2/utils.py] is missing. The spec says that it
    extracts "the ground-sample-distance encoded in the filename
    (integer meters)", and that the file names end in a resolution tier
    ("10m", "20m", "60m") of three characters and an extension of four,
    the tier being [href[-7:-4]]: the distance is the number that the
    two characters [image_path[-7:-5]] spell, read as [float] reads
    them, and characters that spell no number are a [ValueError]. *)
Definition extract_gsd (image_path : string) : Result Q :=
  let digits := PyStr.slice image_path (Some (-7)) (Some (-5)) in
  match float_of_short digits with
  | Some gsd => Ok gsd
  | None =>
      Raise (ValueError ("could not convert string to float: "
                         ++ PyStr.repr digits))
  end.

(** Modelled from the spec: [transform_from_bbox] of
    [stactools/core/projection.py] is missing. The spec says that it
    computes "a geotransform (affine mapping from pixel space to
    projected coordinates) from the supplied projected bounding box and
    the looked-up shape": pixel width and height are the extent of the
    box divided by the number of columns and rows, and the origin is
    the upper left corner of the box. *)
Definition transform_from_bbox (bbox : list Q) (shape : list Z)
  : Result (list Q) :=
  match bbox, shape with
  | [west; south; east; north], [rows; cols] =>
      if (rows =? 0) || (cols =? 0)
      then Raise (OtherError "ZeroDivisionError" "division by zero")
      else Ok [ ((east - west) / inject_Z cols)%Q; 0%Q; west;
                0%Q; ((south - north) / inject_Z rows)%Q; north ]
  | _, _ => Raise (OtherError "TypeError" "wrong number of arguments")
  end.

Definition band (name common_name description : string) : Band :=
  {| band_name := name; band_common_name := Some common_name;
     band_description := Some description;
     band_center_wavelength := None; band_full_width_half_max := None |}.

Definition B02 : Band := band "B02" "blue" "Band 2 - Blue".
Definition B03 : Band := band "B03" "green" "Band 3 - Green".
Definition B04 : Band := band "B04" "red" "Band 4 - Red".

(** Modelled from the spec: [SENTINEL_BANDS] of
    [stactools/sentinel2/constants.py] is missing. The spec describes a
    "fixed lookup table keyed by band code" and names B04, B03 and B02
    (red, green, blue); the table here holds these three. *)
Definition SENTINEL_BANDS : gmap string Band :=
  {[ "B02" := B02; "B03" := B03; "B04" := B04 ]}.

Definition metadata_asset (href : string) : Asset.t :=
  Asset.make href (Some MediaType.XML) None (Some ["metadata"]).

(** Collaborators whose readers answer with the given records. *)
Definition collaborators (sm : SafeManifest.t) (pm : ProductMetadata.t)
    (gm : GranuleMetadata.t) : Collaborators :=
  Build_Collaborators
    SENTINEL_BANDS
    {| provider_name := "ESA";
       provider_roles := ["producer"; "processor"; "licensor"];
       provider_url := Some "https://earth.esa.int/web/guest/home" |}
    {| link_rel := "license";
       link_target :=
         "https://sentinel.esa.int/documents/247904/690755/Sentinel_Data_Legal_Notice" |}
    ["msi"]
    "Sentinel 2"
    "inspire-metadata"
    "datastrip-metadata"
    extract_gsd
    transform_from_bbox
    (fun _ _ => Ok sm)
    (fun _ _ => Ok pm)
    (fun _ _ => Ok gm).

Definition granule_href : string :=
  "S2A_MSIL2A_20160327T204522_N0212_R128_T01CCV_20210214T042702.SAFE".

Definition safe_manifest (thumbnail : option string) : SafeManifest.t :=
  {| SafeManifest.product_metadata_href := granule_href ++ "/MTD_MSIL2A.xml";
     SafeManifest.granule_metadata_href := granule_href ++ "/MTD_TL.xml";
     SafeManifest.inspire_metadata_href := granule_href ++ "/INSPIRE.xml";
     SafeManifest.datastrip_metadata_href := granule_href ++ "/MTD_DS.xml";
     SafeManifest.thumbnail_href := thumbnail;
     SafeManifest.create_asset :=
       ("safe-manifest", metadata_asset (granule_href ++ "/manifest.safe")) |}.

Definition product_metadata (orbit_state : string)
    (image_paths : list string) : ProductMetadata.t :=
  {| ProductMetadata.product_id :=
       "S2A_MSIL2A_20160327T204522_N0212_R128_T01CCV_20210214T042702";
     ProductMetadata.geometry := VNone;
     ProductMetadata.bbox := [];
     ProductMetadata.datetime := "2016-03-27T20:45:22Z";
     ProductMetadata.platform := "Sentinel-2A";
     ProductMetadata.orbit_state := orbit_state;
     ProductMetadata.relative_orbit := 128;
     ProductMetadata.image_media_type := None;
     ProductMetadata.image_paths := image_paths;
     ProductMetadata.metadata_dict :=
       {[ "s2:product_type" := VStr "S2MSI2A";
          "s2:processing_baseline" := VStr "02.12" ]};
     ProductMetadata.create_asset :=
       ("product-metadata",
        metadata_asset (granule_href ++ "/MTD_MSIL2A.xml")) |}.

Definition proj_bbox : list Q :=
  [inject_Z 499980; inject_Z 6090220; inject_Z 609780; inject_Z 6200020].

Definition granule_metadata (epsg : option Z) : GranuleMetadata.t :=
  {| GranuleMetadata.cloudiness_percentage := 5 # 2;
     GranuleMetadata.epsg := epsg;
     GranuleMetadata.resolution_to_shape :=
       {[ 10 := (10980, 10980); 20 := (5490, 5490); 60 := (1830, 1830) ]};
     GranuleMetadata.proj_bbox := proj_bbox;
     GranuleMetadata.metadata_dict :=
       {[ "s2:processing_baseline" := VStr "02.14";
          "s2:mean_solar_zenith" := VFloat (4321 # 100) ]};
     GranuleMetadata.create_asset :=
       ("granule-metadata", metadata_asset (granule_href ++ "/MTD_TL.xml")) |}.

(** An item for the [item] argument of the classifier. *)
Definition blank_item : Item.t := Item.make "item" VNone [] "" ∅.

(** Two image files of one band at two resolutions. *)
Definition band_B04_10m : string :=
  "GRANULE/L2A_T01CCV/IMG_DATA/R10m/T01CCV_20210214T042702_B04_10m.jp2".
Definition band_B04_20m : string :=
  "GRANULE/L2A_T01CCV/IMG_DATA/R20m/T01CCV_20210214T042702_B04_20m.jp2".
Definition preview_image : string :=
  "GRANULE/L2A_T01CCV/QI_DATA/T01CCV_20210214T042702_PVI.jp2".
Definition true_color_10m : string :=
  "GRANULE/L2A_T01CCV/IMG_DATA/R10m/T01CCV_20210214T042702_TCI_10m.jp2".

(** A manifest whose own asset goes under the key [key]. *)
Definition safe_manifest_keyed (key : string) : SafeManifest.t :=
  {| SafeManifest.product_metadata_href := granule_href ++ "/MTD_MSIL2A.xml";
     SafeManifest.granule_metadata_href := granule_href ++ "/MTD_TL.xml";
     SafeManifest.inspire_metadata_href := granule_href ++ "/INSPIRE.xml";
     SafeManifest.datastrip_metadata_href := granule_href ++ "/MTD_DS.xml";
     SafeManifest.thumbnail_href := None;
     SafeManifest.create_asset :=
       (key, metadata_asset (granule_href ++ "/manifest.safe")) |}.

(** Collaborators whose granule metadata cannot be read: the reader
    raises [e]. *)
Definition unreadable_granule (e : PyError) : Collaborators :=
  Build_Collaborators
    SENTINEL_BANDS
    {| provider_name := "ESA";
       provider_roles := ["producer"; "processor"; "licensor"];
       provider_url := Some "https://earth.esa.int/web/guest/home" |}
    {| link_rel := "license";
       link_target :=
         "https://sentinel.esa.int/documents/247904/690755/Sentinel_Data_Legal_Notice" |}
    ["msi"]
    "Sentinel 2"
    "inspire-metadata"
    "datastrip-metadata"
    extract_gsd
    transform_from_bbox
    (fun _ _ => Ok (safe_manifest None))
    (fun _ _ => Ok (product_metadata "DESCENDING" []))
    (fun _ _ => Raise e).

(** A well-formed product: valid orbit state, an EPSG code. *)
Definition product (thumbnail : option string) (image_paths : list string)
  : Collaborators :=
  collaborators (safe_manifest thumbnail)
    (product_metadata "DESCENDING" image_paths)
    (granule_metadata (Some 32701)).

(** A product whose granule metadata has no EPSG code. *)
Definition product_without_epsg (orbit_state : string) : Collaborators :=
  collaborators (safe_manifest None)
    (product_metadata orbit_state [band_B04_10m])
    (granule_metadata None).

End Fixture.

(** The asset a branch builds before any extension field is set. *)
Definition data_asset (asset_href asset_media_type : string)
    (title : option string) : Asset.t :=
  Asset.make asset_href (Some asset_media_type) title (Some ["data"]).

(** ** Notions the statements use *)

(** The image media type inferred for a recognised lowercase extension. *)
Definition media_type_of_extension (ext : string) : string :=
  if String.eqb ext ".jp2" then MediaType.JPEG2000 else MediaType.GEOTIFF.

(** The extensions the classifier recognises, in lowercase. *)
Definition recognised_extensions : list string := [".jp2"; ".tiff"; ".tif"].

(** The capital of a small ASCII letter. *)
Definition capital (c : ascii) : ascii := PyStr.chr (PyStr.ord c - 32).

Definition is_small_letter (c : ascii) : bool :=
  (97 <=? PyStr.ord c) && (PyStr.ord c <=? 122).

(** All the spellings of a lowercase ASCII string that differ from it by
    letter case only: the strings equal to it under case folding. *)
Fixpoint case_variants (s : string) : list string :=
  match s with
  | EmptyString => [EmptyString]
  | String c s' =>
      let rest := case_variants s' in
      (map (String c) rest
       ++ (if is_small_letter c then map (String (capital c)) rest else []))%list
  end.

(** "The 3 characters immediately before the file extension": the last
    three characters of what [os.path.splitext] leaves in front of the
    extension. *)
Definition chars_before_extension (asset_href : string) : string :=
  PyStr.slice (os_path.splitext asset_href).1 (Some (-3)) None.

(** The four markers of the auxiliary images with the prefix of their
    key, in the order the classifier tries them. *)
Definition auxiliary_markers : list (string * string) :=
  [("_TCI_", "visual"); ("_AOT_", "AOT"); ("_WVP_", "WVP"); ("_SCL_", "SCL")].

(** The prefix of the first marker, in that order, that occurs in the
    href. *)
Fixpoint first_marker (markers : list (string * string)) (asset_href : string)
  : option string :=
  match markers with
  | [] => None
  | (marker, prefix) :: rest =>
      if PyStr.contains marker asset_href then Some prefix
      else first_marker rest asset_href
  end.

(** An href carries none of the markers of the cascade. *)
Definition no_marker (asset_href : string) : Prop :=
  PyStr.contains "_PVI" asset_href = false
  /\ band_id_search asset_href = None
  /\ first_marker auxiliary_markers asset_href = None.

(** The href of end-to-end scenario 1. *)
Definition scenario1_href : string :=
  ".../T01CCV_20210214T042702_B04_10m.jp2".

(** The keys of the five metadata assets, in the order they are added. *)
Definition metadata_asset_keys `{Collaborators} (sm : SafeManifest.t)
    (pm : ProductMetadata.t) (gm : GranuleMetadata.t) : list string :=
  [ (SafeManifest.create_asset sm).1;
    (ProductMetadata.create_asset pm).1;
    (GranuleMetadata.create_asset gm).1;
    INSPIRE_METADATA_ASSET_KEY;
    DATASTRIP_METADATA_ASSET_KEY ].

(** The media type the classifier is to work with: the supplied one,
    whatever the extension is; without one, JPEG2000 for the extension
    [.jp2] and GEOTIFF for [.tif] and [.tiff]. *)
Inductive media_type_determined (asset_href : string)
  : option string -> string -> Prop :=
| determined_supplied m :
    media_type_determined asset_href (Some m) m
| determined_jp2 :
    (os_path.splitext asset_href).2 = ".jp2" ->
    media_type_determined asset_href None MediaType.JPEG2000
| determined_tif :
    (os_path.splitext asset_href).2 = ".tif"
    \/ (os_path.splitext asset_href).2 = ".tiff" ->
    media_type_determined asset_href None MediaType.GEOTIFF.

(** The classifier works with the media type [m] on a call: the call
    goes as the call with [m] supplied does; every asset it returns has
    the media type [m]; and an asset with that media type is returned by
    the preview rule, by the band rule and by the auxiliary rules
    whenever the steps of the rule succeed. *)
Definition classifies_with_media_type `{Collaborators}
    (asset_href : string) (item : Item.t) (rts : gmap Z (Z * Z))
    (bbox : list Q) (media_type : option string) (m : string) : Prop :=
  image_asset_from_href asset_href item rts bbox media_type
  = image_asset_from_href asset_href item rts bbox (Some m)
  /\ (forall key asset,
        image_asset_from_href asset_href item rts bbox media_type
        = Ok (key, asset) ->
        Asset.media_type asset = Some m)
  /\ (PyStr.contains "_PVI" asset_href = true ->
      forall b04 b03 b02,
        SENTINEL_BANDS !! "B04" = Some b04 ->
        SENTINEL_BANDS !! "B03" = Some b03 ->
        SENTINEL_BANDS !! "B02" = Some b02 ->
        image_asset_from_href asset_href item rts bbox media_type
        = Ok ("preview",
              {| Asset.href := asset_href;
                 Asset.media_type := Some m;
                 Asset.title := Some "True color preview";
                 Asset.roles := Some ["data"];
                 Asset.eo_bands := Some [b04; b03; b02];
                 Asset.gsd := None;
                 Asset.proj_shape := None;
                 Asset.proj_bbox := None;
                 Asset.proj_transform := None |}))
  /\ (PyStr.contains "_PVI" asset_href = false ->
      forall gsd shape_tuple transform,
        extract_gsd asset_href = Ok gsd ->
        rts !! py_int gsd = Some shape_tuple ->
        transform_from_bbox bbox [shape_tuple.1; shape_tuple.2]
        = Ok transform ->
        (forall band_id band,
           band_id_search asset_href = Some band_id ->
           SENTINEL_BANDS !! band_id = Some band ->
           image_asset_from_href asset_href item rts bbox media_type
           = Ok (band_id,
                 {| Asset.href := asset_href;
                    Asset.media_type := Some m;
                    Asset.title := band_description band;
                    Asset.roles := Some ["data"];
                    Asset.eo_bands := Some [band];
                    Asset.gsd := Some gsd;
                    Asset.proj_shape := Some [shape_tuple.1; shape_tuple.2];
                    Asset.proj_bbox := Some bbox;
                    Asset.proj_transform := Some transform |}))
        /\ (forall prefix b04 b03 b02,
              band_id_search asset_href = None ->
              first_marker auxiliary_markers asset_href = Some prefix ->
              SENTINEL_BANDS !! "B04" = Some b04 ->
              SENTINEL_BANDS !! "B03" = Some b03 ->
              SENTINEL_BANDS !! "B02" = Some b02 ->
              exists asset,
                image_asset_from_href asset_href item rts bbox media_type
                = Ok (prefix ++ "-"
                      ++ PyStr.slice asset_href (Some (-7)) (Some (-4)),
                      asset)
                /\ Asset.media_type asset = Some m
                /\ Asset.href asset = asset_href
                /\ Asset.gsd asset = Some gsd)).

(** [rest] begins with a match of [_(B\w{2})_] whose group is [b]. *)
Definition starts_with_band_code (rest b : string) : Prop :=
  exists c1 c2 post,
    b = String "B" (String c1 (String c2 EmptyString))
    /\ PyStr.is_word c1 = true /\ PyStr.is_word c2 = true
    /\ rest = "_" ++ b ++ "_" ++ post.

(** The titles of the auxiliary images that carry no band annotation,
    by key prefix. *)
Definition auxiliary_titles : list (string * string) :=
  [("AOT", "Aerosol optical thickness (AOT)");
   ("WVP", "Water vapour (WVP)");
   ("SCL", "Scene classfication map (SCL)")].

(** The pair a rule of the classifier gives for an href, once the media
    type [m] is settled: the preview rule; then, for an href without
    [_PVI] whose ground-sample distance, shape and geotransform were
    found, the band rule, the true-color rule and the rule of the other
    auxiliary images, each one only when the rules before it do not
    apply. *)
Inductive rule_gives `{Collaborators} (asset_href : string)
    (rts : gmap Z (Z * Z)) (bbox : list Q) (m : string)
  : string -> Asset.t -> Prop :=
| preview_rule b04 b03 b02 :
    PyStr.contains "_PVI" asset_href = true ->
    SENTINEL_BANDS !! "B04" = Some b04 ->
    SENTINEL_BANDS !! "B03" = Some b03 ->
    SENTINEL_BANDS !! "B02" = Some b02 ->
    rule_gives asset_href rts bbox m "preview"
      {| Asset.href := asset_href;
         Asset.media_type := Some m;
         Asset.title := Some "True color preview";
         Asset.roles := Some ["data"];
         Asset.eo_bands := Some [b04; b03; b02];
         Asset.gsd := None;
         Asset.proj_shape := None;
         Asset.proj_bbox := None;
         Asset.proj_transform := None |}
| band_rule gsd shape_tuple transform band_id band :
    PyStr.contains "_PVI" asset_href = false ->
    extract_gsd asset_href = Ok gsd ->
    rts !! py_int gsd = Some shape_tuple ->
    transform_from_bbox bbox [shape_tuple.1; shape_tuple.2] = Ok transform ->
    band_id_search asset_href = Some band_id ->
    SENTINEL_BANDS !! band_id = Some band ->
    rule_gives asset_href rts bbox m band_id
      {| Asset.href := asset_href;
         Asset.media_type := Some m;
         Asset.title := band_description band;
         Asset.roles := Some ["data"];
         Asset.eo_bands := Some [band];
         Asset.gsd := Some gsd;
         Asset.proj_shape := Some [shape_tuple.1; shape_tuple.2];
         Asset.proj_bbox := Some bbox;
         Asset.proj_transform := Some transform |}
| true_color_rule gsd shape_tuple transform b04 b03 b02 :
    PyStr.contains "_PVI" asset_href = false ->
    extract_gsd asset_href = Ok gsd ->
    rts !! py_int gsd = Some shape_tuple ->
    transform_from_bbox bbox [shape_tuple.1; shape_tuple.2] = Ok transform ->
    band_id_search asset_href = None ->
    PyStr.contains "_TCI_" asset_href = true ->
    SENTINEL_BANDS !! "B04" = Some b04 ->
    SENTINEL_BANDS !! "B03" = Some b03 ->
    SENTINEL_BANDS !! "B02" = Some b02 ->
    rule_gives asset_href rts bbox m
      ("visual" ++ "-" ++ PyStr.slice asset_href (Some (-7)) (Some (-4)))
      {| Asset.href := asset_href;
         Asset.media_type := Some m;
         Asset.title := Some "True color image";
         Asset.roles := Some ["data"];
         Asset.eo_bands := Some [b04; b03; b02];
         Asset.gsd := Some gsd;
         Asset.proj_shape := Some [shape_tuple.1; shape_tuple.2];
         Asset.proj_bbox := Some bbox;
         Asset.proj_transform := Some transform |}
| auxiliary_rule gsd shape_tuple transform prefix title :
    PyStr.contains "_PVI" asset_href = false ->
    extract_gsd asset_href = Ok gsd ->
    rts !! py_int gsd = Some shape_tuple ->
    transform_from_bbox bbox [shape_tuple.1; shape_tuple.2] = Ok transform ->
    band_id_search asset_href = None ->
    first_marker auxiliary_markers asset_href = Some prefix ->
    In (prefix, title) auxiliary_titles ->
    rule_gives asset_href rts bbox m
      (prefix ++ "-" ++ PyStr.slice asset_href (Some (-7)) (Some (-4)))
      {| Asset.href := asset_href;
         Asset.media_type := Some m;
         Asset.title := Some title;
         Asset.roles := Some ["data"];
         Asset.eo_bands := None;
         Asset.gsd := Some gsd;
         Asset.proj_shape := Some [shape_tuple.1; shape_tuple.2];
         Asset.proj_bbox := Some bbox;
         Asset.proj_transform := Some transform |}.

(** ** The stages of [create_item] *)

(** The record as [create_item] has it when the images are about to be
    classified (lines 52-111): the skeleton, the common metadata, the
    three extensions, the merged properties and the five metadata
    assets, for the results [sm], [pm], [gm] of the readers and the
    orbit state [o] the enumeration gave. *)
Definition item_before_images `{Collaborators} (sm : SafeManifest.t)
    (pm : ProductMetadata.t) (gm : GranuleMetadata.t) (o : OrbitState)
  : Item.t :=
  let item :=
    Item.make (ProductMetadata.product_id pm) (ProductMetadata.geometry pm)
      (ProductMetadata.bbox pm) (ProductMetadata.datetime pm) ∅ in
  let providers := [SENTINEL_PROVIDER] in
  let item :=
    Item.set_common_metadata (Some providers)
      (Some (ProductMetadata.platform pm))
      (Some SENTINEL_CONSTELLATION) (Some SENTINEL_INSTRUMENTS) item in
  let item :=
    Item.set_eo_cloud_cover (Some (GranuleMetadata.cloudiness_percentage gm))
      item in
  let item :=
    Item.set_sat o (Some (ProductMetadata.relative_orbit pm)) item in
  let item := Item.set_proj_epsg (GranuleMetadata.epsg gm) item in
  let item :=
    Item.properties_update
      (dict_unpack2 (ProductMetadata.metadata_dict pm)
         (GranuleMetadata.metadata_dict gm)) item in
  let item :=
    Item.add_asset (SafeManifest.create_asset sm).1
      (SafeManifest.create_asset sm).2 item in
  let item :=
    Item.add_asset (ProductMetadata.create_asset pm).1
      (ProductMetadata.create_asset pm).2 item in
  let item :=
    Item.add_asset (GranuleMetadata.create_asset gm).1
      (GranuleMetadata.create_asset gm).2 item in
  let item :=
    Item.add_asset INSPIRE_METADATA_ASSET_KEY
      (Asset.make (SafeManifest.inspire_metadata_href sm)
         (Some MediaType.XML) None (Some ["metadata"])) item in
  Item.add_asset DATASTRIP_METADATA_ASSET_KEY
    (Asset.make (SafeManifest.datastrip_metadata_href sm)
       (Some MediaType.XML) None (Some ["metadata"])) item.

(** Lines 127-138: the thumbnail, if the manifest has one, and the
    license link. *)
Definition finish_item `{Collaborators} (sm : SafeManifest.t)
    (item : Item.t) : Item.t :=
  let item :=
    match SafeManifest.thumbnail_href sm with
    | Some thumbnail_href =>
        Item.add_asset "preview"
          (Asset.make thumbnail_href (Some MediaType.COG) None
             (Some ["thumbnail"])) item
    | None => item
    end in
  Item.links_append SENTINEL_LICENSE item.

(** The asset [create_item] stores for the thumbnail. *)
Definition thumbnail_asset (thumbnail_href : string) : Asset.t :=
  Asset.make thumbnail_href (Some MediaType.COG) None (Some ["thumbnail"]).

(** The five metadata assets with their keys, in the order
    [create_item] adds them (lines 95-111). *)
Definition metadata_asset_pairs `{Collaborators} (sm : SafeManifest.t)
    (pm : ProductMetadata.t) (gm : GranuleMetadata.t)
  : list (string * Asset.t) :=
  [ SafeManifest.create_asset sm;
    ProductMetadata.create_asset pm;
    GranuleMetadata.create_asset gm;
    (INSPIRE_METADATA_ASSET_KEY,
     Asset.make (SafeManifest.inspire_metadata_href sm)
       (Some MediaType.XML) None (Some ["metadata"]));
    (DATASTRIP_METADATA_ASSET_KEY,
     Asset.make (SafeManifest.datastrip_metadata_href sm)
       (Some MediaType.XML) None (Some ["metadata"])) ].

(** The asset map after the thumbnail step (lines 127-134). *)
Definition with_thumbnail (sm : SafeManifest.t)
    (assets : gmap string Asset.t) : gmap string Asset.t :=
  match SafeManifest.thumbnail_href sm with
  | Some thumbnail_href =>
      <["preview" := thumbnail_asset thumbnail_href]> assets
  | None => assets
  end.

(** The call of the classifier on one image path (lines 117-119) returns
    the pair [kv]. The [item] argument only serves to reach
    [common_metadata.set_gsd], so the outcome is the same for every
    item. *)
Definition classifies `{Collaborators} (granule_href : string)
    (pm : ProductMetadata.t) (gm : GranuleMetadata.t)
    (image_path : string) (kv : string * Asset.t) : Prop :=
  forall item,
    image_asset_from_href (os_path.join granule_href image_path) item
      (GranuleMetadata.resolution_to_shape gm) (GranuleMetadata.proj_bbox gm)
      (ProductMetadata.image_media_type pm) = Ok kv.

(** The call of the classifier on one image path raises [e]. *)
Definition classification_raises `{Collaborators} (granule_href : string)
    (pm : ProductMetadata.t) (gm : GranuleMetadata.t)
    (image_path : string) (e : PyError) : Prop :=
  forall item,
    image_asset_from_href (os_path.join granule_href image_path) item
      (GranuleMetadata.resolution_to_shape gm) (GranuleMetadata.proj_bbox gm)
      (ProductMetadata.image_media_type pm) = Raise e.

(** The readers answered [sm], [pm] and [gm] for the granule href. *)
Definition readers_give `{Collaborators} (granule_href : string)
    (read_href_modifier : option ReadHrefModifier) (sm : SafeManifest.t)
    (pm : ProductMetadata.t) (gm : GranuleMetadata.t) : Prop :=
  new_SafeManifest granule_href read_href_modifier = Ok sm
  /\ new_ProductMetadata (SafeManifest.product_metadata_href sm)
       read_href_modifier = Ok pm
  /\ new_GranuleMetadata (SafeManifest.granule_metadata_href sm)
       read_href_modifier = Ok gm.

(** * Properties *)

(** ** The outcome monad *)

Lemma bind_Ok {A B} (a : A) (k : A -> Result B) : (Ok a ≫= k) = k a.
Proof. reflexivity. Qed.

Lemma bind_Raise {A B} (e : PyError) (k : A -> Result B) :
  (Raise e ≫= k) = Raise e.
Proof. reflexivity. Qed.

Lemma bind_Ok_inv {A B} (m : Result A) (k : A -> Result B) (b : B) :
  (m ≫= k) = Ok b -> exists a, m = Ok a /\ k a = Ok b.
Proof. destruct m as [a|e]; [eauto | discriminate]. Qed.

Lemma getitem_Some {K V} `{Countable K} (r : K -> Value) (d : gmap K V) k v :
  d !! k = Some v -> getitem r d k = Ok v.
Proof. intros E. unfold getitem. by rewrite E. Qed.

Lemma getitem_None {K V} `{Countable K} (r : K -> Value) (d : gmap K V) k :
  d !! k = None -> getitem r d k = Raise (KeyError (r k)).
Proof. intros E. unfold getitem. by rewrite E. Qed.

(** Rewrites the outcome of a step that is known and runs the next one. *)
Ltac step :=
  repeat first
    [ rewrite bind_Ok
    | rewrite bind_Raise
    | match goal with
      | E : ?m = Ok _ |- context [?m ≫= _] => rewrite E
      | E : ?m = Raise _ |- context [?m ≫= _] => rewrite E
      | E : ?d !! ?k = Some _ |- context [getitem ?r ?d ?k] =>
          rewrite (getitem_Some r d k _ E)
      | E : ?d !! ?k = None |- context [getitem ?r ?d ?k] =>
          rewrite (getitem_None r d k E)
      end ].

(** ** Slices and [splitext] *)

Section StringFacts.
Import PyStr.

Lemma append_cons c r e : String c r ++ e = String c (r ++ e).
Proof. reflexivity. Qed.

Lemma append_nil_r s : s ++ EmptyString = s.
Proof. induction s as [|c s IH]; [done|]. by rewrite append_cons, IH. Qed.

Lemma substring_0_0 s : substring 0 0 s = EmptyString.
Proof. by destruct s. Qed.

Lemma substring_whole s : substring 0 (String.length s) s = s.
Proof. induction s as [|c s IH]; [done|]. simpl. by rewrite IH. Qed.

(** [s[:k] + s[k:] == s] on the level of [substring]. *)
Lemma substring_split s (k : nat) :
  (k <= String.length s)%nat ->
  substring 0 k s ++ substring k (String.length s - k) s = s.
Proof.
  revert k. induction s as [|c s IH]; intros k Hk.
  - simpl in Hk. assert (k = 0%nat) as -> by lia. reflexivity.
  - destruct k as [|k].
    + simpl. by rewrite substring_whole.
    + simpl String.length in *.
      change (substring 0 (S k) (String c s)) with (String c (substring 0 k s)).
      change (substring (S k) (S (String.length s) - S k) (String c s))
        with (substring k (String.length s - k) s).
      change (String c (substring 0 k s) ++ ?t)
        with (String c (substring 0 k s ++ t)).
      f_equal. apply IH. lia.
Qed.

(** A slice that ends inside the first part of a concatenation does not
    see the second part. *)
Lemma substring_app_l r e (n m : nat) :
  (n + m <= String.length r)%nat ->
  substring n m (r ++ e) = substring n m r.
Proof.
  revert n m. induction r as [|c r IH]; intros n m Hnm.
  - simpl in Hnm. assert (n = 0%nat) as -> by lia.
    assert (m = 0%nat) as -> by lia. simpl. apply substring_0_0.
  - destruct n as [|n].
    + destruct m as [|m]; [done|]. simpl in *.
      rewrite (IH 0%nat m) by lia. reflexivity.
    + simpl in *. apply IH. lia.
Qed.

Lemma len_nonneg s : 0 <= len s.
Proof. unfold len. lia. Qed.

Lemma len_app r e : len (r ++ e) = len r + len e.
Proof.
  unfold len. induction r as [|c r IH].
  { change (EmptyString ++ e) with e. simpl. lia. }
  change (String c r ++ e) with (String c (r ++ e)).
  cbn [String.length]. rewrite !Nat2Z.inj_succ. lia.
Qed.

Lemma clamp_range n i : 0 <= n -> 0 <= clamp n i <= n.
Proof. unfold clamp. intros Hn. destruct (Z.ltb_spec i 0); lia. Qed.

(** [s[:d] + s[d:] == s] for every bound [d]. *)
Lemma slice_split s d : slice s None (Some d) ++ slice s (Some d) None = s.
Proof.
  unfold slice. pose proof (clamp_range (len s) d (len_nonneg s)) as Hc.
  set (c := clamp (len s) d) in *.
  replace (Z.to_nat 0) with 0%nat by reflexivity.
  replace (c - 0) with c by lia.
  replace (Z.to_nat (len s - c)) with (String.length s - Z.to_nat c)%nat
    by (unfold len; lia).
  destruct (Z.ltb_spec 0 c) as [H0|H0], (Z.ltb_spec c (len s)) as [Hn|Hn].
  - apply substring_split. unfold len in *. lia.
  - assert (Z.to_nat c = String.length s) as -> by (unfold len in *; lia).
    rewrite substring_whole. apply append_nil_r.
  - assert (c = 0) as -> by lia. simpl. rewrite Nat.sub_0_r.
    apply substring_whole.
  - unfold len in *. destruct s; simpl in *; [done | lia].
Qed.

(** [os.path.splitext] cuts its argument in two. *)
Lemma splitext_app p : (os_path.splitext p).1 ++ (os_path.splitext p).2 = p.
Proof.
  unfold os_path.splitext.
  destruct (_ && _); cbn [fst snd]; [apply slice_split|].
  replace (slice p None (Some 0)) with EmptyString.
  - apply append_nil_r.
  - unfold slice.
    pose proof (clamp_range (len p) 0 (len_nonneg p)) as Hc.
    assert (clamp (len p) 0 = 0) as -> by (unfold clamp in *; simpl in *; lia).
    reflexivity.
Qed.

(** In front of a 4-character tail, [s[-7:-4]] is the last three
    characters of what precedes the tail. *)
Lemma slice_before_tail4 r e :
  String.length e = 4%nat ->
  slice (r ++ e) (Some (-7)) (Some (-4)) = slice r (Some (-3)) None.
Proof.
  intros He. unfold slice. rewrite len_app.
  assert (len e = 4) as -> by (unfold len; lia).
  pose proof (len_nonneg r) as Hr.
  assert (clamp (len r + 4) (-7) = clamp (len r) (-3)) as ->
    by (unfold clamp; simpl; lia).
  assert (clamp (len r + 4) (-4) = len r) as ->
    by (unfold clamp; simpl; lia).
  pose proof (clamp_range (len r) (-3) Hr) as Hc.
  destruct (Z.ltb_spec (clamp (len r) (-3)) (len r)); [|done].
  apply substring_app_l. unfold len in *. lia.
Qed.

End StringFacts.

(** ** Letter case of the extension *)

(** The characters [str.lower] sends to a character of a recognised
    extension: the character itself and, for a letter, its capital. *)
Lemma lower_char_preimage (c t : ascii) :
  In t ["."; "j"; "p"; "2"; "t"; "i"; "f"]%char ->
  PyStr.lower_char c = t ->
  c = t \/ (is_small_letter t = true /\ c = capital t).
Proof.
  intros Ht E. simpl in Ht.
  destruct Ht as [<- | [<- | [<- | [<- | [<- | [<- | [<- | []]]]]]]];
    destruct c as [[] [] [] [] [] [] [] []];
    first [ discriminate E | left; reflexivity | right; split; reflexivity ].
Qed.

(** An extension that [str.lower] sends to a recognised extension is one
    of its case variants. *)
Lemma lower_recognised_case_variant (s ext : string) :
  In ext recognised_extensions ->
  PyStr.lower s = ext -> In s (case_variants ext).
Proof.
  intros Hext E. simpl in Hext.
  destruct Hext as [<- | [<- | [<- | []]]];
    repeat (destruct s as [|? s]; [discriminate E|]);
    (destruct s; [|discriminate E]);
    cbn [PyStr.lower] in E; inversion E;
    repeat match goal with
           | H : PyStr.lower_char ?c = _ |- _ =>
               apply lower_char_preimage in H as [-> | [_ ->]];
               [ | | simpl; tauto]
           end;
    vm_compute; tauto.
Qed.

(** The case variants of a recognised extension are the strings that
    [str.lower] sends to it: the extensions the classifier accepts are
    the recognised ones up to letter case, and no others. *)
Lemma case_variant_iff_lower (s ext : string) :
  In ext recognised_extensions ->
  In s (case_variants ext) <-> PyStr.lower s = ext.
Proof.
  intros Hext. split; [|by apply lower_recognised_case_variant].
  simpl in Hext. destruct Hext as [<- | [<- | [<- | []]]];
    intros Hs; simpl in Hs;
    repeat (destruct Hs as [<- | Hs]; [reflexivity|]); destruct Hs.
Qed.

(** ** The classifier *)

Section ClassifierFacts.
Context `{Collaborators}.

(** The classifier is the media-type step followed by the rest: an
    exception of the first step is the outcome of the call. *)
Lemma image_asset_media_type_raises asset_href item rts bbox media_type e :
  asset_media_type_of asset_href media_type = Raise e ->
  image_asset_from_href asset_href item rts bbox media_type = Raise e.
Proof. intros E. unfold image_asset_from_href. by step. Qed.

(** Every branch stores the media type of the first step. *)
Lemma image_asset_media_type asset_href item rts bbox media_type key asset :
  image_asset_from_href asset_href item rts bbox media_type
  = Ok (key, asset) ->
  exists m, asset_media_type_of asset_href media_type = Ok m
            /\ Asset.media_type asset = Some m.
Proof.
  unfold image_asset_from_href. intros E.
  apply bind_Ok_inv in E as (m & Em & E). exists m. split; [done|].
  destruct (PyStr.contains "_PVI" asset_href).
  { apply bind_Ok_inv in E as (? & _ & E).
    apply bind_Ok_inv in E as (? & _ & E).
    apply bind_Ok_inv in E as (? & _ & E). by inversion E. }
  apply bind_Ok_inv in E as (g & _ & E).
  apply bind_Ok_inv in E as (shp & _ & E).
  apply bind_Ok_inv in E as (t & _ & E).
  destruct (band_id_search asset_href).
  { apply bind_Ok_inv in E as (? & _ & E).
    apply bind_Ok_inv in E as (? & _ & E). by inversion E. }
  destruct (PyStr.contains "_TCI_" asset_href).
  { apply bind_Ok_inv in E as (? & _ & E).
    apply bind_Ok_inv in E as (? & _ & E).
    apply bind_Ok_inv in E as (? & _ & E). by inversion E. }
  repeat match type of E with
         | (if ?c then _ else _) = _ => destruct c
         end; by inversion E.
Qed.

(** C4 (as amended). For every image href that contains [_PVI] and whose
    media type is determinable, the classifier returns the key
    ["preview"] with the bands B04, B03, B02 and with no
    ground-sample distance, shape, projected bounding box or
    geotransform on the asset. Nothing is asked of the band pattern: the
    preview rule comes before the band rule. *)
Theorem C4_preview_first asset_href item rts bbox media_type m b04 b03 b02 :
  PyStr.contains "_PVI" asset_href = true ->
  asset_media_type_of asset_href media_type = Ok m ->
  SENTINEL_BANDS !! "B04" = Some b04 ->
  SENTINEL_BANDS !! "B03" = Some b03 ->
  SENTINEL_BANDS !! "B02" = Some b02 ->
  image_asset_from_href asset_href item rts bbox media_type
  = Ok ("preview",
        {| Asset.href := asset_href;
           Asset.media_type := Some m;
           Asset.title := Some "True color preview";
           Asset.roles := Some ["data"];
           Asset.eo_bands := Some [b04; b03; b02];
           Asset.gsd := None;
           Asset.proj_shape := None;
           Asset.proj_bbox := None;
           Asset.proj_transform := None |}).
Proof.
  intros Hpvi Hm H4 H3 H2. unfold image_asset_from_href.
  step. rewrite Hpvi. by step.
Qed.

(** Past the preview rule, for an href that matches the band pattern or
    carries no auxiliary marker: the ground-sample distance is
    extracted, its shape is looked up and the geotransform is computed,
    each of which can end the call, and only then the band rule and the
    final [raise] are reached. *)
Lemma image_asset_after_preview asset_href item rts bbox media_type m :
  asset_media_type_of asset_href media_type = Ok m ->
  PyStr.contains "_PVI" asset_href = false ->
  is_Some (band_id_search asset_href)
  \/ first_marker auxiliary_markers asset_href = None ->
  image_asset_from_href asset_href item rts bbox media_type
  = (gsd ← extract_gsd asset_href;
     shape_tuple ← getitem VInt rts (py_int gsd);
     transform ← transform_from_bbox bbox [shape_tuple.1; shape_tuple.2];
     match band_id_search asset_href with
     | Some band_id =>
         band ← getitem VStr SENTINEL_BANDS band_id;
         Ok (band_id,
             set_asset_properties gsd [shape_tuple.1; shape_tuple.2] bbox
               transform
               (Asset.set_eo_bands [band]
                  (data_asset asset_href m (band_description band))))
     | None => Raise (ValueError ("Unexpected asset: " ++ asset_href))
     end).
Proof.
  intros Hm Hpvi Hrule. unfold image_asset_from_href. step. rewrite Hpvi.
  destruct (extract_gsd asset_href) as [gsd|e] eqn:Eg; [|done]. step.
  destruct (getitem VInt rts (py_int gsd)) as [shp|e] eqn:Es; [|done]. step.
  destruct (transform_from_bbox bbox [shp.1; shp.2]) as [t|e] eqn:Et;
    [|done]. step.
  destruct (band_id_search asset_href) as [band_id|] eqn:Eb.
  { destruct (getitem VStr SENTINEL_BANDS band_id) as [band|e]; [|done].
    by step. }
  destruct Hrule as [[? [=]]|Haux].
  cbn [first_marker auxiliary_markers] in Haux.
  by repeat match type of Haux with
            | (if ?c then _ else _) = _ => destruct c; [discriminate Haux|]
            end.
Qed.

(** C2 (as amended). For every image href whose media type is
    determinable, that carries none of the markers, whose ground-sample
    distance can be extracted and is a key of the resolution table, and
    for which the geotransform can be computed, the classifier ends with
    [ValueError("Unexpected asset: <href>")]. *)
Theorem C2_unclassified_asset asset_href item rts bbox media_type
    m gsd shape_tuple transform :
  asset_media_type_of asset_href media_type = Ok m ->
  no_marker asset_href ->
  extract_gsd asset_href = Ok gsd ->
  rts !! py_int gsd = Some shape_tuple ->
  transform_from_bbox bbox [shape_tuple.1; shape_tuple.2] = Ok transform ->
  image_asset_from_href asset_href item rts bbox media_type
  = Raise (ValueError ("Unexpected asset: " ++ asset_href)).
Proof.
  intros Hm (Hpvi & Hband & Haux) Hg Hs Ht.
  rewrite (image_asset_after_preview _ _ _ _ _ _ Hm Hpvi) by by right.
  step. by rewrite Hband.
Qed.

(** C10 (as amended). For every image href whose media type is
    determinable, that does not contain [_PVI], whose ground-sample
    distance can be extracted, and for which the geotransform of a
    looked-up shape can be computed: when the href matches the band
    pattern with a code that is not a key of the band table, the
    classifier ends with a [KeyError]. The error carries the band code
    when the ground-sample distance is a key of the resolution table,
    and the ground-sample distance otherwise. *)
Theorem C10_unknown_band_code asset_href item rts bbox media_type
    m gsd band_id :
  asset_media_type_of asset_href media_type = Ok m ->
  PyStr.contains "_PVI" asset_href = false ->
  extract_gsd asset_href = Ok gsd ->
  (forall shape_tuple,
     rts !! py_int gsd = Some shape_tuple ->
     exists transform,
       transform_from_bbox bbox [shape_tuple.1; shape_tuple.2]
       = Ok transform) ->
  band_id_search asset_href = Some band_id ->
  SENTINEL_BANDS !! band_id = None ->
  image_asset_from_href asset_href item rts bbox media_type
  = Raise (KeyError (match rts !! py_int gsd with
                     | Some _ => VStr band_id
                     | None => VInt (py_int gsd)
                     end)).
Proof.
  intros Hm Hpvi Hg Ht Hband Hnone.
  rewrite (image_asset_after_preview _ _ _ _ _ _ Hm Hpvi)
    by (left; rewrite Hband; eauto).
  step.
  destruct (rts !! py_int gsd) as [shape_tuple|] eqn:Es; step; [|done].
  destruct (Ht shape_tuple eq_refl) as [transform Etr]. step.
  rewrite Hband. by step.
Qed.

(** C8. For the href [.../T01CCV_20210214T042702_B04_10m.jp2], the
    resolution table [{10: (10980, 10980)}], the projected bounding box
    [499980, 6090220, 609780, 6200020] and no media-type override, the
    classifier returns the key ["B04"] and an asset with media type
    JPEG2000, the single band B04 of the band table, shape
    [10980, 10980], the supplied bounding box, the geotransform
    [transform_from_bbox] computes from that box and shape, and
    ground-sample distance 10, that distance being what [extract_gsd]
    reads from the file name. *)
Theorem C8_scenario_band_B04 item b04 transform :
  let proj_bbox :=
    [inject_Z 499980; inject_Z 6090220; inject_Z 609780; inject_Z 6200020] in
  extract_gsd scenario1_href = Ok (inject_Z 10) ->
  SENTINEL_BANDS !! "B04" = Some b04 ->
  transform_from_bbox proj_bbox [10980; 10980] = Ok transform ->
  image_asset_from_href scenario1_href item {[ 10 := (10980, 10980) ]}
    proj_bbox None
  = Ok ("B04",
        {| Asset.href := scenario1_href;
           Asset.media_type := Some MediaType.JPEG2000;
           Asset.title := band_description b04;
           Asset.roles := Some ["data"];
           Asset.eo_bands := Some [b04];
           Asset.gsd := Some (inject_Z 10);
           Asset.proj_shape := Some [10980; 10980];
           Asset.proj_bbox := Some proj_bbox;
           Asset.proj_transform := Some transform |}).
Proof.
  intros proj_bbox Hg Hb Ht.
  rewrite (image_asset_after_preview _ _ _ _ _ MediaType.JPEG2000);
    [|reflexivity|reflexivity|left; by exists "B04"].
  rewrite Hg. step.
  change (py_int (inject_Z 10)) with 10.
  rewrite (getitem_Some VInt _ 10 (10980, 10980)) by reflexivity. step.
  cbn [fst snd]. rewrite Ht. step.
  change (band_id_search scenario1_href) with (Some "B04").
  cbv beta iota. by step.
Qed.

(** C6 (as amended). For every image href classified as true-color
    composite, aerosol, water vapour or scene classification, the key is
    the role prefix, a hyphen, and the slice [href[-7:-4]]: every asset
    returned for such an href has that key, and one is returned whenever
    the media type is determinable, the ground-sample distance is
    extracted and found in the resolution table, the geotransform is
    computed and the band table has B04, B03 and B02. The slice is the 3
    characters immediately before the file extension whenever that
    extension is 4 characters long, as [.jp2] and [.tif] are. *)
Theorem C6_auxiliary_key asset_href item rts bbox media_type prefix :
  PyStr.contains "_PVI" asset_href = false ->
  band_id_search asset_href = None ->
  first_marker auxiliary_markers asset_href = Some prefix ->
  let key :=
    prefix ++ "-" ++ PyStr.slice asset_href (Some (-7)) (Some (-4)) in
  (forall k asset,
     image_asset_from_href asset_href item rts bbox media_type
     = Ok (k, asset) -> k = key)
  /\ (forall m gsd shape_tuple transform b04 b03 b02,
        asset_media_type_of asset_href media_type = Ok m ->
        extract_gsd asset_href = Ok gsd ->
        rts !! py_int gsd = Some shape_tuple ->
        transform_from_bbox bbox [shape_tuple.1; shape_tuple.2]
        = Ok transform ->
        SENTINEL_BANDS !! "B04" = Some b04 ->
        SENTINEL_BANDS !! "B03" = Some b03 ->
        SENTINEL_BANDS !! "B02" = Some b02 ->
        exists asset,
          image_asset_from_href asset_href item rts bbox media_type
          = Ok (key, asset))
  /\ (String.length (os_path.splitext asset_href).2 = 4%nat ->
      key = prefix ++ "-" ++ chars_before_extension asset_href).
Proof.
  intros Hpvi Hband Hfm key. repeat split.
  - intros k asset E. unfold image_asset_from_href in E.
    apply bind_Ok_inv in E as (m & _ & E). rewrite Hpvi in E.
    apply bind_Ok_inv in E as (gsd & _ & E).
    apply bind_Ok_inv in E as (shp & _ & E).
    apply bind_Ok_inv in E as (t & _ & E).
    rewrite Hband in E. cbn [first_marker auxiliary_markers] in Hfm.
    destruct (PyStr.contains "_TCI_" asset_href).
    { apply bind_Ok_inv in E as (? & _ & E).
      apply bind_Ok_inv in E as (? & _ & E).
      apply bind_Ok_inv in E as (? & _ & E).
      inversion E. inversion Hfm. by subst. }
    repeat match type of E with
           | (if ?c then _ else _) = _ => destruct c
           end;
      inversion E; inversion Hfm; by subst.
  - intros m gsd shp t b04 b03 b02 Hm Hg Hs Ht H4 H3 H2.
    unfold image_asset_from_href. step. rewrite Hpvi. step.
    rewrite Hband. cbn [first_marker auxiliary_markers] in Hfm.
    repeat match goal with
           | |- context [PyStr.contains ?mk asset_href] =>
               destruct (PyStr.contains mk asset_href)
           end;
      step; inversion Hfm; subst; eauto.
  - intros Hlen. subst key. unfold chars_before_extension.
    rewrite <- (splitext_app asset_href) at 1.
    by rewrite slice_before_tail4.
Qed.

(** Once the first step has determined the media type [m], the
    classifier works with it. *)
Lemma classifier_uses_media_type asset_href item rts bbox media_type m :
  asset_media_type_of asset_href media_type = Ok m ->
  classifies_with_media_type asset_href item rts bbox media_type m.
Proof.
  intros Hm.
  assert (image_asset_from_href asset_href item rts bbox media_type
          = image_asset_from_href asset_href item rts bbox (Some m)) as Esame.
  { unfold image_asset_from_href. rewrite Hm.
    by replace (asset_media_type_of asset_href (Some m)) with (Ok m). }
  split; [exact Esame|]. split.
  { intros key asset E.
    apply image_asset_media_type in E as (m' & Em' & ->). congruence. }
  split.
  { intros Hpvi b04 b03 b02 H4 H3 H2. unfold image_asset_from_href.
    step. rewrite Hpvi. by step. }
  intros Hpvi gsd shape_tuple transform Hg Hs Ht. split.
  - intros band_id band Hb Hband.
    rewrite (image_asset_after_preview _ _ _ _ _ _ Hm Hpvi)
      by (left; rewrite Hb; eauto).
    step. rewrite Hb. by step.
  - intros prefix b04 b03 b02 Hb Hfm H4 H3 H2.
    unfold image_asset_from_href. step. rewrite Hpvi. step. rewrite Hb.
    cbn [first_marker auxiliary_markers] in Hfm.
    repeat match goal with
           | |- context [PyStr.contains ?mk asset_href] =>
               destruct (PyStr.contains mk asset_href)
           end;
      step; inversion Hfm; subst; eexists; (split; [reflexivity|]);
      repeat split; reflexivity.
Qed.

(** C5. Media-type determination. A supplied media type is used
    unchanged whatever the extension is; without one, the extension
    [.jp2] gives JPEG2000 and [.tif] or [.tiff] give GEOTIFF. The
    classifier works with the media type so determined: the call goes
    as with that media type supplied, every asset returned has it, and
    the preview, band and auxiliary rules return their asset with it
    whenever their own steps succeed. With no supplied media type and
    an extension that is none of the three, the call ends with the
    exception [Must supply a media type for asset : <href>] whatever
    markers the href carries and whatever the tables and helpers are. *)
Theorem C5_media_type_determination :
  (forall asset_href item rts bbox media_type m,
     media_type_determined asset_href media_type m ->
     classifies_with_media_type asset_href item rts bbox media_type m)
  /\ (forall asset_href item rts bbox,
        ~ In (PyStr.lower (os_path.splitext asset_href).2)
             recognised_extensions ->
        image_asset_from_href asset_href item rts bbox None
        = Raise (Exception
                   ("Must supply a media type for asset : " ++ asset_href)))
  /\ (forall asset_href m, asset_media_type_of asset_href (Some m) = Ok m)
  /\ (forall asset_href,
        (os_path.splitext asset_href).2 = ".jp2" ->
        asset_media_type_of asset_href None = Ok MediaType.JPEG2000)
  /\ (forall asset_href,
        (os_path.splitext asset_href).2 = ".tif"
        \/ (os_path.splitext asset_href).2 = ".tiff" ->
        asset_media_type_of asset_href None = Ok MediaType.GEOTIFF)
  /\ (forall asset_href item rts bbox media_type key asset,
        image_asset_from_href asset_href item rts bbox media_type
        = Ok (key, asset) ->
        exists m, asset_media_type_of asset_href media_type = Ok m
                  /\ Asset.media_type asset = Some m).
Proof.
  assert (forall asset_href,
            (os_path.splitext asset_href).2 = ".jp2" ->
            asset_media_type_of asset_href None = Ok MediaType.JPEG2000)
    as Hjp2.
  { intros asset_href E. unfold asset_media_type_of. by rewrite E. }
  assert (forall asset_href,
            (os_path.splitext asset_href).2 = ".tif"
            \/ (os_path.splitext asset_href).2 = ".tiff" ->
            asset_media_type_of asset_href None = Ok MediaType.GEOTIFF)
    as Htif.
  { intros asset_href E. unfold asset_media_type_of.
    by destruct E as [-> | ->]. }
  split; [|split; [|split; [|split; [|split]]]].
  - intros asset_href item rts bbox media_type m Hdet.
    apply classifier_uses_media_type.
    destruct Hdet as [m | Hext | Hext]; [reflexivity| by apply Hjp2 |
                                          by apply Htif].
  - intros asset_href item rts bbox Hext.
    apply image_asset_media_type_raises. unfold asset_media_type_of.
    destruct (String.eqb_spec (PyStr.lower (os_path.splitext asset_href).2)
                ".jp2") as [E|_].
    { destruct Hext. rewrite E. simpl. tauto. }
    cbn [existsb].
    destruct (String.eqb_spec (PyStr.lower (os_path.splitext asset_href).2)
                ".tiff") as [E|_].
    { destruct Hext. rewrite E. simpl. tauto. }
    destruct (String.eqb_spec (PyStr.lower (os_path.splitext asset_href).2)
                ".tif") as [E|_].
    { destruct Hext. rewrite E. simpl. tauto. }
    reflexivity.
  - reflexivity.
  - exact Hjp2.
  - exact Htif.
  - intros. by eapply image_asset_media_type.
Qed.

(** C9. Inference from the extension does not look at letter case. When
    the extension of the href is a case variant of [.jp2], [.tif] or
    [.tiff] and no media type is supplied, the classifier works with
    the media type of the lowercase extension: the call goes as with
    that media type supplied, every asset returned has it, and the
    preview, band and auxiliary rules return their asset with it
    whenever their own steps succeed. It is the media type the first
    step gives an href with the lowercase extension. *)
Theorem C9_extension_case_insensitive asset_href ext :
  In ext recognised_extensions ->
  In (os_path.splitext asset_href).2 (case_variants ext) ->
  (forall item rts bbox,
     classifies_with_media_type asset_href item rts bbox None
       (media_type_of_extension ext))
  /\ asset_media_type_of asset_href None = Ok (media_type_of_extension ext)
  /\ (forall lowercase_href,
        (os_path.splitext lowercase_href).2 = ext ->
        asset_media_type_of asset_href None
        = asset_media_type_of lowercase_href None)
  /\ (forall item rts bbox key asset,
        image_asset_from_href asset_href item rts bbox None
        = Ok (key, asset) ->
        Asset.media_type asset = Some (media_type_of_extension ext)).
Proof.
  intros Hext Hvar.
  assert (asset_media_type_of asset_href None
          = Ok (media_type_of_extension ext)) as E.
  { unfold asset_media_type_of.
    simpl in Hext. destruct Hext as [<- | [<- | [<- | []]]];
      simpl in Hvar;
      repeat (destruct Hvar as [<- | Hvar]; [reflexivity|]);
      destruct Hvar. }
  split; [|split; [done|split]].
  - intros item rts bbox. by apply classifier_uses_media_type.
  - intros lowercase_href El. rewrite E. unfold asset_media_type_of.
    rewrite El. simpl in Hext.
    by destruct Hext as [<- | [<- | [<- | []]]].
  - intros item rts bbox key asset Hr.
    apply image_asset_media_type in Hr as (m & Em & ->). congruence.
Qed.

End ClassifierFacts.

(** ** [dict(...)] and the loop over the image assets *)

Section DictFacts.
Context {V : Type}.
Implicit Types (d pairs : list (string * V)) (m : gmap string V).

Lemma dict_setitem_keys k v d k' :
  k' ∈ (dict_setitem k v d).*1 <-> k' = k \/ k' ∈ d.*1.
Proof.
  induction d as [|[k0 v0] d IH]; simpl.
  - rewrite list_elem_of_singleton, elem_of_nil. tauto.
  - destruct (String.eqb_spec k0 k) as [->|Hne]; simpl.
    + rewrite !elem_of_cons. tauto.
    + rewrite !elem_of_cons, IH. tauto.
Qed.

Lemma dict_setitem_NoDup k v d : NoDup d.*1 -> NoDup (dict_setitem k v d).*1.
Proof.
  induction d as [|[k0 v0] d IH]; simpl; intros Hd.
  - apply NoDup_singleton.
  - apply NoDup_cons in Hd as [Hk0 Hd].
    destruct (String.eqb_spec k0 k) as [->|Hne]; simpl.
    + by apply NoDup_cons.
    + apply NoDup_cons. split; [|by apply IH].
      rewrite dict_setitem_keys. intros [?|?]; [congruence|done].
Qed.

(** Read as a map, [d[k] = v] is an insertion. *)
Lemma dict_setitem_to_map k v d :
  list_to_map (dict_setitem k v d) =@{gmap string V} <[k := v]> (list_to_map d).
Proof.
  induction d as [|[k0 v0] d IH]; simpl; [done|].
  destruct (String.eqb_spec k0 k) as [->|Hne]; simpl.
  - by rewrite insert_insert_eq.
  - rewrite IH. by apply insert_insert_ne.
Qed.

Lemma dict_setitem_fresh k v d :
  k ∉ d.*1 -> dict_setitem k v d = (d ++ [(k, v)])%list.
Proof.
  induction d as [|[k0 v0] d IH]; simpl; intros Hk; [done|].
  apply not_elem_of_cons in Hk as [Hne Hk].
  destruct (String.eqb_spec k0 k) as [->|_]; [done|]. by rewrite IH.
Qed.

Lemma py_dict_from d pairs :
  NoDup d.*1 ->
  let d' := foldl (fun d kv => dict_setitem kv.1 kv.2 d) d pairs in
  NoDup d'.*1
  /\ list_to_map d' = store_all pairs (list_to_map d)
  /\ (forall k, k ∈ d'.*1 <-> k ∈ d.*1 \/ k ∈ pairs.*1).
Proof.
  revert d. induction pairs as [|[k v] pairs IH]; intros d Hd; simpl.
  - repeat split; [done| tauto |]. intros [?|Hk]; [done|].
    by apply elem_of_nil in Hk.
  - destruct (IH (dict_setitem k v d)) as (Hnd & Hmap & Hkeys).
    { by apply dict_setitem_NoDup. }
    split; [done|]. split.
    + unfold store_all in *. rewrite Hmap. simpl.
      by rewrite dict_setitem_to_map.
    + intros k'. rewrite Hkeys, dict_setitem_keys, elem_of_cons. tauto.
Qed.

(** A dictionary never holds a key twice, whatever pairs it is built
    from. *)
Lemma py_dict_NoDup pairs : NoDup (py_dict pairs).*1.
Proof. apply (py_dict_from [] pairs). constructor. Qed.

Lemma py_dict_keys pairs k : k ∈ (py_dict pairs).*1 <-> k ∈ pairs.*1.
Proof.
  destruct (py_dict_from [] pairs) as (_ & _ & Hk); [constructor|].
  unfold py_dict. rewrite Hk. simpl. rewrite elem_of_nil. tauto.
Qed.

(** Of two pairs with one key, [dict(...)] keeps the later one. *)
Lemma py_dict_to_map pairs :
  list_to_map (py_dict pairs) = store_all pairs ∅.
Proof. apply (py_dict_from [] pairs). constructor. Qed.

(** With distinct keys the order of the assignments does not matter. *)
Lemma store_all_NoDup d m :
  NoDup d.*1 -> store_all d m = list_to_map d ∪ m.
Proof.
  unfold store_all.
  revert m. induction d as [|[k v] d IH]; intros m Hd.
  - symmetry. apply map_empty_union.
  - rewrite fmap_cons in Hd. apply NoDup_cons in Hd as [Hk Hd].
    rewrite list_to_map_cons. cbn [foldl fst snd].
    rewrite IH by done. rewrite <- insert_union_l. symmetry.
    apply insert_union_r. by apply not_elem_of_list_to_map_1.
Qed.

(** Pairs with distinct keys are stored as they are. *)
Lemma py_dict_distinct pairs : NoDup pairs.*1 -> py_dict pairs = pairs.
Proof.
  unfold py_dict.
  enough (forall d, NoDup ((d ++ pairs)%list).*1 ->
            foldl (fun d kv => dict_setitem kv.1 kv.2 d) d pairs
            = (d ++ pairs)%list) as Hgen by (intros; by apply (Hgen [])).
  induction pairs as [|[k v] pairs IH]; intros d Hd; simpl.
  - by rewrite app_nil_r.
  - rewrite dict_setitem_fresh.
    + rewrite IH; rewrite <- app_assoc; done.
    + rewrite fmap_app in Hd. apply NoDup_app in Hd as (_ & Hd & _).
      intros Hk. apply (Hd k Hk). simpl. apply elem_of_cons. by left.
Qed.

End DictFacts.

Section LoopFacts.
Context `{Collaborators}.

Lemma add_image_asset_properties item kv item' :
  add_image_asset item kv = Ok item' ->
  Item.properties item' = Item.properties item.
Proof.
  unfold add_image_asset. destruct (_ !! _); [done|].
  intros [= <-]. reflexivity.
Qed.

Lemma image_asset_loop_properties d item item' :
  for_each add_image_asset d item = Ok item' ->
  Item.properties item' = Item.properties item.
Proof.
  revert item. induction d as [|kv d IH]; cbn [for_each]; intros item E.
  - by inversion E.
  - apply bind_Ok_inv in E as (item1 & E1 & E).
    rewrite (IH _ E). by eapply add_image_asset_properties.
Qed.

Lemma add_image_asset_fresh item k v :
  Item.assets item !! k = None ->
  add_image_asset item (k, v) = Ok (Item.add_asset k v item).
Proof. intros E. unfold add_image_asset. simpl. by rewrite E. Qed.

Lemma add_image_asset_taken item k v :
  is_Some (Item.assets item !! k) ->
  add_image_asset item (k, v) = Raise AssertionError.
Proof. intros [a E]. unfold add_image_asset. simpl. by rewrite E. Qed.

(** The assertion can only fail: the loop raises nothing else. *)
Lemma image_asset_loop_raises d item e :
  for_each add_image_asset d item = Raise e -> e = AssertionError.
Proof.
  revert item. induction d as [|[k v] d IH]; cbn [for_each]; intros item E;
    [done|].
  destruct (Item.assets item !! k) eqn:Ek.
  - rewrite add_image_asset_taken in E by eauto. by inversion E.
  - rewrite add_image_asset_fresh in E by done. eauto.
Qed.

(** Over entries with distinct keys, none of which is a key of the item,
    the loop adds every entry. *)
Lemma image_asset_loop_ok d item :
  NoDup d.*1 ->
  (forall k, k ∈ d.*1 -> Item.assets item !! k = None) ->
  exists item',
    for_each add_image_asset d item = Ok item'
    /\ Item.assets item' = store_all d (Item.assets item).
Proof.
  revert item.
  induction d as [|[k v] d IH]; cbn [for_each]; intros item Hd Hfresh.
  - by exists item.
  - rewrite fmap_cons in Hd, Hfresh. cbn [fst] in Hd, Hfresh.
    apply NoDup_cons in Hd as [Hk Hd].
    rewrite add_image_asset_fresh
      by (apply Hfresh, elem_of_cons; by left).
    rewrite bind_Ok. apply IH; [done|]. intros k' Hk'.
    cbn [Item.add_asset Item.assets].
    rewrite lookup_insert_ne by (intros ->; done).
    apply Hfresh, elem_of_cons. by right.
Qed.

(** An entry whose key the item already has stops the loop. *)
Lemma image_asset_loop_collision d item k :
  k ∈ d.*1 -> is_Some (Item.assets item !! k) ->
  for_each add_image_asset d item = Raise AssertionError.
Proof.
  revert item.
  induction d as [|[k0 v0] d IH]; cbn [for_each]; intros item Hk Hin.
  - by apply elem_of_nil in Hk.
  - destruct (Item.assets item !! k0) eqn:E0.
    { by rewrite add_image_asset_taken by eauto. }
    rewrite add_image_asset_fresh by done. rewrite bind_Ok.
    rewrite fmap_cons in Hk. cbn [fst] in Hk.
    apply elem_of_cons in Hk as [->|Hk].
    + destruct Hin as [a Ha]. congruence.
    + apply IH; [done|]. cbn [Item.add_asset Item.assets].
      destruct Hin as [a Ha].
      destruct (decide (k0 = k)) as [->|Hne]; [congruence|].
      rewrite lookup_insert_ne by done. eauto.
Qed.

(** What the check after [dict(...)] amounts to: for any classified
    pairs, two of them with the same key or not, the loop succeeds
    exactly when no key is a key of the item already, and the item then
    holds, for each key, the asset of the last pair with that key. *)
Lemma image_assets_after_dict pairs item :
  (forall k, k ∈ pairs.*1 -> Item.assets item !! k = None) ->
  exists item',
    for_each add_image_asset (py_dict pairs) item = Ok item'
    /\ Item.assets item' = store_all pairs ∅ ∪ Item.assets item.
Proof.
  intros Hfresh.
  destruct (image_asset_loop_ok (py_dict pairs) item) as (item' & E & Ha).
  { apply py_dict_NoDup. }
  { intros k Hk. apply Hfresh. by apply py_dict_keys. }
  exists item'. split; [done|].
  by rewrite Ha, store_all_NoDup, py_dict_to_map by apply py_dict_NoDup.
Qed.

End LoopFacts.

(** ** The assembler *)

Section AssemblerFacts.
Context `{Collaborators}.

Lemma dict_unpack2_lookup {V} (d1 d2 : gmap string V) k :
  dict_unpack2 d1 d2 !! k
  = match d2 !! k with Some v => Some v | None => d1 !! k end.
Proof.
  unfold dict_unpack2, dict_update. rewrite !lookup_union, lookup_empty.
  destruct (d2 !! k), (d1 !! k); reflexivity.
Qed.

(** A record is returned only after the orbit state and the EPSG code
    were found, and its property map is the one the update of the empty
    map with the merged dictionaries leaves. *)
Lemma create_item_Ok granule_href additional_providers read_href_modifier
    sm pm gm item :
  new_SafeManifest granule_href read_href_modifier = Ok sm ->
  new_ProductMetadata (SafeManifest.product_metadata_href sm)
    read_href_modifier = Ok pm ->
  new_GranuleMetadata (SafeManifest.granule_metadata_href sm)
    read_href_modifier = Ok gm ->
  create_item granule_href additional_providers read_href_modifier
  = Ok item ->
  (exists o, OrbitState_of_value
               (PyStr.lower (ProductMetadata.orbit_state pm)) = Ok o)
  /\ (exists code, GranuleMetadata.epsg gm = Some code)
  /\ Item.properties item
     = dict_update ∅ (dict_unpack2 (ProductMetadata.metadata_dict pm)
                        (GranuleMetadata.metadata_dict gm)).
Proof.
  intros Hsm Hpm Hgm. unfold create_item. step.
  destruct (OrbitState_of_value _) as [o|e]; [|done]. step.
  cbn [Item.proj_epsg Item.set_proj_epsg].
  destruct (GranuleMetadata.epsg gm) as [code|]; [|done].
  intros E. split; [eauto|]. split; [eauto|].
  apply bind_Ok_inv in E as (pairs & _ & E).
  apply bind_Ok_inv in E as (item1 & Eloop & E).
  apply image_asset_loop_properties in Eloop.
  inversion E; subst. clear E.
  destruct (SafeManifest.thumbnail_href sm); cbn; by rewrite Eloop.
Qed.

(** C7. In the record [create_item] returns, the property map holds the
    merge of the product reader's dictionary followed by the granule
    reader's: every key of the merge has in the record the value it has
    in the merge; a key present in both dictionaries has the granule
    value; a key present in only one of them keeps its value. *)
Theorem C7_properties_merge granule_href additional_providers
    read_href_modifier sm pm gm item :
  new_SafeManifest granule_href read_href_modifier = Ok sm ->
  new_ProductMetadata (SafeManifest.product_metadata_href sm)
    read_href_modifier = Ok pm ->
  new_GranuleMetadata (SafeManifest.granule_metadata_href sm)
    read_href_modifier = Ok gm ->
  create_item granule_href additional_providers read_href_modifier
  = Ok item ->
  let product_dict := ProductMetadata.metadata_dict pm in
  let granule_dict := GranuleMetadata.metadata_dict gm in
  dict_unpack2 product_dict granule_dict ⊆ Item.properties item
  /\ (forall key product_value granule_value,
        product_dict !! key = Some product_value ->
        granule_dict !! key = Some granule_value ->
        Item.properties item !! key = Some granule_value)
  /\ (forall key value,
        product_dict !! key = Some value ->
        granule_dict !! key = None ->
        Item.properties item !! key = Some value)
  /\ (forall key value,
        product_dict !! key = None ->
        granule_dict !! key = Some value ->
        Item.properties item !! key = Some value).
Proof.
  intros Hsm Hpm Hgm E product_dict granule_dict.
  destruct (create_item_Ok _ _ _ _ _ _ _ Hsm Hpm Hgm E) as (_ & _ & ->).
  replace (dict_update ∅ (dict_unpack2 (ProductMetadata.metadata_dict pm)
                            (GranuleMetadata.metadata_dict gm)))
    with (dict_unpack2 product_dict granule_dict)
    by (symmetry; apply map_union_empty).
  split; [done|].
  repeat split; intros key; intros; rewrite dict_unpack2_lookup;
    subst product_dict granule_dict;
    repeat match goal with E : _ !! key = _ |- _ => rewrite E end;
    reflexivity.
Qed.

(** C3 (as amended). If the readers succeed and the granule reader
    yields no EPSG code, [create_item] returns no record: the call ends
    with an exception. When the orbit state of the product is, in
    lowercase, a member of the orbit-state enumeration, that exception
    is [ValueError("Could not determine EPSG code for <granule_href>;
    which is required.")]. Up to the check the function writes to the
    record it is building and to nothing else, which is why it is
    embedded without a store: the outcome [Raise] is all that the caller
    can observe of the call. *)
Theorem C3_missing_epsg granule_href additional_providers
    read_href_modifier sm pm gm :
  new_SafeManifest granule_href read_href_modifier = Ok sm ->
  new_ProductMetadata (SafeManifest.product_metadata_href sm)
    read_href_modifier = Ok pm ->
  new_GranuleMetadata (SafeManifest.granule_metadata_href sm)
    read_href_modifier = Ok gm ->
  GranuleMetadata.epsg gm = None ->
  (exists e,
     create_item granule_href additional_providers read_href_modifier
     = Raise e)
  /\ (In (PyStr.lower (ProductMetadata.orbit_state pm))
        ["ascending"; "descending"; "geostationary"] ->
      create_item granule_href additional_providers read_href_modifier
      = Raise (ValueError ("Could not determine EPSG code for "
                           ++ granule_href ++ "; which is required."))).
Proof.
  intros Hsm Hpm Hgm Hepsg.
  assert (forall o,
            OrbitState_of_value
              (PyStr.lower (ProductMetadata.orbit_state pm)) = Ok o ->
            create_item granule_href additional_providers read_href_modifier
            = Raise (ValueError ("Could not determine EPSG code for "
                                 ++ granule_href ++ "; which is required.")))
    as Hvalid.
  { intros o Ho. unfold create_item. step.
    cbn [Item.proj_epsg Item.set_proj_epsg]. by rewrite Hepsg. }
  split.
  - destruct (OrbitState_of_value
                (PyStr.lower (ProductMetadata.orbit_state pm)))
      as [o|e] eqn:Ho; [eauto|].
    exists e. unfold create_item. by step.
  - intros Hin. simpl in Hin.
    destruct Hin as [E | [E | [E | []]]];
      eapply Hvalid; rewrite <- E; reflexivity.
Qed.

(** What the assembler does with the classified images, whether two of
    them share a key or not. When every image path classifies and no
    key is the key of a metadata asset, a record is returned, and under
    each image key it holds the asset of the last image with that key
    (the thumbnail takes the key ["preview"] when there is one). When
    some key is the key of a metadata asset, the assertion fails. *)
Lemma create_item_image_assets granule_href additional_providers
    read_href_modifier sm pm gm o code pairs :
  new_SafeManifest granule_href read_href_modifier = Ok sm ->
  new_ProductMetadata (SafeManifest.product_metadata_href sm)
    read_href_modifier = Ok pm ->
  new_GranuleMetadata (SafeManifest.granule_metadata_href sm)
    read_href_modifier = Ok gm ->
  OrbitState_of_value (PyStr.lower (ProductMetadata.orbit_state pm)) = Ok o ->
  GranuleMetadata.epsg gm = Some code ->
  (forall item,
     list_comprehension
       (fun image_path =>
          image_asset_from_href (os_path.join granule_href image_path) item
            (GranuleMetadata.resolution_to_shape gm)
            (GranuleMetadata.proj_bbox gm)
            (ProductMetadata.image_media_type pm))
       (ProductMetadata.image_paths pm) = Ok pairs) ->
  ((forall k, k ∈ pairs.*1 -> k ∉ metadata_asset_keys sm pm gm) ->
   exists item,
     create_item granule_href additional_providers read_href_modifier
     = Ok item
     /\ forall k,
          k ∈ pairs.*1 ->
          SafeManifest.thumbnail_href sm = None \/ k <> "preview" ->
          Item.assets item !! k = store_all pairs ∅ !! k)
  /\ ((exists k, k ∈ pairs.*1 /\ k ∈ metadata_asset_keys sm pm gm) ->
      create_item granule_href additional_providers read_href_modifier
      = Raise AssertionError).
Proof.
  intros Hsm Hpm Hgm Ho Hepsg Hpairs.
  unfold create_item. step.
  cbn [Item.proj_epsg Item.set_proj_epsg]. rewrite Hepsg.
  cbv zeta. rewrite Hpairs. step.
  match goal with
  | |- context [for_each add_image_asset (py_dict pairs) ?i] =>
      set (item5 := i)
  end.
  assert (forall k, k ∉ metadata_asset_keys sm pm gm <->
                    Item.assets item5 !! k = None) as Hmeta.
  { intros k. subst item5.
    cbn [Item.assets Item.add_asset Item.make Item.properties_update
         Item.set_proj_epsg Item.set_sat Item.set_eo_cloud_cover
         Item.set_common_metadata].
    unfold metadata_asset_keys.
    rewrite !not_elem_of_cons, !lookup_insert_None, lookup_empty.
    split; [intros (?&?&?&?&?&_)|intros (((((_&?)&?)&?)&?)&?)];
      repeat split; try done; by apply not_elem_of_nil. }
  split.
  - intros Hfresh.
    destruct (image_assets_after_dict pairs item5) as (item6 & E & Ha).
    { intros k Hk. by apply Hmeta, Hfresh. }
    rewrite E. step. eexists. split; [reflexivity|].
    intros k Hk Hthumb.
    assert (Item.assets item6 !! k = store_all pairs ∅ !! k) as <-.
    { rewrite Ha, lookup_union.
      rewrite (proj1 (Hmeta k)) by by apply Hfresh.
      by destruct (store_all pairs ∅ !! k). }
    destruct (SafeManifest.thumbnail_href sm) as [thumbnail|];
      cbn [Item.assets Item.links_append Item.add_asset]; [|done].
    destruct Hthumb as [?|Hne]; [done|]. by rewrite lookup_insert_ne.
  - intros (k & Hk & Hin).
    rewrite (image_asset_loop_collision (py_dict pairs) item5 k); [done|..].
    + by apply py_dict_keys.
    + destruct (Item.assets item5 !! k) eqn:E; [eauto|].
      by apply Hmeta in E.
Qed.

(** The part of the uniqueness claim that holds: when the image paths
    classify to keys that differ from one another and from the keys of
    the metadata assets, a record is returned that holds every image
    asset under its key (the thumbnail takes the key ["preview"] when
    there is one). *)
Lemma create_item_distinct_image_keys granule_href additional_providers
    read_href_modifier sm pm gm o code pairs :
  new_SafeManifest granule_href read_href_modifier = Ok sm ->
  new_ProductMetadata (SafeManifest.product_metadata_href sm)
    read_href_modifier = Ok pm ->
  new_GranuleMetadata (SafeManifest.granule_metadata_href sm)
    read_href_modifier = Ok gm ->
  OrbitState_of_value (PyStr.lower (ProductMetadata.orbit_state pm)) = Ok o ->
  GranuleMetadata.epsg gm = Some code ->
  (forall item,
     list_comprehension
       (fun image_path =>
          image_asset_from_href (os_path.join granule_href image_path) item
            (GranuleMetadata.resolution_to_shape gm)
            (GranuleMetadata.proj_bbox gm)
            (ProductMetadata.image_media_type pm))
       (ProductMetadata.image_paths pm) = Ok pairs) ->
  NoDup pairs.*1 ->
  (forall k, k ∈ pairs.*1 -> k ∉ metadata_asset_keys sm pm gm) ->
  exists item,
    create_item granule_href additional_providers read_href_modifier
    = Ok item
    /\ forall k asset,
         (k, asset) ∈ pairs ->
         SafeManifest.thumbnail_href sm = None \/ k <> "preview" ->
         Item.assets item !! k = Some asset.
Proof.
  intros Hsm Hpm Hgm Ho Hepsg Hpairs Hnodup Hfresh.
  destruct (create_item_image_assets granule_href additional_providers
              read_href_modifier sm pm gm o code pairs
              Hsm Hpm Hgm Ho Hepsg Hpairs) as [Hok _].
  destruct (Hok Hfresh) as (item & E & Hassets).
  exists item. split; [done|]. intros k asset Hin Hthumb.
  rewrite Hassets.
  - rewrite store_all_NoDup, map_union_empty by done.
    by apply elem_of_list_to_map_1.
  - apply list_elem_of_fmap. by exists (k, asset).
  - done.
Qed.

End AssemblerFacts.

(** ** The classifier on explicit inputs *)

(** The preview rule applies although the band pattern matches too. *)
Lemma C4_preview_first_witness :
  band_id_search "GRANULE/L2A_T01CCV/QI_DATA/T01CCV_B04_PVI.jp2" = Some "B04"
  /\ image_asset_from_href (H := Fixture.product None [])
       "GRANULE/L2A_T01CCV/QI_DATA/T01CCV_B04_PVI.jp2" Fixture.blank_item
       ∅ Fixture.proj_bbox None
     = Ok ("preview",
           {| Asset.href := "GRANULE/L2A_T01CCV/QI_DATA/T01CCV_B04_PVI.jp2";
              Asset.media_type := Some MediaType.JPEG2000;
              Asset.title := Some "True color preview";
              Asset.roles := Some ["data"];
              Asset.eo_bands :=
                Some [Fixture.B04; Fixture.B03; Fixture.B02];
              Asset.gsd := None;
              Asset.proj_shape := None;
              Asset.proj_bbox := None;
              Asset.proj_transform := None |}).
Proof.
  split; [reflexivity|].
  apply (@C4_preview_first (Fixture.product None [])); reflexivity.
Defined.

(** An href with [_PVI] and an extension that tells no media type is
    not classified as preview: the call ends in the media-type step. *)
Lemma C4_counterexample :
  let asset_href := "GRANULE/L2A_T01CCV/QI_DATA/T01CCV_PVI.png" in
  PyStr.contains "_PVI" asset_href = true
  /\ image_asset_from_href (H := Fixture.product None []) asset_href
       Fixture.blank_item ∅ Fixture.proj_bbox None
     = Raise (Exception
                ("Must supply a media type for asset : " ++ asset_href))
  /\ ~ (exists asset,
          image_asset_from_href (H := Fixture.product None []) asset_href
            Fixture.blank_item ∅ Fixture.proj_bbox None
          = Ok ("preview", asset)).
Proof.
  intros asset_href.
  assert (image_asset_from_href (H := Fixture.product None []) asset_href
            Fixture.blank_item ∅ Fixture.proj_bbox None
          = Raise (Exception
                     ("Must supply a media type for asset : " ++ asset_href)))
    as E by reflexivity.
  split; [reflexivity|]. split; [exact E|].
  intros [asset Ha]. rewrite E in Ha. discriminate.
Qed.

Lemma C2_unclassified_asset_witness :
  image_asset_from_href (H := Fixture.product None [])
    ".../T01CCV_XYZ_10m.jp2" Fixture.blank_item
    {[ 10 := (10980, 10980) ]} Fixture.proj_bbox None
  = Raise (ValueError "Unexpected asset: .../T01CCV_XYZ_10m.jp2").
Proof.
  apply (@C2_unclassified_asset (Fixture.product None [])
           ".../T01CCV_XYZ_10m.jp2" Fixture.blank_item
           {[ 10 := (10980, 10980) ]} Fixture.proj_bbox None
           MediaType.JPEG2000 (inject_Z 10) (10980, 10980)
           [(109800 # 10980)%Q; 0%Q; inject_Z 499980;
            0%Q; (-109800 # 10980)%Q; inject_Z 6200020]).
  - reflexivity.
  - repeat split; reflexivity.
  - reflexivity.
  - reflexivity.
  - reflexivity.
Defined.

(** The href of scenario 4 carries no marker and its media type is
    inferred, but with a resolution table that has no entry for 10 the
    call ends with [KeyError(10)], not with the unexpected-asset
    error. *)
Lemma C2_counterexample :
  let asset_href := ".../T01CCV_XYZ_10m.jp2" in
  asset_media_type_of asset_href None = Ok MediaType.JPEG2000
  /\ no_marker asset_href
  /\ image_asset_from_href (H := Fixture.product None []) asset_href
       Fixture.blank_item ∅ Fixture.proj_bbox None
     = Raise (KeyError (VInt 10))
  /\ image_asset_from_href (H := Fixture.product None []) asset_href
       Fixture.blank_item ∅ Fixture.proj_bbox None
     <> Raise (ValueError ("Unexpected asset: " ++ asset_href)).
Proof.
  intros asset_href.
  assert (image_asset_from_href (H := Fixture.product None []) asset_href
            Fixture.blank_item ∅ Fixture.proj_bbox None
          = Raise (KeyError (VInt 10))) as E by reflexivity.
  split; [reflexivity|]. split; [repeat split; reflexivity|].
  split; [exact E|]. rewrite E. discriminate.
Qed.

Lemma C10_unknown_band_code_witness :
  image_asset_from_href (H := Fixture.product None [])
    ".../T01CCV_20210214T042702_BXX_10m.jp2" Fixture.blank_item
    {[ 10 := (10980, 10980) ]} Fixture.proj_bbox None
  = Raise (KeyError (VStr "BXX")).
Proof.
  eapply eq_trans.
  - apply (@C10_unknown_band_code (Fixture.product None [])
             ".../T01CCV_20210214T042702_BXX_10m.jp2" Fixture.blank_item
             {[ 10 := (10980, 10980) ]} Fixture.proj_bbox None
             MediaType.JPEG2000 (inject_Z 10) "BXX");
      try reflexivity.
    intros shape_tuple Hs. vm_compute in Hs.
    inversion Hs. subst shape_tuple. eexists. reflexivity.
  - reflexivity.
Defined.

(** An href that matches the band pattern with a code the band table
    does not have, and that contains [_PVI]: the classifier returns the
    preview asset. *)
Lemma C10_counterexample :
  let asset_href := "GRANULE/L2A_T01CCV/QI_DATA/T01CCV_BXX_PVI.jp2" in
  band_id_search asset_href = Some "BXX"
  /\ Fixture.SENTINEL_BANDS !! "BXX" = None
  /\ exists asset,
       image_asset_from_href (H := Fixture.product None []) asset_href
         Fixture.blank_item ∅ Fixture.proj_bbox None
       = Ok ("preview", asset).
Proof.
  intros asset_href. split; [reflexivity|]. split; [reflexivity|].
  eexists. vm_compute. reflexivity.
Qed.

Lemma C8_scenario_band_B04_witness :
  image_asset_from_href (H := Fixture.product None []) scenario1_href
    Fixture.blank_item {[ 10 := (10980, 10980) ]} Fixture.proj_bbox None
  = Ok ("B04",
        {| Asset.href := scenario1_href;
           Asset.media_type := Some MediaType.JPEG2000;
           Asset.title := Some "Band 4 - Red";
           Asset.roles := Some ["data"];
           Asset.eo_bands := Some [Fixture.B04];
           Asset.gsd := Some (inject_Z 10);
           Asset.proj_shape := Some [10980; 10980];
           Asset.proj_bbox := Some Fixture.proj_bbox;
           Asset.proj_transform :=
             Some [(109800 # 10980)%Q; 0%Q; inject_Z 499980;
                   0%Q; (-109800 # 10980)%Q; inject_Z 6200020] |}).
Proof.
  apply (@C8_scenario_band_B04 (Fixture.product None [])
           Fixture.blank_item Fixture.B04); reflexivity.
Defined.

(** A band image with an extension that tells no media type is
    classified with the supplied media type; without one, [.jp2] gives
    JPEG2000 and [.tif] GEOTIFF; and with neither the call fails. *)
Lemma C5_media_type_determination_witness :
  image_asset_from_href (H := Fixture.product None [])
    ".../T01CCV_20210214T042702_B04_10m.img" Fixture.blank_item
    {[ 10 := (10980, 10980) ]} Fixture.proj_bbox (Some MediaType.COG)
  = Ok ("B04",
        {| Asset.href := ".../T01CCV_20210214T042702_B04_10m.img";
           Asset.media_type := Some MediaType.COG;
           Asset.title := Some "Band 4 - Red";
           Asset.roles := Some ["data"];
           Asset.eo_bands := Some [Fixture.B04];
           Asset.gsd := Some (inject_Z 10);
           Asset.proj_shape := Some [10980; 10980];
           Asset.proj_bbox := Some Fixture.proj_bbox;
           Asset.proj_transform :=
             Some [(109800 # 10980)%Q; 0%Q; inject_Z 499980;
                   0%Q; (-109800 # 10980)%Q; inject_Z 6200020] |})
  /\ image_asset_from_href (H := Fixture.product None [])
       scenario1_href Fixture.blank_item
       {[ 10 := (10980, 10980) ]} Fixture.proj_bbox None
     = Ok ("B04",
           {| Asset.href := scenario1_href;
              Asset.media_type := Some MediaType.JPEG2000;
              Asset.title := Some "Band 4 - Red";
              Asset.roles := Some ["data"];
              Asset.eo_bands := Some [Fixture.B04];
              Asset.gsd := Some (inject_Z 10);
              Asset.proj_shape := Some [10980; 10980];
              Asset.proj_bbox := Some Fixture.proj_bbox;
              Asset.proj_transform :=
                Some [(109800 # 10980)%Q; 0%Q; inject_Z 499980;
                      0%Q; (-109800 # 10980)%Q; inject_Z 6200020] |})
  /\ image_asset_from_href (H := Fixture.product None [])
       ".../T01CCV_20210214T042702_PVI.tif" Fixture.blank_item
       ∅ Fixture.proj_bbox None
     = Ok ("preview",
           {| Asset.href := ".../T01CCV_20210214T042702_PVI.tif";
              Asset.media_type := Some MediaType.GEOTIFF;
              Asset.title := Some "True color preview";
              Asset.roles := Some ["data"];
              Asset.eo_bands := Some [Fixture.B04; Fixture.B03; Fixture.B02];
              Asset.gsd := None;
              Asset.proj_shape := None;
              Asset.proj_bbox := None;
              Asset.proj_transform := None |})
  /\ image_asset_from_href (H := Fixture.product None [])
       ".../T01CCV_20210214T042702_B04_10m.img" Fixture.blank_item
       {[ 10 := (10980, 10980) ]} Fixture.proj_bbox None
     = Raise (Exception
                "Must supply a media type for asset : .../T01CCV_20210214T042702_B04_10m.img").
Proof.
  destruct (@C5_media_type_determination (Fixture.product None []))
    as (Hworks & Hunknown & _).
  split; [|split; [|split]].
  - destruct (Hworks ".../T01CCV_20210214T042702_B04_10m.img"
                Fixture.blank_item {[ 10 := (10980, 10980) ]}
                Fixture.proj_bbox (Some MediaType.COG) MediaType.COG
                (determined_supplied _ _)) as (_ & _ & _ & Hrules).
    destruct (Hrules eq_refl (inject_Z 10) (10980, 10980)
                [(109800 # 10980)%Q; 0%Q; inject_Z 499980;
                 0%Q; (-109800 # 10980)%Q; inject_Z 6200020]
                eq_refl eq_refl eq_refl) as [Hband _].
    exact (Hband "B04" Fixture.B04 eq_refl eq_refl).
  - destruct (Hworks scenario1_href
                Fixture.blank_item {[ 10 := (10980, 10980) ]}
                Fixture.proj_bbox None MediaType.JPEG2000
                (determined_jp2 scenario1_href eq_refl)) as (_ & _ & _ & Hrules).
    destruct (Hrules eq_refl (inject_Z 10) (10980, 10980)
                [(109800 # 10980)%Q; 0%Q; inject_Z 499980;
                 0%Q; (-109800 # 10980)%Q; inject_Z 6200020]
                eq_refl eq_refl eq_refl) as [Hband _].
    exact (Hband "B04" Fixture.B04 eq_refl eq_refl).
  - destruct (Hworks ".../T01CCV_20210214T042702_PVI.tif"
                Fixture.blank_item ∅
                Fixture.proj_bbox None MediaType.GEOTIFF
                (determined_tif ".../T01CCV_20210214T042702_PVI.tif"
                   (or_introl eq_refl)))
      as (_ & _ & Hpreview & _).
    exact (Hpreview eq_refl Fixture.B04 Fixture.B03 Fixture.B02
             eq_refl eq_refl eq_refl).
  - apply Hunknown. vm_compute. intros [E | [E | [E | []]]]; discriminate E.
Defined.

(** A band image named [.JP2] and a preview named [.TiFF]. *)
Lemma C9_extension_case_insensitive_witness :
  image_asset_from_href (H := Fixture.product None [])
    ".../T01CCV_20210214T042702_B04_10m.JP2" Fixture.blank_item
    {[ 10 := (10980, 10980) ]} Fixture.proj_bbox None
  = Ok ("B04",
        {| Asset.href := ".../T01CCV_20210214T042702_B04_10m.JP2";
           Asset.media_type := Some MediaType.JPEG2000;
           Asset.title := Some "Band 4 - Red";
           Asset.roles := Some ["data"];
           Asset.eo_bands := Some [Fixture.B04];
           Asset.gsd := Some (inject_Z 10);
           Asset.proj_shape := Some [10980; 10980];
           Asset.proj_bbox := Some Fixture.proj_bbox;
           Asset.proj_transform :=
             Some [(109800 # 10980)%Q; 0%Q; inject_Z 499980;
                   0%Q; (-109800 # 10980)%Q; inject_Z 6200020] |})
  /\ image_asset_from_href (H := Fixture.product None [])
       ".../T01CCV_20210214T042702_PVI.TiFF" Fixture.blank_item
       ∅ Fixture.proj_bbox None
     = Ok ("preview",
           {| Asset.href := ".../T01CCV_20210214T042702_PVI.TiFF";
              Asset.media_type := Some MediaType.GEOTIFF;
              Asset.title := Some "True color preview";
              Asset.roles := Some ["data"];
              Asset.eo_bands := Some [Fixture.B04; Fixture.B03; Fixture.B02];
              Asset.gsd := None;
              Asset.proj_shape := None;
              Asset.proj_bbox := None;
              Asset.proj_transform := None |}).
Proof.
  split.
  - destruct (@C9_extension_case_insensitive (Fixture.product None [])
                ".../T01CCV_20210214T042702_B04_10m.JP2" ".jp2")
      as (Hworks & _).
    + left. reflexivity.
    + vm_compute. tauto.
    + destruct (Hworks Fixture.blank_item {[ 10 := (10980, 10980) ]}
                  Fixture.proj_bbox) as (_ & _ & _ & Hrules).
      destruct (Hrules eq_refl (inject_Z 10) (10980, 10980)
                  [(109800 # 10980)%Q; 0%Q; inject_Z 499980;
                   0%Q; (-109800 # 10980)%Q; inject_Z 6200020]
                  eq_refl eq_refl eq_refl) as [Hband _].
      exact (Hband "B04" Fixture.B04 eq_refl eq_refl).
  - destruct (@C9_extension_case_insensitive (Fixture.product None [])
                ".../T01CCV_20210214T042702_PVI.TiFF" ".tiff")
      as (Hworks & _).
    + right. left. reflexivity.
    + vm_compute. tauto.
    + destruct (Hworks Fixture.blank_item ∅ Fixture.proj_bbox)
        as (_ & _ & Hpreview & _).
      exact (Hpreview eq_refl Fixture.B04 Fixture.B03 Fixture.B02
               eq_refl eq_refl eq_refl).
Defined.

Lemma C6_auxiliary_key_witness :
  exists asset,
    image_asset_from_href (H := Fixture.product None [])
      ".../T01CCV_TCI_10m.jp2" Fixture.blank_item
      {[ 10 := (10980, 10980) ]} Fixture.proj_bbox None
    = Ok ("visual-10m", asset).
Proof.
  destruct (@C6_auxiliary_key (Fixture.product None [])
              ".../T01CCV_TCI_10m.jp2" Fixture.blank_item
              {[ 10 := (10980, 10980) ]} Fixture.proj_bbox None "visual"
              eq_refl eq_refl eq_refl) as (_ & Hreturns & _).
  apply (Hreturns MediaType.JPEG2000 (inject_Z 10) (10980, 10980)
           [(109800 # 10980)%Q; 0%Q; inject_Z 499980;
            0%Q; (-109800 # 10980)%Q; inject_Z 6200020]
           Fixture.B04 Fixture.B03 Fixture.B02); reflexivity.
Defined.

(** With the extension [.tiff] the slice [href[-7:-4]] is not the three
    characters in front of the extension: for a true-color image named
    [..._TCI_R10.tiff] the key is ["visual-10."], while the three
    characters in front of the extension are ["R10"]. *)
Lemma C6_counterexample :
  let asset_href := ".../T01CCV_TCI_R10.tiff" in
  PyStr.contains "_PVI" asset_href = false
  /\ band_id_search asset_href = None
  /\ PyStr.contains "_TCI_" asset_href = true
  /\ os_path.splitext asset_href = (".../T01CCV_TCI_R10", ".tiff")
  /\ chars_before_extension asset_href = "R10"
  /\ (exists asset,
        image_asset_from_href (H := Fixture.product None []) asset_href
          Fixture.blank_item {[ 10 := (10980, 10980) ]} Fixture.proj_bbox
          None
        = Ok ("visual-10.", asset))
  /\ forall key asset,
       image_asset_from_href (H := Fixture.product None []) asset_href
         Fixture.blank_item {[ 10 := (10980, 10980) ]} Fixture.proj_bbox None
       = Ok (key, asset) ->
       key <> "visual" ++ "-" ++ chars_before_extension asset_href.
Proof.
  intros asset_href.
  assert (exists asset,
            image_asset_from_href (H := Fixture.product None []) asset_href
              Fixture.blank_item {[ 10 := (10980, 10980) ]} Fixture.proj_bbox
              None
            = Ok ("visual-10.", asset)) as [asset0 E]
    by (eexists; vm_compute; reflexivity).
  repeat (split; [reflexivity|]).
  split; [by exists asset0|].
  intros key asset E'. rewrite E in E'. inversion E'; subst.
  vm_compute. discriminate.
Qed.

(** ** The assembler on explicit inputs *)

Lemma C7_properties_merge_witness :
  exists item,
    create_item (H := Fixture.product None [Fixture.band_B04_10m])
      Fixture.granule_href None None = Ok item
    /\ Item.properties item !! "s2:processing_baseline" = Some (VStr "02.14")
    /\ Item.properties item !! "s2:product_type" = Some (VStr "S2MSI2A")
    /\ Item.properties item !! "s2:mean_solar_zenith"
       = Some (VFloat (4321 # 100)).
Proof.
  destruct (create_item (H := Fixture.product None [Fixture.band_B04_10m])
              Fixture.granule_href None None) as [item|e] eqn:E;
    [|vm_compute in E; discriminate E].
  exists item. split; [reflexivity|].
  destruct (@C7_properties_merge
              (Fixture.product None [Fixture.band_B04_10m])
              Fixture.granule_href None None
              (Fixture.safe_manifest None)
              (Fixture.product_metadata "DESCENDING" [Fixture.band_B04_10m])
              (Fixture.granule_metadata (Some 32701)) item
              eq_refl eq_refl eq_refl E) as (_ & Hboth & Hproduct & Hgranule).
  split; [|split].
  - apply (Hboth _ (VStr "02.12")); reflexivity.
  - apply Hproduct; reflexivity.
  - apply Hgranule; reflexivity.
Defined.

Lemma C3_missing_epsg_witness :
  create_item (H := Fixture.product_without_epsg "DESCENDING")
    Fixture.granule_href None None
  = Raise (ValueError
             "Could not determine EPSG code for S2A_MSIL2A_20160327T204522_N0212_R128_T01CCV_20210214T042702.SAFE; which is required.").
Proof.
  apply (@C3_missing_epsg (Fixture.product_without_epsg "DESCENDING")
           Fixture.granule_href None None
           (Fixture.safe_manifest None)
           (Fixture.product_metadata "DESCENDING" [Fixture.band_B04_10m])
           (Fixture.granule_metadata None) eq_refl eq_refl eq_refl eq_refl).
  vm_compute. tauto.
Defined.

(** The granule reader yields no EPSG code and the orbit state of the
    product is not a member of the enumeration: the call ends with the
    exception of the enumeration, which does not name the granule
    href. *)
Lemma C3_counterexample :
  GranuleMetadata.epsg (Fixture.granule_metadata None) = None
  /\ create_item (H := Fixture.product_without_epsg "UNKNOWN")
       Fixture.granule_href None None
     = Raise (ValueError "'unknown' is not a valid OrbitState")
  /\ create_item (H := Fixture.product_without_epsg "UNKNOWN")
       Fixture.granule_href None None
     <> Raise (ValueError ("Could not determine EPSG code for "
                           ++ Fixture.granule_href
                           ++ "; which is required.")).
Proof.
  assert (create_item (H := Fixture.product_without_epsg "UNKNOWN")
            Fixture.granule_href None None
          = Raise (ValueError "'unknown' is not a valid OrbitState")) as E
    by (vm_compute; reflexivity).
  split; [reflexivity|]. split; [exact E|]. rewrite E. discriminate.
Qed.

(** C1. Two image paths of the product classify to the same key
    ["B04"]. [dict(...)] keeps the later pair only, so that the loop
    with the assertion sees the key once: [create_item] returns a
    record, no [AssertionError] is raised, and the asset under ["B04"]
    is the one of the second path; the asset of the first path is gone.
    The same happens to a preview image when the manifest has a
    thumbnail: the thumbnail is stored under ["preview"] without a
    check and takes the place of the image asset. *)
Theorem C1_duplicate_key_silently_overwritten :
  let rts := GranuleMetadata.resolution_to_shape
               (Fixture.granule_metadata (Some 32701)) in
  let href10 := os_path.join Fixture.granule_href Fixture.band_B04_10m in
  let href20 := os_path.join Fixture.granule_href Fixture.band_B04_20m in
  let href_pvi := os_path.join Fixture.granule_href Fixture.preview_image in
  (exists asset10 asset20 item,
     image_asset_from_href (H := Fixture.product None []) href10
       Fixture.blank_item rts Fixture.proj_bbox None = Ok ("B04", asset10)
     /\ image_asset_from_href (H := Fixture.product None []) href20
          Fixture.blank_item rts Fixture.proj_bbox None = Ok ("B04", asset20)
     /\ Asset.href asset10 = href10
     /\ Asset.href asset20 = href20
     /\ create_item
          (H := Fixture.product None
                  [Fixture.band_B04_10m; Fixture.band_B04_20m])
          Fixture.granule_href None None = Ok item
     /\ Item.assets item !! "B04" = Some asset20
     /\ size (Item.assets item) = 6%nat)
  /\ (exists preview item,
        image_asset_from_href (H := Fixture.product None []) href_pvi
          Fixture.blank_item rts Fixture.proj_bbox None
        = Ok ("preview", preview)
        /\ Asset.roles preview = Some ["data"]
        /\ create_item
             (H := Fixture.product (Some "preview.tif")
                     [Fixture.preview_image])
             Fixture.granule_href None None = Ok item
        /\ Item.assets item !! "preview"
           = Some (Asset.make "preview.tif" (Some MediaType.COG) None
                     (Some ["thumbnail"]))
        /\ size (Item.assets item) = 6%nat).
Proof.
  intros rts href10 href20 href_pvi. split.
  - do 3 eexists.
    split; [vm_compute; reflexivity|].
    split; [vm_compute; reflexivity|].
    split; [reflexivity|]. split; [reflexivity|].
    split; [vm_compute; reflexivity|].
    split; vm_compute; reflexivity.
  - do 2 eexists.
    split; [vm_compute; reflexivity|].
    split; [reflexivity|].
    split; [vm_compute; reflexivity|].
    split; vm_compute; reflexivity.
Qed.

(** * Further properties of the two functions *)

(** ** Comprehensions and the loop *)

Lemma list_comprehension_Ok {A B} (f : A -> Result B) xs ys :
  list_comprehension f xs = Ok ys <-> Forall2 (fun x y => f x = Ok y) xs ys.
Proof.
  revert ys. induction xs as [|x xs IH]; intros ys; cbn [list_comprehension].
  - split.
    + intros [= <-]. constructor.
    + intros Hf. by inversion Hf.
  - split.
    + intros E. apply bind_Ok_inv in E as (y & Ey & E).
      apply bind_Ok_inv in E as (ys' & Eys & E). inversion E; subst.
      constructor; [done|]. by apply IH.
    + intros Hf. inversion Hf as [|? y ? ys' Ey Hys]; subst.
      rewrite Ey, bind_Ok. apply IH in Hys. by rewrite Hys, bind_Ok.
Qed.

(** The first element whose call raises decides the outcome. *)
Lemma list_comprehension_Raise {A B} (f : A -> Result B) before x after e :
  Forall (fun x' => exists y, f x' = Ok y) before ->
  f x = Raise e ->
  list_comprehension f (before ++ x :: after)%list = Raise e.
Proof.
  intros Hbefore Ex. induction Hbefore as [|x' before [y Ey] _ IH].
  - simpl. by rewrite Ex.
  - simpl. rewrite Ey, bind_Ok. by rewrite IH.
Qed.

Section StageFacts.
Context `{Collaborators}.

(** The classifier does not look at its [item] argument. *)
Lemma image_asset_any_item asset_href item item' rts bbox media_type :
  image_asset_from_href asset_href item rts bbox media_type
  = image_asset_from_href asset_href item' rts bbox media_type.
Proof. reflexivity. Qed.

(** [create_item] as the sequence of its stages. *)
Lemma create_item_stages granule_href additional_providers read_href_modifier :
  create_item granule_href additional_providers read_href_modifier
  = (sm ← new_SafeManifest granule_href read_href_modifier;
     pm ← new_ProductMetadata (SafeManifest.product_metadata_href sm)
            read_href_modifier;
     gm ← new_GranuleMetadata (SafeManifest.granule_metadata_href sm)
            read_href_modifier;
     o ← OrbitState_of_value (PyStr.lower (ProductMetadata.orbit_state pm));
     match GranuleMetadata.epsg gm with
     | None =>
         Raise (ValueError ("Could not determine EPSG code for "
                            ++ granule_href ++ "; which is required."))
     | Some _ =>
         pairs ←
           list_comprehension
             (fun image_path =>
                image_asset_from_href (os_path.join granule_href image_path)
                  (item_before_images sm pm gm o)
                  (GranuleMetadata.resolution_to_shape gm)
                  (GranuleMetadata.proj_bbox gm)
                  (ProductMetadata.image_media_type pm))
             (ProductMetadata.image_paths pm);
         item ← for_each add_image_asset (py_dict pairs)
                  (item_before_images sm pm gm o);
         Ok (finish_item sm item)
     end).
Proof.
  unfold create_item.
  destruct (new_SafeManifest _ _) as [sm|]; [|done]. rewrite !bind_Ok.
  destruct (new_ProductMetadata _ _) as [pm|]; [|done]. rewrite !bind_Ok.
  destruct (new_GranuleMetadata _ _) as [gm|]; [|done]. rewrite !bind_Ok.
  destruct (OrbitState_of_value _) as [o|]; [|done]. rewrite !bind_Ok.
  cbn [Item.proj_epsg Item.set_proj_epsg]. unfold item_before_images.
  destruct (GranuleMetadata.epsg gm); reflexivity.
Qed.

(** When the assertion holds at every turn, the loop is a sequence of
    [add_asset] calls. *)
Lemma image_asset_loop_fold d item item' :
  for_each add_image_asset d item = Ok item' ->
  item' = foldl (fun i kv => Item.add_asset kv.1 kv.2 i) item d
  /\ forall k, k ∈ d.*1 -> Item.assets item !! k = None.
Proof.
  revert item. induction d as [|[k v] d IH]; cbn [for_each]; intros item E.
  - inversion E. split; [done|]. intros k Hk. by apply elem_of_nil in Hk.
  - destruct (Item.assets item !! k) eqn:Ek.
    { rewrite add_image_asset_taken in E by eauto. discriminate E. }
    rewrite add_image_asset_fresh, bind_Ok in E by done.
    destruct (IH _ E) as [-> Hfresh]. split; [done|].
    intros k' Hk'. rewrite fmap_cons in Hk'. cbn [fst] in Hk'.
    apply elem_of_cons in Hk' as [->|Hk']; [done|].
    specialize (Hfresh k' Hk'). cbn [Item.add_asset Item.assets] in Hfresh.
    by apply lookup_insert_None in Hfresh as [? _].
Qed.

End StageFacts.

(** ** More on Python strings *)

Section MoreStringFacts.
Import PyStr.

Lemma append_assoc a b c : (a ++ b) ++ c = a ++ (b ++ c).
Proof.
  induction a as [|x a IH]; [done|]. by rewrite !append_cons, IH.
Qed.

Lemma length_append a b :
  String.length (a ++ b) = (String.length a + String.length b)%nat.
Proof.
  induction a as [|x a IH]; [done|]. rewrite append_cons. simpl. by rewrite IH.
Qed.

Lemma substring_length s : forall n m,
  String.length (substring n m s) = Nat.min m (String.length s - n).
Proof.
  induction s as [|c s IH]; intros [|n] [|m]; simpl; try reflexivity.
  - by rewrite IH, Nat.sub_0_r.
  - apply IH.
  - apply IH.
Qed.

(** A slice that starts behind the first part of a concatenation is a
    slice of the second part. *)
Lemma substring_app_r a b n m :
  substring (String.length a + n) m (a ++ b) = substring n m b.
Proof. induction a as [|x a IH]; [done|]. rewrite append_cons. apply IH. Qed.

Lemma substring_app_prefix a b m :
  substring 0 (String.length a + m) (a ++ b) = a ++ substring 0 m b.
Proof.
  induction a as [|x a IH]; [done|].
  rewrite !append_cons. simpl. by rewrite IH.
Qed.

(** [s.startswith(p)] says that [s] is [p] followed by something. *)
Lemma startswith_iff p s :
  startswith p s = true <-> exists post, s = p ++ post.
Proof.
  revert s. induction p as [|a p IH]; intros s.
  - split; [by exists s|done].
  - destruct s as [|b s]; simpl.
    + split; [done|]. intros [post E]. by rewrite append_cons in E.
    + rewrite andb_true_iff, IH. split.
      * intros [Hab [post ->]]. apply Ascii.eqb_eq in Hab as ->.
        by exists post.
      * intros [post E]. rewrite append_cons in E. inversion E; subst.
        split; [apply Ascii.eqb_refl|by exists post].
Qed.

(** [sub in s] says that [s] is something, [sub], and something. *)
Lemma contains_iff sub s :
  contains sub s = true <-> exists pre post, s = pre ++ sub ++ post.
Proof.
  induction s as [|c s IH].
  - simpl. rewrite orb_false_r, startswith_iff. split.
    + intros [post E]. by exists EmptyString, post.
    + intros (pre & post & E). destruct pre as [|x pre].
      * by exists post.
      * by rewrite append_cons in E.
  - cbn [contains]. rewrite orb_true_iff, startswith_iff, IH. split.
    + intros [[post E] | (pre & post & ->)].
      * by exists EmptyString, post.
      * by exists (String c pre), post.
    + intros (pre & post & E). destruct pre as [|x pre].
      * left. by exists post.
      * right. rewrite append_cons in E. inversion E; subst.
        by exists pre, post.
Qed.

Lemma contains_app_l sub a b :
  contains sub a = true -> contains sub (a ++ b) = true.
Proof.
  rewrite !contains_iff. intros (pre & post & ->).
  exists pre, (post ++ b). by rewrite !append_assoc.
Qed.

Lemma contains_app_r sub a b :
  contains sub b = true -> contains sub (a ++ b) = true.
Proof.
  rewrite !contains_iff. intros (pre & post & ->).
  exists (a ++ pre), post. by rewrite !append_assoc.
Qed.

Lemma rfind_range c s : -1 <= rfind c s < len s.
Proof.
  unfold len. induction s as [|a s IH]; simpl String.length; [simpl; lia|].
  cbn [rfind]. destruct (Z.leb_spec 0 (rfind c s)); [lia|].
  destruct (Ascii.eqb a c); lia.
Qed.

Lemma rfind_app c a b :
  rfind c (a ++ b)
  = if 0 <=? rfind c b then len a + rfind c b else rfind c a.
Proof.
  induction a as [|x a IH].
  - change (EmptyString ++ b) with b. pose proof (rfind_range c b).
    unfold len. simpl. destruct (Z.leb_spec 0 (rfind c b)); lia.
  - rewrite append_cons. cbn [rfind]. rewrite IH.
    unfold len. cbn [String.length]. rewrite Nat2Z.inj_succ.
    fold (len a). pose proof (len_nonneg a).
    destruct (Z.leb_spec 0 (rfind c b)); [|done].
    destruct (Z.leb_spec 0 (len a + rfind c b)); lia.
Qed.

(** [rfind] finds the last occurrence: what follows it has none. *)
Lemma rfind_decompose c s :
  0 <= rfind c s ->
  exists pre post,
    s = pre ++ String c post /\ len pre = rfind c s /\ rfind c post = -1.
Proof.
  induction s as [|a s IH]; cbn [rfind]; [lia|].
  pose proof (rfind_range c s) as Hr.
  destruct (Z.leb_spec 0 (rfind c s)) as [Hge|Hlt].
  - intros _. destruct (IH Hge) as (pre & post & -> & Hlen & Hpost).
    exists (String a pre), post. split; [done|]. split; [|done].
    unfold len in *. cbn [String.length]. lia.
  - destruct (Ascii.eqb_spec a c) as [->|]; [|lia]. intros _.
    exists EmptyString, s. split; [done|]. split; [done|]. lia.
Qed.

(** No occurrence at all, in terms of [in]. *)
Lemma rfind_none_iff c s :
  rfind c s = -1 <-> contains (String c EmptyString) s = false.
Proof.
  induction s as [|a s IH]; [done|].
  cbn [rfind contains startswith]. pose proof (rfind_range c s) as Hr.
  replace (startswith "" s) with true by (by destruct s).
  rewrite andb_true_r, (Ascii.eqb_sym c a).
  destruct (Z.leb_spec 0 (rfind c s)) as [Hge|Hlt].
  - split; [lia|]. intros Hc. apply orb_false_iff in Hc as [_ Hc].
    apply IH in Hc. lia.
  - assert (rfind c s = -1) as Hnone by lia. apply IH in Hnone.
    rewrite Hnone, orb_false_r. destruct (Ascii.eqb a c); [split|]; done.
Qed.

Lemma slice_prefix a b : slice (a ++ b) None (Some (len a)) = a.
Proof.
  unfold slice. rewrite len_app.
  pose proof (len_nonneg a). pose proof (len_nonneg b).
  assert (clamp (len a + len b) (len a) = len a) as ->
    by (unfold clamp; destruct (Z.ltb_spec (len a) 0); lia).
  destruct (Z.ltb_spec 0 (len a)) as [Hpos|Hzero].
  - replace (Z.to_nat (len a - 0)) with (String.length a + 0)%nat
      by (unfold len; lia).
    change (Z.to_nat 0) with 0%nat.
    by rewrite substring_app_prefix, substring_0_0, append_nil_r.
  - destruct a; [done|]. unfold len in Hzero. simpl in Hzero. lia.
Qed.

Lemma slice_suffix a b : slice (a ++ b) (Some (len a)) None = b.
Proof.
  unfold slice. rewrite len_app.
  pose proof (len_nonneg a). pose proof (len_nonneg b).
  assert (clamp (len a + len b) (len a) = len a) as ->
    by (unfold clamp; destruct (Z.ltb_spec (len a) 0); lia).
  destruct (Z.ltb_spec (len a) (len a + len b)) as [Hpos|Hzero].
  - replace (Z.to_nat (len a)) with (String.length a + 0)%nat
      by (unfold len; lia).
    replace (Z.to_nat (len a + len b - len a)) with (String.length b)
      by (unfold len; lia).
    by rewrite substring_app_r, substring_whole.
  - destruct b; [done|]. unfold len in Hzero. simpl in Hzero. lia.
Qed.

(** Slices behind the first part of a concatenation. *)
Lemma slice_app_shift a b i j :
  0 <= i -> 0 <= j ->
  slice (a ++ b) (Some (len a + i)) (Some (len a + j))
  = slice b (Some i) (Some j).
Proof.
  intros Hi Hj. unfold slice. rewrite len_app.
  pose proof (len_nonneg a). pose proof (len_nonneg b).
  assert (forall k, 0 <= k ->
            clamp (len a + len b) (len a + k) = len a + clamp (len b) k)
    as Hclamp.
  { intros k Hk. unfold clamp.
    destruct (Z.ltb_spec (len a + k) 0), (Z.ltb_spec k 0); lia. }
  rewrite !Hclamp by done.
  pose proof (clamp_range (len b) i (len_nonneg b)).
  pose proof (clamp_range (len b) j (len_nonneg b)).
  destruct (Z.ltb_spec (clamp (len b) i) (clamp (len b) j)),
    (Z.ltb_spec (len a + clamp (len b) i) (len a + clamp (len b) j));
    try lia; [|done].
  replace (Z.to_nat (len a + clamp (len b) i))
    with (String.length a + Z.to_nat (clamp (len b) i))%nat
    by (unfold len in *; lia).
  replace (len a + clamp (len b) j - (len a + clamp (len b) i))
    with (clamp (len b) j - clamp (len b) i) by lia.
  apply substring_app_r.
Qed.

Lemma slice_app_shift_from a b i :
  0 <= i -> slice (a ++ b) (Some (len a + i)) None = slice b (Some i) None.
Proof.
  intros Hi.
  assert (forall s k, slice s (Some k) None = slice s (Some k) (Some (len s)))
    as Hto.
  { intros s k. unfold slice. pose proof (len_nonneg s).
    assert (clamp (len s) (len s) = len s) as ->
      by (unfold clamp; destruct (Z.ltb_spec (len s) 0); lia). done. }
  rewrite !Hto, len_app. apply slice_app_shift; [done|apply len_nonneg].
Qed.

Lemma slice_app_shift_to a b j :
  0 <= j ->
  slice (a ++ b) None (Some (len a + j)) = a ++ slice b None (Some j).
Proof.
  intros Hj. unfold slice. rewrite !len_app.
  pose proof (len_nonneg a). pose proof (len_nonneg b).
  assert (clamp (len a + len b) (len a + j) = len a + clamp (len b) j) as ->.
  { unfold clamp. destruct (Z.ltb_spec (len a + j) 0), (Z.ltb_spec j 0); lia. }
  pose proof (clamp_range (len b) j (len_nonneg b)).
  change (Z.to_nat 0) with 0%nat.
  replace (Z.to_nat (len a + clamp (len b) j - 0))
    with (String.length a + Z.to_nat (clamp (len b) j - 0))%nat
    by (unfold len in *; lia).
  destruct (Z.ltb_spec 0 (clamp (len b) j)).
  - destruct (Z.ltb_spec 0 (len a + clamp (len b) j)); [|lia].
    apply substring_app_prefix.
  - assert (clamp (len b) j = 0) as -> by lia. rewrite Z.add_0_r.
    rewrite append_nil_r. simpl Z.to_nat. rewrite Nat.add_0_r.
    destruct (Z.ltb_spec 0 (len a)).
    + rewrite <- (Nat.add_0_r (String.length a)).
      by rewrite substring_app_prefix, substring_0_0, append_nil_r.
    + destruct a; [done|]. unfold len in *. simpl in *. lia.
Qed.

End MoreStringFacts.

(** ** Outcomes of the classifier *)

Lemma getitem_Ok_inv {K V} `{Countable K} (r : K -> Value) (d : gmap K V) k v :
  getitem r d k = Ok v -> d !! k = Some v.
Proof. unfold getitem. destruct (d !! k); [by intros [= ->]|done]. Qed.

Section ClassifierOutcomes.
Context `{Collaborators}.

(** The classifier returns a pair exactly when the media type is
    settled and one of its rules gives that pair: nothing is returned
    that the rules do not give, and what the first applicable rule gives
    is returned. The preview asset has no ground-sample distance and no
    projection fields; the band asset has the description of its band as
    title and that one band; the true-color asset has B04, B03 and B02;
    the aerosol, water-vapour and scene-classification assets have no
    band annotation. *)
Theorem image_asset_returns_iff asset_href item rts bbox media_type
    key asset :
  image_asset_from_href asset_href item rts bbox media_type = Ok (key, asset)
  <-> exists m,
        asset_media_type_of asset_href media_type = Ok m
        /\ rule_gives asset_href rts bbox m key asset.
Proof.
  split.
  - unfold image_asset_from_href. intros E.
    apply bind_Ok_inv in E as (m & Em & E). exists m. split; [done|].
    destruct (PyStr.contains "_PVI" asset_href) eqn:Hpvi.
    { apply bind_Ok_inv in E as (b04 & E4 & E).
      apply bind_Ok_inv in E as (b03 & E3 & E).
      apply bind_Ok_inv in E as (b02 & E2 & E).
      apply getitem_Ok_inv in E4, E3, E2. injection E as <- <-.
      by apply preview_rule. }
    apply bind_Ok_inv in E as (gsd & Eg & E).
    apply bind_Ok_inv in E as (shp & Es & E).
    apply bind_Ok_inv in E as (t & Et & E).
    apply getitem_Ok_inv in Es.
    destruct (band_id_search asset_href) as [band_id|] eqn:Hband.
    { apply bind_Ok_inv in E as (band & Eb & E).
      apply bind_Ok_inv in E as (band' & Eb' & E).
      apply getitem_Ok_inv in Eb, Eb'. injection E as <- <-.
      assert (band' = band) as -> by congruence.
      by apply (band_rule _ _ _ _ gsd shp t). }
    destruct (PyStr.contains "_TCI_" asset_href) eqn:Htci.
    { apply bind_Ok_inv in E as (b04 & E4 & E).
      apply bind_Ok_inv in E as (b03 & E3 & E).
      apply bind_Ok_inv in E as (b02 & E2 & E).
      apply getitem_Ok_inv in E4, E3, E2. injection E as <- <-.
      by apply (true_color_rule _ _ _ _ gsd shp t). }
    destruct (PyStr.contains "_AOT_" asset_href) eqn:Haot.
    { injection E as <- <-.
      apply (auxiliary_rule _ _ _ _ gsd shp t "AOT"); try done.
      - cbn [first_marker auxiliary_markers]. by rewrite Htci, Haot.
      - simpl. tauto. }
    destruct (PyStr.contains "_WVP_" asset_href) eqn:Hwvp.
    { injection E as <- <-.
      apply (auxiliary_rule _ _ _ _ gsd shp t "WVP"); try done.
      - cbn [first_marker auxiliary_markers]. by rewrite Htci, Haot, Hwvp.
      - simpl. tauto. }
    destruct (PyStr.contains "_SCL_" asset_href) eqn:Hscl; [|discriminate E].
    injection E as <- <-.
    apply (auxiliary_rule _ _ _ _ gsd shp t "SCL"); try done.
    + cbn [first_marker auxiliary_markers].
      by rewrite Htci, Haot, Hwvp, Hscl.
    + simpl. tauto.
  - intros (m & Hm & Hrule). unfold image_asset_from_href. step.
    destruct Hrule
      as [b04 b03 b02 Hpvi H4 H3 H2
         | gsd shp t band_id band Hpvi Hg Hs Ht Hband Hb
         | gsd shp t b04 b03 b02 Hpvi Hg Hs Ht Hband Htci H4 H3 H2
         | gsd shp t prefix title Hpvi Hg Hs Ht Hband Hfm Hin];
      rewrite Hpvi.
    + by step.
    + step. rewrite Hband. by step.
    + step. rewrite Hband, Htci. by step.
    + step. rewrite Hband.
      cbn [first_marker auxiliary_markers] in Hfm. simpl in Hin.
      destruct (PyStr.contains "_TCI_" asset_href).
      { injection Hfm as <-.
        destruct Hin as [?|[?|[?|[]]]]; discriminate. }
      destruct (PyStr.contains "_AOT_" asset_href).
      { injection Hfm as <-.
        destruct Hin as [E|[E|[E|[]]]]; try discriminate E.
        by injection E as <-. }
      destruct (PyStr.contains "_WVP_" asset_href).
      { injection Hfm as <-.
        destruct Hin as [E|[E|[E|[]]]]; try discriminate E.
        by injection E as <-. }
      destruct (PyStr.contains "_SCL_" asset_href); [|discriminate Hfm].
      injection Hfm as <-.
      destruct Hin as [E|[E|[E|[]]]]; try discriminate E.
      by injection E as <-.
Qed.

(** The three steps between the preview rule and the other rules can
    each end the call, whatever marker the href carries: an exception of
    [extract_gsd] goes through; a ground-sample distance whose integer
    part is not a key of the resolution table gives [KeyError] with that
    integer; an exception of [transform_from_bbox] goes through. *)
Theorem annotation_steps_fail_first asset_href item rts bbox media_type m :
  asset_media_type_of asset_href media_type = Ok m ->
  PyStr.contains "_PVI" asset_href = false ->
  (forall e,
     extract_gsd asset_href = Raise e ->
     image_asset_from_href asset_href item rts bbox media_type = Raise e)
  /\ (forall gsd,
        extract_gsd asset_href = Ok gsd ->
        rts !! py_int gsd = None ->
        image_asset_from_href asset_href item rts bbox media_type
        = Raise (KeyError (VInt (py_int gsd))))
  /\ (forall gsd shape_tuple e,
        extract_gsd asset_href = Ok gsd ->
        rts !! py_int gsd = Some shape_tuple ->
        transform_from_bbox bbox [shape_tuple.1; shape_tuple.2] = Raise e ->
        image_asset_from_href asset_href item rts bbox media_type = Raise e).
Proof.
  intros Hm Hpvi. unfold image_asset_from_href. step. rewrite Hpvi.
  repeat split.
  - intros e Hg. by step.
  - intros gsd Hg Hs. by step.
  - intros gsd shp e Hg Hs Ht. step. cbn [fst snd] in *. by step.
Qed.

(** No other exception leaves the classifier than these: the one for a
    media type that cannot be inferred; [KeyError] for a band code that
    the band table does not hold (B04, B03 and B02 for the preview and
    the true-color image, the matched code for a band image); what
    [extract_gsd] or [transform_from_bbox] raise; [KeyError] for a
    ground-sample distance outside the resolution table; and
    [ValueError] for an href that carries no marker. *)
Theorem image_asset_raises_only asset_href item rts bbox media_type e :
  image_asset_from_href asset_href item rts bbox media_type = Raise e ->
  asset_media_type_of asset_href media_type = Raise e
  \/ (exists band_id,
        SENTINEL_BANDS !! band_id = None /\ e = KeyError (VStr band_id)
        /\ (In band_id ["B04"; "B03"; "B02"]
            \/ band_id_search asset_href = Some band_id))
  \/ (PyStr.contains "_PVI" asset_href = false
      /\ (extract_gsd asset_href = Raise e
          \/ exists gsd,
               extract_gsd asset_href = Ok gsd
               /\ ((rts !! py_int gsd = None
                    /\ e = KeyError (VInt (py_int gsd)))
                   \/ (exists shape_tuple,
                         rts !! py_int gsd = Some shape_tuple
                         /\ transform_from_bbox bbox
                              [shape_tuple.1; shape_tuple.2] = Raise e)
                   \/ (no_marker asset_href
                       /\ e = ValueError ("Unexpected asset: "
                                          ++ asset_href))))).
Proof.
  unfold image_asset_from_href. intros E.
  destruct (asset_media_type_of asset_href media_type) as [m|e0] eqn:Hm;
    [|left; rewrite bind_Raise in E; by injection E as ->].
  rewrite bind_Ok in E. right.
  assert (forall (k : Band -> Band -> Band -> Result (string * Asset.t)),
            (forall a b c, k a b c <> Raise e) ->
            (b04 ← getitem VStr SENTINEL_BANDS "B04";
             b03 ← getitem VStr SENTINEL_BANDS "B03";
             b02 ← getitem VStr SENTINEL_BANDS "B02";
             k b04 b03 b02) = Raise e ->
            exists band_id,
              SENTINEL_BANDS !! band_id = None /\ e = KeyError (VStr band_id)
              /\ In band_id ["B04"; "B03"; "B02"]) as Hrgb.
  { intros k Hk Ek. unfold getitem in Ek.
    destruct (SENTINEL_BANDS !! "B04") eqn:E4;
      [|exists "B04"; rewrite ?bind_Raise in Ek; injection Ek as <-;
       simpl; tauto].
    rewrite bind_Ok in Ek.
    destruct (SENTINEL_BANDS !! "B03") eqn:E3;
      [|exists "B03"; rewrite ?bind_Raise in Ek; injection Ek as <-;
       simpl; tauto].
    rewrite bind_Ok in Ek.
    destruct (SENTINEL_BANDS !! "B02") eqn:E2;
      [|exists "B02"; rewrite ?bind_Raise in Ek; injection Ek as <-;
       simpl; tauto].
    rewrite bind_Ok in Ek. by apply Hk in Ek. }
  destruct (PyStr.contains "_PVI" asset_href) eqn:Hpvi.
  { left. apply Hrgb in E as (b & ? & ? & ?); [|done]. exists b. tauto. }
  destruct (extract_gsd asset_href) as [gsd|e0] eqn:Hg;
    [|rewrite bind_Raise in E; injection E as ->; right; tauto].
  rewrite bind_Ok in E.
  destruct (rts !! py_int gsd) as [shp|] eqn:Hs.
  2:{ rewrite (getitem_None VInt rts (py_int gsd) Hs), bind_Raise in E.
      injection E as <-. right. split; [done|]. right. exists gsd. tauto. }
  rewrite (getitem_Some VInt rts (py_int gsd) shp Hs) in E.
  rewrite bind_Ok in E.
  destruct (transform_from_bbox bbox _) as [t|e0] eqn:Ht.
  2:{ rewrite bind_Raise in E. injection E as ->. right. split; [done|].
      right. exists gsd. split; [done|]. right. left. by exists shp. }
  rewrite bind_Ok in E.
  destruct (band_id_search asset_href) as [band_id|] eqn:Hband.
  { left. exists band_id.
    destruct (SENTINEL_BANDS !! band_id) as [band|] eqn:Eb.
    { by rewrite (getitem_Some VStr SENTINEL_BANDS band_id band Eb),
        !bind_Ok in E. }
    rewrite (getitem_None VStr SENTINEL_BANDS band_id Eb), bind_Raise in E.
    injection E as <-. tauto. }
  destruct (PyStr.contains "_TCI_" asset_href) eqn:Htci.
  { left. apply Hrgb in E as (b & ? & ? & ?); [|done]. exists b. tauto. }
  destruct (PyStr.contains "_AOT_" asset_href) eqn:Haot; [done|].
  destruct (PyStr.contains "_WVP_" asset_href) eqn:Hwvp; [done|].
  destruct (PyStr.contains "_SCL_" asset_href) eqn:Hscl; [done|].
  injection E as <-. right. split; [done|]. right. exists gsd.
  split; [done|]. right. right. split; [|done].
  unfold no_marker. cbn [first_marker auxiliary_markers].
  by rewrite Htci, Haot, Hwvp, Hscl.
Qed.

End ClassifierOutcomes.

(** The band rule wins over the true-color marker, for a supplied media
    type and an extension that determines none. *)
Lemma image_asset_returns_iff_witness :
  PyStr.contains "_TCI_" ".../T01CCV_B03_TCI_20m.img" = true
  /\ image_asset_from_href (H := Fixture.product None [])
       ".../T01CCV_B03_TCI_20m.img" Fixture.blank_item
       {[ 20 := (5490, 5490) ]} Fixture.proj_bbox (Some MediaType.COG)
     = Ok ("B03",
           {| Asset.href := ".../T01CCV_B03_TCI_20m.img";
              Asset.media_type := Some MediaType.COG;
              Asset.title := Some "Band 3 - Green";
              Asset.roles := Some ["data"];
              Asset.eo_bands := Some [Fixture.B03];
              Asset.gsd := Some (inject_Z 20);
              Asset.proj_shape := Some [5490; 5490];
              Asset.proj_bbox := Some Fixture.proj_bbox;
              Asset.proj_transform :=
                Some [(109800 # 5490)%Q; 0%Q; inject_Z 499980;
                      0%Q; (-109800 # 5490)%Q; inject_Z 6200020] |}).
Proof.
  split; [reflexivity|].
  apply (proj2 (@image_asset_returns_iff (Fixture.product None [])
                  ".../T01CCV_B03_TCI_20m.img" Fixture.blank_item
                  {[ 20 := (5490, 5490) ]} Fixture.proj_bbox
                  (Some MediaType.COG) _ _)).
  exists MediaType.COG. split; [reflexivity|].
  apply (@band_rule (Fixture.product None [])
           ".../T01CCV_B03_TCI_20m.img" {[ 20 := (5490, 5490) ]}
           Fixture.proj_bbox MediaType.COG (inject_Z 20) (5490, 5490)
           [(109800 # 5490)%Q; 0%Q; inject_Z 499980;
            0%Q; (-109800 # 5490)%Q; inject_Z 6200020]
           "B03" Fixture.B03); reflexivity.
Defined.

(** A true-color image at a resolution the table does not have, and an
    image whose name has no resolution tier. *)
Lemma annotation_steps_fail_first_witness :
  image_asset_from_href (H := Fixture.product None [])
    ".../T01CCV_TCI_20m.jp2" Fixture.blank_item
    {[ 10 := (10980, 10980) ]} Fixture.proj_bbox None
  = Raise (KeyError (VInt 20))
  /\ image_asset_from_href (H := Fixture.product None [])
       ".../T01CCV_TCI.jp2" Fixture.blank_item
       {[ 10 := (10980, 10980) ]} Fixture.proj_bbox None
     = Raise (ValueError "could not convert string to float: 'TC'").
Proof.
  split.
  - destruct (@annotation_steps_fail_first (Fixture.product None [])
                ".../T01CCV_TCI_20m.jp2" Fixture.blank_item
                {[ 10 := (10980, 10980) ]} Fixture.proj_bbox None
                MediaType.JPEG2000 eq_refl eq_refl) as (_ & Hmissing & _).
    exact (Hmissing (inject_Z 20) eq_refl eq_refl).
  - destruct (@annotation_steps_fail_first (Fixture.product None [])
                ".../T01CCV_TCI.jp2" Fixture.blank_item
                {[ 10 := (10980, 10980) ]} Fixture.proj_bbox None
                MediaType.JPEG2000 eq_refl eq_refl) as (Hgsd & _).
    exact (Hgsd _ eq_refl).
Defined.

(** The band table of the fixture has no B8A. *)
Lemma image_asset_raises_only_witness :
  let asset_href := ".../T01CCV_B8A_20m.jp2" in
  let rts : gmap Z (Z * Z) := {[ 20 := (5490, 5490) ]} in
  let e := KeyError (VStr "B8A") in
  asset_media_type_of asset_href None = Raise e
  \/ (exists band_id,
        Fixture.SENTINEL_BANDS !! band_id = None
        /\ e = KeyError (VStr band_id)
        /\ (In band_id ["B04"; "B03"; "B02"]
            \/ band_id_search asset_href = Some band_id))
  \/ (PyStr.contains "_PVI" asset_href = false
      /\ (Fixture.extract_gsd asset_href = Raise e
          \/ exists gsd,
               Fixture.extract_gsd asset_href = Ok gsd
               /\ ((rts !! py_int gsd = None
                    /\ e = KeyError (VInt (py_int gsd)))
                   \/ (exists shape_tuple,
                         rts !! py_int gsd = Some shape_tuple
                         /\ Fixture.transform_from_bbox Fixture.proj_bbox
                              [shape_tuple.1; shape_tuple.2] = Raise e)
                   \/ (no_marker asset_href
                       /\ e = ValueError ("Unexpected asset: "
                                          ++ asset_href))))).
Proof.
  intros asset_href rts e.
  apply (@image_asset_raises_only (Fixture.product None [])
           asset_href Fixture.blank_item rts Fixture.proj_bbox None e).
  vm_compute. reflexivity.
Defined.

(** ** The band pattern *)

Lemma band_id_match_here_Some s b :
  band_id_match_here s = Some b <-> starts_with_band_code s b.
Proof.
  unfold starts_with_band_code. split.
  - intros E.
    destruct s as [|a1 s]; [discriminate E|].
    destruct a1 as [[] [] [] [] [] [] [] []]; try discriminate E.
    destruct s as [|a2 s]; [discriminate E|].
    destruct a2 as [[] [] [] [] [] [] [] []]; try discriminate E.
    destruct s as [|c1 [|c2 [|a5 post]]]; try discriminate E.
    destruct a5 as [[] [] [] [] [] [] [] []]; try discriminate E.
    cbn -[PyStr.is_word] in E. revert E.
    destruct (PyStr.is_word c1) eqn:E1; [|discriminate].
    destruct (PyStr.is_word c2) eqn:E2; [|discriminate].
    intros [= <-]. by exists c1, c2, post.
  - intros (c1 & c2 & post & -> & H1 & H2 & ->).
    rewrite !append_cons. change (EmptyString ++ ?x) with x.
    cbn -[PyStr.is_word]. by rewrite H1, H2.
Qed.

Lemma band_id_search_unfold s :
  band_id_search s
  = match band_id_match_here s with
    | Some b => Some b
    | None =>
        match s with
        | EmptyString => None
        | String _ s' => band_id_search s'
        end
    end.
Proof. by destruct s. Qed.

(** [re.search] on the band pattern: the band code returned is that of
    the leftmost place of the href where an underscore, [B], two word
    characters and an underscore follow one another, and [None] is
    returned exactly when there is no such place. *)
Theorem band_id_search_leftmost s :
  (forall b,
     band_id_search s = Some b <->
     exists pre rest,
       s = pre ++ rest
       /\ starts_with_band_code rest b
       /\ forall pre' rest' b',
            s = pre' ++ rest' ->
            (String.length pre' < String.length pre)%nat ->
            ~ starts_with_band_code rest' b')
  /\ (band_id_search s = None <->
      forall pre rest b, s = pre ++ rest -> ~ starts_with_band_code rest b).
Proof.
  induction s as [|a s [IHsome IHnone]].
  - split.
    + intros b. split; [discriminate|].
      intros (pre & rest & E & Hm & _).
      destruct pre; [|discriminate E]. change (EmptyString ++ rest) with rest in E.
      subst rest. apply band_id_match_here_Some in Hm. discriminate Hm.
    + split; [|done]. intros _ pre rest b E Hm.
      destruct pre; [|discriminate E]. change (EmptyString ++ rest) with rest in E.
      subst rest. apply band_id_match_here_Some in Hm. discriminate Hm.
  - rewrite band_id_search_unfold.
    destruct (band_id_match_here (String a s)) as [b0|] eqn:Ehere.
    + split.
      * intros b. split.
        -- intros [= <-]. exists EmptyString, (String a s).
           split; [done|]. split; [by apply band_id_match_here_Some|].
           intros ? ? ? _ Hlt. simpl in Hlt. lia.
        -- intros (pre & rest & E & Hm & Hleft).
           destruct pre as [|x pre].
           ++ change (EmptyString ++ rest) with rest in E. subst rest.
              apply band_id_match_here_Some in Hm. congruence.
           ++ exfalso. apply (Hleft EmptyString (String a s) b0);
                [done|simpl; lia|by apply band_id_match_here_Some].
      * split; [discriminate|]. intros Hnone. exfalso.
        apply (Hnone EmptyString (String a s) b0);
          [done|by apply band_id_match_here_Some].
    + assert (forall b, ~ starts_with_band_code (String a s) b) as Hno.
      { intros b Hm. apply band_id_match_here_Some in Hm. congruence. }
      split.
      * intros b. rewrite IHsome. split.
        -- intros (pre & rest & -> & Hm & Hleft).
           exists (String a pre), rest. split; [done|]. split; [done|].
           intros pre' rest' b' E Hlt. destruct pre' as [|x pre'].
           ++ change (EmptyString ++ rest') with rest' in E. subst rest'.
              apply Hno.
           ++ rewrite !append_cons in E. injection E as <- E.
              eapply Hleft; [eassumption|]. simpl in Hlt. lia.
        -- intros (pre & rest & E & Hm & Hleft). destruct pre as [|x pre].
           ++ change (EmptyString ++ rest) with rest in E. subst rest.
              by apply Hno in Hm.
           ++ rewrite append_cons in E. injection E as <- ->.
              exists pre, rest. split; [done|]. split; [done|].
              intros pre' rest' b' E' Hlt.
              apply (Hleft (String a pre') rest' b').
              ** by rewrite append_cons, E'.
              ** simpl. lia.
      * rewrite IHnone. split.
        -- intros Hnone pre rest b E. destruct pre as [|x pre].
           ++ change (EmptyString ++ rest) with rest in E. subst rest.
              apply Hno.
           ++ rewrite append_cons in E. injection E as <- ->.
              by eapply Hnone.
        -- intros Hnone pre rest b E.
           apply (Hnone (String a pre) rest b). by rewrite append_cons, E.
Qed.

Lemma band_id_search_leftmost_witness :
  exists pre rest,
    "IMG_DATA/R20m/T01CCV_20210214T042702_B8A_20m.jp2" = pre ++ rest
    /\ starts_with_band_code rest "B8A"
    /\ forall pre' rest' b',
         "IMG_DATA/R20m/T01CCV_20210214T042702_B8A_20m.jp2" = pre' ++ rest' ->
         (String.length pre' < String.length pre)%nat ->
         ~ starts_with_band_code rest' b'.
Proof.
  apply (proj1 (band_id_search_leftmost
                  "IMG_DATA/R20m/T01CCV_20210214T042702_B8A_20m.jp2")).
  reflexivity.
Defined.

(** ** The suffix of the auxiliary keys *)

(** The key of an auxiliary image is its prefix, a hyphen and at most
    three characters: [href[-7:-4]] has three characters when the href
    has seven or more, and as many as the href has beyond its last four
    otherwise (none for an href of four characters or fewer). When the
    href ends in three characters followed by four more, the suffix is
    those three characters. *)
Theorem suffixed_key_suffix prefix asset_href :
  String.length (suffixed_key prefix asset_href)
  = (String.length prefix + 1
     + Nat.min 3 (String.length asset_href - 4))%nat
  /\ forall front suffix tail,
       asset_href = front ++ suffix ++ tail ->
       String.length suffix = 3%nat ->
       String.length tail = 4%nat ->
       suffixed_key prefix asset_href = prefix ++ "-" ++ suffix.
Proof.
  unfold suffixed_key. split.
  - rewrite !length_append. cbn [String.length].
    enough (String.length (PyStr.slice asset_href (Some (-7)) (Some (-4)))
            = Nat.min 3 (String.length asset_href - 4)) as -> by lia.
    unfold PyStr.slice.
    set (n := PyStr.len asset_href).
    assert (n = Z.of_nat (String.length asset_href)) as Hn by reflexivity.
    assert (PyStr.clamp n (-7) = Z.max (n - 7) 0) as ->
      by (unfold PyStr.clamp; simpl; lia).
    assert (PyStr.clamp n (-4) = Z.max (n - 4) 0) as ->
      by (unfold PyStr.clamp; simpl; lia).
    destruct (Z.ltb_spec (Z.max (n - 7) 0) (Z.max (n - 4) 0)).
    + rewrite substring_length. lia.
    + cbn [String.length]. lia.
  - intros front suffix tail -> Hs Ht. do 2 f_equal.
    rewrite <- append_assoc. rewrite slice_before_tail4 by done.
    transitivity (PyStr.slice (front ++ suffix) (Some (PyStr.len front)) None);
      [|apply slice_suffix].
    unfold PyStr.slice. rewrite len_app.
    assert (PyStr.len suffix = 3) as -> by (unfold PyStr.len; lia).
    pose proof (len_nonneg front) as Hf.
    assert (PyStr.clamp (PyStr.len front + 3) (-3)
            = PyStr.clamp (PyStr.len front + 3) (PyStr.len front)) as ->.
    { unfold PyStr.clamp. change (-3 <? 0) with true. cbv iota.
      destruct (Z.ltb_spec (PyStr.len front) 0); lia. }
    reflexivity.
Qed.

Lemma suffixed_key_suffix_witness :
  suffixed_key "visual" "IMG_DATA/R10m/T01CCV_20210214T042702_TCI_10m.jp2"
  = "visual-10m".
Proof.
  apply (proj2 (suffixed_key_suffix "visual"
                  "IMG_DATA/R10m/T01CCV_20210214T042702_TCI_10m.jp2")
           "IMG_DATA/R10m/T01CCV_20210214T042702_TCI_" "10m" ".jp2");
    reflexivity.
Defined.

(** ** [os.path.splitext] and the media type *)

Section SplitextFacts.
Import PyStr.

Lemma slice_to_0 p : slice p None (Some 0) = EmptyString.
Proof.
  unfold slice. pose proof (clamp_range (len p) 0 (len_nonneg p)) as Hc.
  assert (clamp (len p) 0 = 0) as ->
    by (unfold clamp in *; simpl in *; lia).
  reflexivity.
Qed.

Lemma has_non_dot_shift a b i fuel :
  0 <= i ->
  os_path.has_non_dot (a ++ b) (len a + i) fuel = os_path.has_non_dot b i fuel.
Proof.
  revert i. induction fuel as [|fuel IH]; intros i Hi; [done|].
  cbn [os_path.has_non_dot].
  replace (len a + i + 1) with (len a + (i + 1)) by lia.
  rewrite slice_app_shift by lia. rewrite IH by lia. reflexivity.
Qed.

(** The extension [os.path.splitext] cuts off: the two parts make up the
    path again, and the extension is empty or a dot followed by
    characters among which there is neither a dot nor a slash. *)
Theorem splitext_extension_shape p :
  (os_path.splitext p).1 ++ (os_path.splitext p).2 = p
  /\ ((os_path.splitext p).2 = EmptyString
      \/ exists rest,
           (os_path.splitext p).2 = String "." rest
           /\ contains "." rest = false
           /\ contains "/" rest = false).
Proof.
  split; [apply splitext_app|].
  unfold os_path.splitext.
  destruct (Z.ltb_spec (rfind "/" p) (rfind "." p)) as [Hlt|Hge];
    cbn [andb]; [|left; apply slice_to_0].
  destruct (os_path.has_non_dot _ _ _); cbn [snd]; [|left; apply slice_to_0].
  right. pose proof (rfind_range "/" p) as Hsep.
  destruct (rfind_decompose "." p) as (pre & post & E & Hlen & Hpost); [lia|].
  exists post. rewrite <- Hlen. rewrite E at 1. rewrite slice_suffix.
  split; [done|]. split; [by apply rfind_none_iff|].
  apply rfind_none_iff.
  rewrite <- Hlen in Hlt. rewrite E, rfind_app in Hlt. cbn [rfind] in Hlt.
  pose proof (rfind_range "/" post) as Hr.
  pose proof (rfind_range "/" pre) as Hr'.
  destruct (Z.leb_spec 0 (rfind "/" post)); [|lia].
  destruct (Z.leb_spec 0 (rfind "/" post + 1)); lia.
Qed.

(** Only the last component of a path decides its extension. *)
Lemma splitext_last_component dir name :
  contains "/" name = false ->
  os_path.splitext (dir ++ "/" ++ name)
  = (dir ++ "/" ++ (os_path.splitext name).1, (os_path.splitext name).2).
Proof.
  intros Hname. apply rfind_none_iff in Hname.
  rewrite <- !append_assoc. set (a := dir ++ "/").
  assert (len a = len dir + 1) as Ha by (subst a; by rewrite len_app).
  pose proof (len_nonneg dir) as Hdir.
  unfold os_path.splitext.
  assert (rfind "/" (a ++ name) = len dir) as ->.
  { rewrite rfind_app, Hname. simpl (0 <=? -1). cbv iota. subst a.
    rewrite rfind_app. simpl. lia. }
  rewrite Hname.
  pose proof (rfind_range "." name) as Hd.
  pose proof (rfind_range "." dir) as Hd'.
  rewrite (rfind_app "." a name).
  destruct (Z.leb_spec 0 (rfind "." name)) as [Hdot|Hnodot].
  - destruct (Z.ltb_spec (len dir) (len a + rfind "." name)); [|lia].
    destruct (Z.ltb_spec (-1) (rfind "." name)); [|lia].
    replace (len dir + 1) with (len a + 0) by lia.
    replace (Z.to_nat (len a + rfind "." name - (len a + 0)))
      with (Z.to_nat (rfind "." name - (-1 + 1))) by lia.
    rewrite has_non_dot_shift by lia. change (-1 + 1) with 0.
    destruct (os_path.has_non_dot name 0 _); cbn [andb fst snd].
    + by rewrite slice_app_shift_to, slice_app_shift_from by lia.
    + by rewrite !slice_to_0.
  - assert (rfind "." name = -1) as -> by lia. simpl (-1 <? -1).
    assert (rfind "." a = rfind "." dir) as ->.
    { subst a. rewrite rfind_app. reflexivity. }
    destruct (Z.ltb_spec (len dir) (rfind "." dir)); [lia|].
    cbn [andb fst snd]. by rewrite !slice_to_0.
Qed.

End SplitextFacts.

Section PathFacts.
Context `{Collaborators}.

(** Only the last component of the href decides the media type that is
    inferred: what stands in front of the last slash, dots included,
    does not count. The classifier works on [dir/name] with the media
    type that the first step gives for [name]. *)
Theorem media_type_of_last_component dir name :
  PyStr.contains "/" name = false ->
  (os_path.splitext (dir ++ "/" ++ name)).2 = (os_path.splitext name).2
  /\ forall item rts bbox m,
       asset_media_type_of name None = Ok m ->
       classifies_with_media_type (dir ++ "/" ++ name) item rts bbox None m.
Proof.
  intros Hname. split; [by rewrite splitext_last_component|].
  intros item rts bbox m Hm. apply classifier_uses_media_type.
  unfold asset_media_type_of in *.
  rewrite splitext_last_component by done. cbn [snd]. revert Hm.
  destruct (String.eqb _ ".jp2"); [done|].
  destruct (existsb _ _); [done|discriminate].
Qed.

(** The href the classifier gets for an image path (line 117). An
    absolute image path is taken as it is, and the granule href is
    dropped; a relative one is put behind the granule href, with a slash
    between them unless the granule href is empty or ends in one. The
    markers are looked for in the whole href: with [_PVI] in the granule
    href, every relative image path is returned as the preview. *)
Theorem image_href_join granule_href image_path :
  (PyStr.startswith "/" image_path = true ->
   os_path.join granule_href image_path = image_path)
  /\ (PyStr.startswith "/" image_path = false ->
      (os_path.join granule_href image_path = granule_href ++ image_path
       /\ (granule_href = EmptyString
           \/ PyStr.endswith_char "/" granule_href = true))
      \/ (os_path.join granule_href image_path
          = granule_href ++ "/" ++ image_path
          /\ granule_href <> EmptyString
          /\ PyStr.endswith_char "/" granule_href = false))
  /\ (PyStr.startswith "/" image_path = false ->
      PyStr.contains "_PVI" granule_href = true ->
      forall item rts bbox media_type m b04 b03 b02,
        asset_media_type_of (os_path.join granule_href image_path)
          media_type = Ok m ->
        SENTINEL_BANDS !! "B04" = Some b04 ->
        SENTINEL_BANDS !! "B03" = Some b03 ->
        SENTINEL_BANDS !! "B02" = Some b02 ->
        image_asset_from_href (os_path.join granule_href image_path)
          item rts bbox media_type
        = Ok ("preview",
              {| Asset.href := os_path.join granule_href image_path;
                 Asset.media_type := Some m;
                 Asset.title := Some "True color preview";
                 Asset.roles := Some ["data"];
                 Asset.eo_bands := Some [b04; b03; b02];
                 Asset.gsd := None;
                 Asset.proj_shape := None;
                 Asset.proj_bbox := None;
                 Asset.proj_transform := None |})).
Proof.
  unfold os_path.join. split; [by intros ->|]. split.
  - intros ->.
    destruct (String.eqb_spec granule_href "") as [->|Hne]; cbn [orb].
    { left. split; [done|by left]. }
    destruct (PyStr.endswith_char "/" granule_href).
    + left. split; [done|by right].
    + right. done.
  - intros -> Hpvi item rts bbox media_type m b04 b03 b02 Hm H4 H3 H2.
    assert (PyStr.contains "_PVI"
              (if String.eqb granule_href "" || PyStr.endswith_char "/" granule_href
               then granule_href ++ image_path
               else granule_href ++ "/" ++ image_path) = true) as Hjoin.
    { destruct (_ || _); by apply contains_app_l. }
    unfold image_asset_from_href. rewrite Hm, bind_Ok, Hjoin. by step.
Qed.

End PathFacts.

Lemma splitext_extension_shape_witness :
  exists rest,
    (os_path.splitext "a.b/T01CCV_B04_10m.tar.JP2").2 = String "." rest
    /\ PyStr.contains "." rest = false /\ PyStr.contains "/" rest = false.
Proof.
  destruct (splitext_extension_shape "a.b/T01CCV_B04_10m.tar.JP2")
    as [_ [Hempty | Hshape]].
  - vm_compute in Hempty. discriminate Hempty.
  - exact Hshape.
Defined.

(** The dot of [.SAFE] in the directory does not count. *)
Lemma media_type_of_last_component_witness :
  (os_path.splitext
     ("S2A_MSIL2A_20160327T204522.SAFE/QI_DATA" ++ "/" ++ "T01CCV_PVI.jp2")).2
  = ".jp2"
  /\ image_asset_from_href (H := Fixture.product None [])
       ("S2A_MSIL2A_20160327T204522.SAFE/QI_DATA" ++ "/" ++ "T01CCV_PVI.jp2")
       Fixture.blank_item ∅ [] None
     = Ok ("preview",
           {| Asset.href :=
                "S2A_MSIL2A_20160327T204522.SAFE/QI_DATA" ++ "/"
                ++ "T01CCV_PVI.jp2";
              Asset.media_type := Some MediaType.JPEG2000;
              Asset.title := Some "True color preview";
              Asset.roles := Some ["data"];
              Asset.eo_bands :=
                Some [Fixture.B04; Fixture.B03; Fixture.B02];
              Asset.gsd := None;
              Asset.proj_shape := None;
              Asset.proj_bbox := None;
              Asset.proj_transform := None |}).
Proof.
  assert (PyStr.contains "/" "T01CCV_PVI.jp2" = false) as Hname
    by (vm_compute; reflexivity).
  destruct (@media_type_of_last_component (Fixture.product None [])
              "S2A_MSIL2A_20160327T204522.SAFE/QI_DATA" "T01CCV_PVI.jp2"
              Hname) as [Hext Hclass].
  split; [rewrite Hext; vm_compute; reflexivity|].
  assert (asset_media_type_of "T01CCV_PVI.jp2" None = Ok MediaType.JPEG2000)
    as Hm by (vm_compute; reflexivity).
  destruct (Hclass Fixture.blank_item ∅ [] MediaType.JPEG2000 Hm)
    as (_ & _ & Hpreview & _).
  apply Hpreview; vm_compute; reflexivity.
Defined.

(** A granule directory with [_PVI] in its name. *)
Lemma image_href_join_witness :
  image_asset_from_href (H := Fixture.product None [])
    (os_path.join "S2A_PVI.SAFE" "IMG_DATA/T01CCV_B04_10m.jp2")
    Fixture.blank_item ∅ [] None
  = Ok ("preview",
        {| Asset.href :=
             os_path.join "S2A_PVI.SAFE" "IMG_DATA/T01CCV_B04_10m.jp2";
           Asset.media_type := Some MediaType.JPEG2000;
           Asset.title := Some "True color preview";
           Asset.roles := Some ["data"];
           Asset.eo_bands := Some [Fixture.B04; Fixture.B03; Fixture.B02];
           Asset.gsd := None;
           Asset.proj_shape := None;
           Asset.proj_bbox := None;
           Asset.proj_transform := None |}).
Proof.
  destruct (@image_href_join (Fixture.product None [])
              "S2A_PVI.SAFE" "IMG_DATA/T01CCV_B04_10m.jp2")
    as (_ & _ & Hpreview).
  apply Hpreview; vm_compute; reflexivity.
Defined.

(** ** Outcomes of the assembler *)

Section AssemblerOutcomes.
Context `{Collaborators}.

Lemma classifies_comprehension granule_href pm gm paths pairs item :
  Forall2 (classifies granule_href pm gm) paths pairs
  <-> list_comprehension
        (fun image_path =>
           image_asset_from_href (os_path.join granule_href image_path) item
             (GranuleMetadata.resolution_to_shape gm)
             (GranuleMetadata.proj_bbox gm)
             (ProductMetadata.image_media_type pm))
        paths = Ok pairs.
Proof.
  rewrite list_comprehension_Ok.
  split; intros Hf; (eapply Forall2_impl; [exact Hf|]); intros p kv Hc;
    [apply Hc|].
  intros item'. exact Hc.
Qed.

Lemma item_before_images_assets sm pm gm o :
  Item.assets (item_before_images sm pm gm o)
  = store_all (metadata_asset_pairs sm pm gm) ∅.
Proof. reflexivity. Qed.

Lemma metadata_asset_pairs_keys sm pm gm :
  (metadata_asset_pairs sm pm gm).*1 = metadata_asset_keys sm pm gm.
Proof. reflexivity. Qed.

Lemma store_all_lookup_None {V} (d : list (string * V)) m k :
  store_all d m !! k = None <-> (k ∉ d.*1) /\ m !! k = None.
Proof.
  unfold store_all. revert m.
  induction d as [|[k0 v0] d IH]; intros m; cbn [foldl fst snd].
  - rewrite fmap_nil. split.
    + intros ?. split; [apply not_elem_of_nil|done].
    + by intros [_ ?].
  - rewrite IH, fmap_cons, not_elem_of_cons, lookup_insert_None. cbn [fst].
    split; [intros (? & ? & ?)|intros ((? & ?) & ?)]; repeat split; done.
Qed.

Lemma item_before_images_fresh sm pm gm o k :
  Item.assets (item_before_images sm pm gm o) !! k = None
  <-> k ∉ metadata_asset_keys sm pm gm.
Proof.
  rewrite item_before_images_assets, store_all_lookup_None,
    metadata_asset_pairs_keys, lookup_empty. tauto.
Qed.

(** A sequence of [add_asset] calls changes the asset map and nothing
    else. *)
Lemma foldl_add_asset d item :
  foldl (fun i kv => Item.add_asset kv.1 kv.2 i) item d
  = {| Item.id := Item.id item;
       Item.geometry := Item.geometry item;
       Item.bbox := Item.bbox item;
       Item.datetime := Item.datetime item;
       Item.properties := Item.properties item;
       Item.providers := Item.providers item;
       Item.platform := Item.platform item;
       Item.constellation := Item.constellation item;
       Item.instruments := Item.instruments item;
       Item.eo_cloud_cover := Item.eo_cloud_cover item;
       Item.sat_orbit_state := Item.sat_orbit_state item;
       Item.sat_relative_orbit := Item.sat_relative_orbit item;
       Item.proj_epsg := Item.proj_epsg item;
       Item.assets := store_all d (Item.assets item);
       Item.links := Item.links item |}.
Proof.
  revert item. induction d as [|[k v] d IH]; intros item; cbn [foldl].
  - by destruct item.
  - rewrite IH. reflexivity.
Qed.

(** The outcome of [create_item] once the readers, the orbit state and
    the EPSG code are there: that of the comprehension, the loop and the
    last two steps. *)
Lemma create_item_after_checks granule_href additional_providers
    read_href_modifier sm pm gm o code :
  readers_give granule_href read_href_modifier sm pm gm ->
  OrbitState_of_value (PyStr.lower (ProductMetadata.orbit_state pm)) = Ok o ->
  GranuleMetadata.epsg gm = Some code ->
  create_item granule_href additional_providers read_href_modifier
  = (pairs ←
       list_comprehension
         (fun image_path =>
            image_asset_from_href (os_path.join granule_href image_path)
              (item_before_images sm pm gm o)
              (GranuleMetadata.resolution_to_shape gm)
              (GranuleMetadata.proj_bbox gm)
              (ProductMetadata.image_media_type pm))
         (ProductMetadata.image_paths pm);
     item ← for_each add_image_asset (py_dict pairs)
              (item_before_images sm pm gm o);
     Ok (finish_item sm item)).
Proof.
  intros (Hsm & Hpm & Hgm) Ho Hepsg. rewrite create_item_stages.
  by rewrite Hsm, bind_Ok, Hpm, bind_Ok, Hgm, bind_Ok, Ho, bind_Ok, Hepsg.
Qed.

Lemma create_item_success granule_href additional_providers
    read_href_modifier sm pm gm o code pairs :
  readers_give granule_href read_href_modifier sm pm gm ->
  OrbitState_of_value (PyStr.lower (ProductMetadata.orbit_state pm)) = Ok o ->
  GranuleMetadata.epsg gm = Some code ->
  Forall2 (classifies granule_href pm gm) (ProductMetadata.image_paths pm)
    pairs ->
  (forall k, k ∈ pairs.*1 -> k ∉ metadata_asset_keys sm pm gm) ->
  create_item granule_href additional_providers read_href_modifier
  = Ok (finish_item sm
          (foldl (fun i kv => Item.add_asset kv.1 kv.2 i)
             (item_before_images sm pm gm o) (py_dict pairs))).
Proof.
  intros Hr Ho Hepsg Hc Hfresh.
  rewrite (create_item_after_checks _ _ _ _ _ _ _ _ Hr Ho Hepsg).
  rewrite (proj1 (classifies_comprehension _ _ _ _ _ _) Hc), bind_Ok.
  destruct (image_asset_loop_ok (py_dict pairs)
              (item_before_images sm pm gm o)) as (item' & E & _).
  { apply py_dict_NoDup. }
  { intros k Hk. apply item_before_images_fresh, Hfresh.
    by apply py_dict_keys. }
  rewrite E, bind_Ok. by apply image_asset_loop_fold in E as [-> _].
Qed.

Lemma create_item_collision granule_href additional_providers
    read_href_modifier sm pm gm o code pairs k :
  readers_give granule_href read_href_modifier sm pm gm ->
  OrbitState_of_value (PyStr.lower (ProductMetadata.orbit_state pm)) = Ok o ->
  GranuleMetadata.epsg gm = Some code ->
  Forall2 (classifies granule_href pm gm) (ProductMetadata.image_paths pm)
    pairs ->
  k ∈ pairs.*1 -> k ∈ metadata_asset_keys sm pm gm ->
  create_item granule_href additional_providers read_href_modifier
  = Raise AssertionError.
Proof.
  intros Hr Ho Hepsg Hc Hk Hmeta.
  rewrite (create_item_after_checks _ _ _ _ _ _ _ _ Hr Ho Hepsg).
  rewrite (proj1 (classifies_comprehension _ _ _ _ _ _) Hc), bind_Ok.
  rewrite (image_asset_loop_collision (py_dict pairs) _ k); [done|..].
  - by apply py_dict_keys.
  - destruct (Item.assets (item_before_images sm pm gm o) !! k) eqn:E;
      [eauto|]. by apply item_before_images_fresh in E.
Qed.

(** The assets of the record that [create_item] returns. *)
Lemma finish_item_assets sm pm gm o pairs :
  Item.assets
    (finish_item sm
       (foldl (fun i kv => Item.add_asset kv.1 kv.2 i)
          (item_before_images sm pm gm o) (py_dict pairs)))
  = with_thumbnail sm
      (store_all pairs ∅ ∪ store_all (metadata_asset_pairs sm pm gm) ∅).
Proof.
  rewrite foldl_add_asset.
  rewrite <- (py_dict_to_map pairs), <- store_all_NoDup
    by apply py_dict_NoDup.
  unfold finish_item, with_thumbnail, thumbnail_asset.
  by destruct (SafeManifest.thumbnail_href sm).
Qed.

(** An exception of a reader ends [create_item] with that exception:
    the product metadata are not read when the manifest cannot be, nor
    the granule metadata when the product metadata cannot be. *)
Theorem create_item_reader_exception granule_href additional_providers
    read_href_modifier :
  (forall e,
     new_SafeManifest granule_href read_href_modifier = Raise e ->
     create_item granule_href additional_providers read_href_modifier
     = Raise e)
  /\ (forall sm e,
        new_SafeManifest granule_href read_href_modifier = Ok sm ->
        new_ProductMetadata (SafeManifest.product_metadata_href sm)
          read_href_modifier = Raise e ->
        create_item granule_href additional_providers read_href_modifier
        = Raise e)
  /\ (forall sm pm e,
        new_SafeManifest granule_href read_href_modifier = Ok sm ->
        new_ProductMetadata (SafeManifest.product_metadata_href sm)
          read_href_modifier = Ok pm ->
        new_GranuleMetadata (SafeManifest.granule_metadata_href sm)
          read_href_modifier = Raise e ->
        create_item granule_href additional_providers read_href_modifier
        = Raise e).
Proof.
  rewrite create_item_stages. repeat split.
  - intros e ->. reflexivity.
  - intros sm e -> E. by rewrite bind_Ok, E.
  - intros sm pm e -> E1 E2. by rewrite bind_Ok, E1, bind_Ok, E2.
Qed.

(** The orbit state of the product is looked up in lowercase among the
    values of the enumeration. When it is none of them, [create_item]
    ends with the [ValueError] of the enumeration, which shows the
    lowercase value as [repr] writes it; this is so whether the granule
    has an EPSG code or not and whatever the image paths are. *)
Theorem create_item_orbit_state granule_href additional_providers
    read_href_modifier sm pm gm :
  readers_give granule_href read_href_modifier sm pm gm ->
  ~ In (PyStr.lower (ProductMetadata.orbit_state pm))
       ["ascending"; "descending"; "geostationary"] ->
  create_item granule_href additional_providers read_href_modifier
  = Raise (ValueError
             (PyStr.repr (PyStr.lower (ProductMetadata.orbit_state pm))
              ++ " is not a valid OrbitState")).
Proof.
  intros (Hsm & Hpm & Hgm) Hnot. rewrite create_item_stages.
  rewrite Hsm, bind_Ok, Hpm, bind_Ok, Hgm, bind_Ok.
  unfold OrbitState_of_value.
  destruct (String.eqb_spec (PyStr.lower (ProductMetadata.orbit_state pm))
              "ascending") as [E|_]; [destruct Hnot; rewrite E; simpl; tauto|].
  destruct (String.eqb_spec (PyStr.lower (ProductMetadata.orbit_state pm))
              "descending") as [E|_]; [destruct Hnot; rewrite E; simpl; tauto|].
  destruct (String.eqb_spec (PyStr.lower (ProductMetadata.orbit_state pm))
              "geostationary") as [E|_]; [destruct Hnot; rewrite E; simpl; tauto|].
  reflexivity.
Qed.

(** The image paths are classified in their order, all of them before
    any image asset is added: the exception of the first path that does
    not classify ends [create_item], also when paths before or after it
    would collide with a metadata asset. *)
Theorem create_item_first_classification_error granule_href
    additional_providers read_href_modifier sm pm gm o code
    before image_path after e :
  readers_give granule_href read_href_modifier sm pm gm ->
  OrbitState_of_value (PyStr.lower (ProductMetadata.orbit_state pm)) = Ok o ->
  GranuleMetadata.epsg gm = Some code ->
  ProductMetadata.image_paths pm = (before ++ image_path :: after)%list ->
  Forall (fun p => exists kv, classifies granule_href pm gm p kv) before ->
  classification_raises granule_href pm gm image_path e ->
  create_item granule_href additional_providers read_href_modifier = Raise e.
Proof.
  intros Hr Ho Hepsg Hpaths Hbefore Hraise.
  rewrite (create_item_after_checks _ _ _ _ _ _ _ _ Hr Ho Hepsg), Hpaths.
  rewrite (list_comprehension_Raise _ before image_path after e);
    [done| |apply Hraise].
  eapply Forall_impl; [exact Hbefore|]. intros p [kv Hkv]. exists kv.
  apply Hkv.
Qed.

(** When every image path classifies, the assertion of the loop fails
    exactly when the key of some image is the key of a metadata asset,
    and a record is returned exactly when no key is. Two images with the
    same key do not make it fail. *)
Theorem create_item_assertion_iff granule_href additional_providers
    read_href_modifier sm pm gm o code pairs :
  readers_give granule_href read_href_modifier sm pm gm ->
  OrbitState_of_value (PyStr.lower (ProductMetadata.orbit_state pm)) = Ok o ->
  GranuleMetadata.epsg gm = Some code ->
  Forall2 (classifies granule_href pm gm) (ProductMetadata.image_paths pm)
    pairs ->
  (create_item granule_href additional_providers read_href_modifier
   = Raise AssertionError
   <-> exists k, k ∈ pairs.*1 /\ k ∈ metadata_asset_keys sm pm gm)
  /\ ((exists item,
         create_item granule_href additional_providers read_href_modifier
         = Ok item)
      <-> forall k, k ∈ pairs.*1 -> k ∉ metadata_asset_keys sm pm gm).
Proof.
  intros Hr Ho Hepsg Hc.
  destruct (decide (Exists (fun k => k ∈ metadata_asset_keys sm pm gm)
                      pairs.*1)) as [Hex|Hno].
  - apply Exists_exists in Hex as (k & Hk & Hmeta).
    pose proof (create_item_collision _ additional_providers _ _ _ _ _ _ _ _
                  Hr Ho Hepsg Hc Hk Hmeta) as E.
    split; split.
    + intros _. eauto.
    + done.
    + intros [item E']. rewrite E in E'. discriminate E'.
    + intros Hfresh. exfalso. by apply (Hfresh k).
  - assert (forall k, k ∈ pairs.*1 -> k ∉ metadata_asset_keys sm pm gm)
      as Hfresh.
    { intros k Hk Hmeta. apply Hno, Exists_exists. eauto. }
    pose proof (create_item_success _ additional_providers _ _ _ _ _ _ _
                  Hr Ho Hepsg Hc Hfresh) as E.
    split; split.
    + rewrite E. discriminate.
    + intros (k & Hk & Hmeta). by apply Hfresh in Hk.
    + done.
    + eauto.
Qed.


(** What the returned record holds under a key. The thumbnail of the
    manifest is stored under ["preview"] without a look at what is
    there, so it replaces a preview image. Under any other key of an
    image, the record holds the asset of the last image path with that
    key: an earlier image with the same key is gone, and no exception
    tells. A metadata asset stays as it was added, and a key that is
    neither has no asset. *)
Theorem create_item_asset_lookup granule_href additional_providers
    read_href_modifier sm pm gm o code pairs :
  readers_give granule_href read_href_modifier sm pm gm ->
  OrbitState_of_value (PyStr.lower (ProductMetadata.orbit_state pm)) = Ok o ->
  GranuleMetadata.epsg gm = Some code ->
  Forall2 (classifies granule_href pm gm) (ProductMetadata.image_paths pm)
    pairs ->
  (forall k, k ∈ pairs.*1 -> k ∉ metadata_asset_keys sm pm gm) ->
  exists item,
    create_item granule_href additional_providers read_href_modifier
    = Ok item
    /\ (forall thumbnail_href,
          SafeManifest.thumbnail_href sm = Some thumbnail_href ->
          Item.assets item !! "preview"
          = Some (thumbnail_asset thumbnail_href))
    /\ (forall k,
          SafeManifest.thumbnail_href sm = None \/ k <> "preview" ->
          (forall before asset after,
             pairs = (before ++ (k, asset) :: after)%list ->
             k ∉ after.*1 ->
             Item.assets item !! k = Some asset)
          /\ (k ∈ metadata_asset_keys sm pm gm ->
              Item.assets item !! k
              = store_all (metadata_asset_pairs sm pm gm) ∅ !! k)
          /\ (k ∉ pairs.*1 -> k ∉ metadata_asset_keys sm pm gm ->
              Item.assets item !! k = None)).
Proof.
  intros Hr Ho Hepsg Hc Hfresh. eexists. split.
  { apply (create_item_success _ additional_providers _ _ _ _ _ _ _
             Hr Ho Hepsg Hc Hfresh). }
  rewrite finish_item_assets. unfold with_thumbnail. split.
  { intros thumbnail_href ->. by rewrite lookup_insert_eq. }
  intros k Hthumb.
  assert (forall m : gmap string Asset.t,
            match SafeManifest.thumbnail_href sm with
            | Some thumbnail_href =>
                <["preview" := thumbnail_asset thumbnail_href]> m
            | None => m
            end !! k = m !! k) as ->.
  { intros m. destruct (SafeManifest.thumbnail_href sm); [|done].
    destruct Hthumb as [?|Hne]; [done|]. by rewrite lookup_insert_ne. }
  rewrite lookup_union. repeat split.
  - intros before asset after -> Hlast.
    assert (store_all (before ++ (k, asset) :: after)%list ∅ !! k
            = Some asset) as ->.
    { unfold store_all. rewrite foldl_app. cbn [foldl fst snd].
      generalize (foldl (fun m kv => <[kv.1 := kv.2]> m)
                    (∅ : gmap string Asset.t) before).
      intros m0.
      assert (forall m : gmap string Asset.t,
                m !! k = Some asset ->
                foldl (fun m kv => <[kv.1 := kv.2]> m) m after !! k
                = Some asset) as Hkeep.
      { clear -Hlast. induction after as [|[k1 v1] after IH]; intros m Hm;
          cbn [foldl fst snd]; [done|].
        rewrite fmap_cons in Hlast. cbn [fst] in Hlast.
        apply not_elem_of_cons in Hlast as [Hne Hlast].
        apply IH; [done|]. by rewrite lookup_insert_ne. }
      apply Hkeep. by rewrite lookup_insert_eq. }
    by destruct (store_all _ ∅ !! k).
  - intros Hmeta.
    assert (store_all pairs ∅ !! k = None) as ->.
    { apply store_all_lookup_None. split; [|done].
      intros Hk. by apply Hfresh in Hk. }
    by destruct (store_all _ ∅ !! k).
  - intros Hk Hmeta.
    assert (store_all pairs ∅ !! k = None) as ->
      by by apply store_all_lookup_None.
    assert (store_all (metadata_asset_pairs sm pm gm) ∅ !! k = None) as ->.
    { apply store_all_lookup_None. by rewrite metadata_asset_pairs_keys. }
    done.
Qed.

(** [create_item] returns a record exactly when the three readers
    answer, the orbit state is, in lowercase, a member of the
    enumeration, the granule has an EPSG code, every image path
    classifies, and no image key is the key of a metadata asset. *)
Theorem create_item_returns_iff granule_href additional_providers
    read_href_modifier :
  (exists item,
     create_item granule_href additional_providers read_href_modifier
     = Ok item)
  <-> exists sm pm gm o code pairs,
        readers_give granule_href read_href_modifier sm pm gm
        /\ OrbitState_of_value
             (PyStr.lower (ProductMetadata.orbit_state pm)) = Ok o
        /\ GranuleMetadata.epsg gm = Some code
        /\ Forall2 (classifies granule_href pm gm)
             (ProductMetadata.image_paths pm) pairs
        /\ forall k, k ∈ pairs.*1 -> k ∉ metadata_asset_keys sm pm gm.
Proof.
  split.
  - intros [item E]. rewrite create_item_stages in E.
    apply bind_Ok_inv in E as (sm & Hsm & E).
    apply bind_Ok_inv in E as (pm & Hpm & E).
    apply bind_Ok_inv in E as (gm & Hgm & E).
    apply bind_Ok_inv in E as (o & Ho & E).
    destruct (GranuleMetadata.epsg gm) as [code|] eqn:Hepsg; [|discriminate].
    apply bind_Ok_inv in E as (pairs & Hpairs & E).
    apply bind_Ok_inv in E as (item' & Eloop & _).
    exists sm, pm, gm, o, code, pairs.
    split; [by repeat split|]. do 2 (split; [done|]).
    split; [by eapply classifies_comprehension|].
    intros k Hk. apply item_before_images_fresh with (o := o).
    apply image_asset_loop_fold in Eloop as [_ Hfresh].
    apply Hfresh. by apply py_dict_keys.
  - intros (sm & pm & gm & o & code & pairs & Hr & Ho & Hepsg & Hc & Hfresh).
    eexists.
    apply (create_item_success _ additional_providers _ _ _ _ _ _ _
             Hr Ho Hepsg Hc Hfresh).
Qed.

End AssemblerOutcomes.

(** ** The assembler on further inputs *)

(** The granule reader fails with an [OSError]. *)
Lemma create_item_reader_exception_witness :
  create_item
    (H := Fixture.unreadable_granule (OtherError "OSError" "MTD_TL.xml"))
    Fixture.granule_href None None
  = Raise (OtherError "OSError" "MTD_TL.xml").
Proof.
  destruct (@create_item_reader_exception
              (Fixture.unreadable_granule (OtherError "OSError" "MTD_TL.xml"))
              Fixture.granule_href None None) as (_ & _ & Hgranule).
  exact (Hgranule (Fixture.safe_manifest None)
           (Fixture.product_metadata "DESCENDING" [])
           (OtherError "OSError" "MTD_TL.xml") eq_refl eq_refl eq_refl).
Defined.

(** An orbit state outside the enumeration, on a granule without EPSG
    code. *)
Lemma create_item_orbit_state_witness :
  create_item (H := Fixture.product_without_epsg "Sun-Synchronous")
    Fixture.granule_href None None
  = Raise (ValueError "'sun-synchronous' is not a valid OrbitState").
Proof.
  eapply eq_trans.
  - apply (@create_item_orbit_state
             (Fixture.product_without_epsg "Sun-Synchronous")
             Fixture.granule_href None None
             (Fixture.safe_manifest None)
             (Fixture.product_metadata "Sun-Synchronous"
                [Fixture.band_B04_10m])
             (Fixture.granule_metadata None)).
    + repeat split.
    + intros Hin. vm_compute in Hin.
      destruct Hin as [E|[E|[E|[]]]]; discriminate E.
  - vm_compute. reflexivity.
Defined.

(** The second of three image paths carries no marker. *)
Lemma create_item_first_classification_error_witness :
  create_item
    (H := Fixture.product None
            [Fixture.band_B04_10m;
             "GRANULE/L2A_T01CCV/IMG_DATA/R10m/T01CCV_20210214T042702_XYZ_10m.jp2";
             Fixture.band_B04_20m])
    Fixture.granule_href None None
  = Raise (ValueError
             ("Unexpected asset: " ++ Fixture.granule_href ++ "/"
              ++ "GRANULE/L2A_T01CCV/IMG_DATA/R10m/T01CCV_20210214T042702_XYZ_10m.jp2")).
Proof.
  set (bad :=
         "GRANULE/L2A_T01CCV/IMG_DATA/R10m/T01CCV_20210214T042702_XYZ_10m.jp2").
  set (paths := [Fixture.band_B04_10m; bad; Fixture.band_B04_20m]).
  apply (@create_item_first_classification_error
           (Fixture.product None paths) Fixture.granule_href None None
           (Fixture.safe_manifest None)
           (Fixture.product_metadata "DESCENDING" paths)
           (Fixture.granule_metadata (Some 32701))
           DESCENDING 32701
           [Fixture.band_B04_10m] bad [Fixture.band_B04_20m]).
  - repeat split.
  - vm_compute. reflexivity.
  - reflexivity.
  - reflexivity.
  - constructor; [|constructor]. eexists. intros item. vm_compute.
    reflexivity.
  - intros item. vm_compute. reflexivity.
Defined.

(** A manifest whose asset is keyed ["preview"], and a preview image. *)
Lemma create_item_assertion_iff_witness :
  create_item
    (H := Fixture.collaborators (Fixture.safe_manifest_keyed "preview")
            (Fixture.product_metadata "DESCENDING" [Fixture.preview_image])
            (Fixture.granule_metadata (Some 32701)))
    Fixture.granule_href None None
  = Raise AssertionError.
Proof.
  set (sm := Fixture.safe_manifest_keyed "preview").
  set (pm := Fixture.product_metadata "DESCENDING" [Fixture.preview_image]).
  set (gm := Fixture.granule_metadata (Some 32701)).
  assert (exists pairs,
            list_comprehension
              (fun image_path =>
                 image_asset_from_href (H := Fixture.collaborators sm pm gm)
                   (os_path.join Fixture.granule_href image_path)
                   Fixture.blank_item
                   (GranuleMetadata.resolution_to_shape gm)
                   (GranuleMetadata.proj_bbox gm)
                   (ProductMetadata.image_media_type pm))
              [Fixture.preview_image] = Ok pairs
            /\ pairs.*1 = ["preview"]) as (pairs & Hl & Hkeys)
    by (eexists; split; vm_compute; reflexivity).
  apply classifies_comprehension in Hl.
  destruct (@create_item_assertion_iff (Fixture.collaborators sm pm gm)
              Fixture.granule_href None None sm pm gm DESCENDING 32701 pairs)
    as [[_ Hraise] _].
  - repeat split.
  - vm_compute. reflexivity.
  - reflexivity.
  - exact Hl.
  - apply Hraise. exists "preview". rewrite Hkeys. split.
    + apply list_elem_of_singleton. reflexivity.
    + apply list_elem_of_In. vm_compute. tauto.
Defined.


(** The same product: the thumbnail is under ["preview"], and the
    asset under ["B04"] is that of the second image. *)
Lemma create_item_asset_lookup_witness :
  let paths :=
    [Fixture.band_B04_10m; Fixture.band_B04_20m; Fixture.preview_image] in
  let C := Fixture.product (Some "preview.tif") paths in
  exists item,
    create_item (H := C) Fixture.granule_href None None = Ok item
    /\ Item.assets item !! "preview" = Some (thumbnail_asset "preview.tif")
    /\ Asset.href <$> Item.assets item !! "B04"
       = Some (os_path.join Fixture.granule_href Fixture.band_B04_20m)
    /\ Item.assets item !! "B03" = None.
Proof.
  intros paths C.
  set (sm := Fixture.safe_manifest (Some "preview.tif")).
  set (pm := Fixture.product_metadata "DESCENDING" paths).
  set (gm := Fixture.granule_metadata (Some 32701)).
  assert (exists a1 a2 a3,
            list_comprehension
              (fun image_path =>
                 image_asset_from_href (H := C)
                   (os_path.join Fixture.granule_href image_path)
                   Fixture.blank_item
                   (GranuleMetadata.resolution_to_shape gm)
                   (GranuleMetadata.proj_bbox gm)
                   (ProductMetadata.image_media_type pm))
              paths = Ok [("B04", a1); ("B04", a2); ("preview", a3)]
            /\ Asset.href a2
               = os_path.join Fixture.granule_href Fixture.band_B04_20m)
    as (a1 & a2 & a3 & Hl & Hhref)
    by (do 3 eexists; split; vm_compute; reflexivity).
  apply classifies_comprehension in Hl.
  destruct (@create_item_asset_lookup C Fixture.granule_href None None
              sm pm gm DESCENDING 32701
              [("B04", a1); ("B04", a2); ("preview", a3)])
    as (item & E & Hthumb & Hkey).
  - repeat split.
  - vm_compute. reflexivity.
  - reflexivity.
  - exact Hl.
  - intros k Hk Hmeta.
    apply list_elem_of_In in Hk, Hmeta. vm_compute in Hmeta.
    simpl in Hk. destruct Hk as [<-|[<-|[<-|[]]]];
      destruct Hmeta as [E|[E|[E|[E|[E|[]]]]]]; discriminate E.
  - exists item. split; [exact E|]. split; [by apply Hthumb|]. split.
    + destruct (Hkey "B04") as (Hlast & _); [by right|].
      rewrite (Hlast [("B04", a1)] a2 [("preview", a3)] eq_refl).
      * simpl. by rewrite Hhref.
      * intros Hin. apply list_elem_of_In in Hin. simpl in Hin.
        destruct Hin as [E'|[]]. discriminate E'.
    + destruct (Hkey "B03") as (_ & _ & Hnone); [by right|].
      apply Hnone.
      * intros Hin. apply list_elem_of_In in Hin. simpl in Hin.
        destruct Hin as [E'|[E'|[E'|[]]]]; discriminate E'.
      * intros Hin. apply list_elem_of_In in Hin. vm_compute in Hin.
        destruct Hin as [E'|[E'|[E'|[E'|[E'|[]]]]]]; discriminate E'.
Defined.

(** A product with one band image gives a record. *)
Lemma create_item_returns_iff_witness :
  exists item,
    create_item (H := Fixture.product None [Fixture.band_B04_10m])
      Fixture.granule_href None None = Ok item.
Proof.
  set (paths := [Fixture.band_B04_10m]).
  set (sm := Fixture.safe_manifest None).
  set (pm := Fixture.product_metadata "DESCENDING" paths).
  set (gm := Fixture.granule_metadata (Some 32701)).
  assert (exists pairs,
            list_comprehension
              (fun image_path =>
                 image_asset_from_href (H := Fixture.product None paths)
                   (os_path.join Fixture.granule_href image_path)
                   Fixture.blank_item
                   (GranuleMetadata.resolution_to_shape gm)
                   (GranuleMetadata.proj_bbox gm)
                   (ProductMetadata.image_media_type pm))
              paths = Ok pairs
            /\ pairs.*1 = ["B04"]) as (pairs & Hl & Hkeys)
    by (eexists; split; vm_compute; reflexivity).
  apply classifies_comprehension in Hl.
  apply (proj2 (@create_item_returns_iff (Fixture.product None paths)
                  Fixture.granule_href None None)).
  exists sm, pm, gm, DESCENDING, 32701, pairs.
  split; [repeat split|]. split; [vm_compute; reflexivity|].
  split; [reflexivity|]. split; [exact Hl|].
  intros k Hk Hmeta. rewrite Hkeys in Hk.
  apply list_elem_of_In in Hk, Hmeta. vm_compute in Hmeta.
  simpl in Hk. destruct Hk as [<-|[]].
  destruct Hmeta as [E|[E|[E|[E|[E|[]]]]]]; discriminate E.
Defined.
